(** * Territory Conquest: zone control, route decoding and attack preview

    A shallow embedding of the parts of the backend that decide who
    controls a hexagonal zone:

    - [app/core/config.py]               (module [Config])
    - [app/services/h3_service.py]       (module [H3Service])
    - [app/models/activity.py]           (module [ActivityModel])
    - [app/services/zone_control.py]     (module [ZoneControl])
    - [app/services/activity_processor.py] (module [Processor])
    - [app/api/risk.py], [preview_attack] (module [Risk])

    Python [float] values are modelled by exact rationals ([Q]), Python
    [int] by [Z], [str] by [string], [Optional[T]] by [option T], a
    [dict] by an association list in insertion order (the order in which
    Python iterates it), and the Supabase tables by lists of rows threaded
    through a state-and-exception monad. *)

From Stdlib Require Import ZArith QArith Qround List ListSet String Ascii Bool Lia Lqa.
From Equations Require Import Equations.
Import ListNotations.

Local Open Scope Z_scope.
Local Open Scope Q_scope.

(** ** Python values and exceptions *)

Module Py.

Inductive exn : Type :=
| IndexError
| ZeroDivisionError
| TypeError
| ValueError (msg : string)
| ValidationError (msg : string)
| HTTPException (status_code : Z).

Inductive result (A : Type) : Type :=
| Ok (a : A)
| Raise (e : exn).

Arguments Ok {A} a.
Arguments Raise {A} e.

(** Truthiness of an [Optional[str]]: [None] and [''] are falsy. *)
Definition truthy_str (o : option string) : bool :=
  match o with
  | Some s => negb (String.eqb s "")
  | None => false
  end.

(** Truthiness of an [Optional[List[str]]]: [None] and [[]] are falsy. *)
Definition truthy_list {A : Type} (o : option (list A)) : bool :=
  match o with
  | Some (_ :: _) => true
  | _ => false
  end.

(** [o == s] for an optional string [o] and a string [s]. *)
Definition opt_str_eqb (o : option string) (s : string) : bool :=
  match o with
  | Some s' => String.eqb s' s
  | None => false
  end.

Definition Qlt_bool (x y : Q) : bool := negb (Qle_bool y x).

(** [min(a, b)]: Python returns the first argument unless the second is
    strictly smaller. *)
Definition py_min (a b : Q) : Q := if Qlt_bool b a then b else a.

(** [sum(xs)]: left fold from [0]. *)
Definition py_sum (xs : list Q) : Q := fold_left Qplus xs 0.

(** [int(x)] on a float truncates toward zero. *)
Definition py_int (x : Q) : Z := Z.quot (Qnum x) (Zpos (Qden x)).

(** [round(x, 2)]: the nearest multiple of 1/100, ties to even. *)
Definition round_half_even (x : Q) : Z :=
  let f := Qfloor x in
  let r := x - inject_Z f in
  if Qlt_bool r (1 # 2) then f
  else if Qlt_bool (1 # 2) r then (f + 1)%Z
  else if Z.even f then f else (f + 1)%Z.

Definition round2 (x : Q) : Q := Qred (inject_Z (round_half_even (x * 100)) / 100).

(** A [dict] with string keys, kept in insertion order. *)
Section Dict.
Context {V : Type}.

Definition dict : Type := list (string * V).

(** [d.get(k, dflt)] *)
Fixpoint dict_get (d : dict) (k : string) (dflt : V) : V :=
  match d with
  | [] => dflt
  | (k', v) :: d' => if String.eqb k' k then v else dict_get d' k dflt
  end.

(** [d[k] = v]: overwrite in place, or append a new key at the end. *)
Fixpoint dict_set (d : dict) (k : string) (v : V) : dict :=
  match d with
  | [] => [(k, v)]
  | (k', v') :: d' =>
      if String.eqb k' k then (k', v) :: d' else (k', v') :: dict_set d' k v
  end.

Definition dict_keys (d : dict) : list string := map fst d.
Definition dict_values (d : dict) : list V := map snd d.
End Dict.

Arguments dict V : clear implicits.

(** [max(first :: rest, key=lambda x: x[1])]: the first item whose value
    is not exceeded by any other; a later item replaces the current best
    only when its value is strictly greater. *)
Fixpoint max_by_value (best : string * Q) (rest : list (string * Q)) : string * Q :=
  match rest with
  | [] => best
  | x :: rest' =>
      if Qlt_bool (snd best) (snd x) then max_by_value x rest'
      else max_by_value best rest'
  end.

End Py.

Import Py.

(** ** app/core/config.py *)

Module Config.

Record Settings : Type := {
  DEFAULT_H3_RESOLUTION : Z;
  ZONE_CONTROL_THRESHOLD_KM : Q;
  ZONE_DEFENSE_MULTIPLIER : Q;
  ACTIVITY_POINTS_PER_KM : Z;
  TEAM_ACTIVITY_BONUS : Q;
  GYM_ACTIVITY_MULTIPLIER : Q
}.

(** The field defaults of [class Settings]; [settings = Settings()] takes
    them unless the environment overrides a field. *)
Definition settings : Settings := {|
  DEFAULT_H3_RESOLUTION := 9;
  ZONE_CONTROL_THRESHOLD_KM := 5;
  ZONE_DEFENSE_MULTIPLIER := 12 # 10;
  ACTIVITY_POINTS_PER_KM := 10;
  TEAM_ACTIVITY_BONUS := 11 # 10;
  GYM_ACTIVITY_MULTIPLIER := 8 # 10
|}.

End Config.

Import Config.

(** ** The Supabase tables read and written by the zone services *)

Module DB.

(** A row of [zones].  The UUID primary keys of zones are modelled by
    numbers. *)
Record zone : Type := {
  z_id : nat;
  h3_index : string;
  center_lat : Q;
  center_lng : Q;
  bonus_multiplier : Q;
  controlled_by_team : option string;
  controlled_by_user : option string;
  control_percentage : Q;
  total_km : Q;
  total_activities : Z
}.

(** A row of [zone_activities]. *)
Record zone_activity : Type := {
  za_zone_id : nat;
  za_activity_id : string;
  za_user_id : string;
  za_team_id : option string;
  za_distance_km : Q;
  za_points_earned : Z;
  za_recorded_at : Z
}.

(** A row of [zone_control_history]. *)
Record history_entry : Type := {
  he_zone_id : nat;
  previous_team : option string;
  new_team : string
}.

Record db : Type := {
  zones : list zone;
  zone_activities : list zone_activity;
  zone_control_history : list history_entry
}.

(** Code that talks to the database: the tables are threaded through,
    and they survive an exception (nothing is rolled back). *)
Definition M (A : Type) : Type := db -> result A * db.

Definition ret {A : Type} (a : A) : M A := fun st => (Ok a, st).

Definition raise {A : Type} (e : exn) : M A := fun st => (Raise e, st).

Definition bind {A B : Type} (m : M A) (k : A -> M B) : M B :=
  fun st =>
    match m st with
    | (Ok a, st') => k a st'
    | (Raise e, st') => (Raise e, st')
    end.

Definition gets {A : Type} (f : db -> A) : M A := fun st => (Ok (f st), st).

Definition modify (f : db -> db) : M unit := fun st => (Ok tt, f st).

End DB.

Import DB.

Declare Scope db_scope.
Delimit Scope db_scope with db.
Notation "x <- m ;; k" := (bind m (fun x => k))
  (at level 61, m at next level, right associativity) : db_scope.
Notation "m ;;; k" := (bind m (fun _ => k))
  (at level 61, right associativity) : db_scope.

(** ** app/services/zone_control.py *)

Module ZoneControl.

Local Open Scope db_scope.

(** What [_recalculate_zone_control] writes when it commits: the
    [update_data] dictionary, and whether the controlling team changed. *)
Record update_data : Type := {
  upd_team : string;
  upd_percentage : Q;
  upd_user : option string;
  upd_changed : bool
}.

(** [timedelta(days=30)], in seconds. *)
Definition window_seconds : Z := 30 * 86400.

(** The loop over [activities_response.data] that fills [team_km] and
    [user_km]. *)
Definition accumulate_step (acc : dict Q * dict Q) (activity : zone_activity)
  : dict Q * dict Q :=
  let '(team_km, user_km) := acc in
  let tid := za_team_id activity in
  let uid := za_user_id activity in
  let km := za_distance_km activity in
  let team_km' :=
    match tid with
    | Some t =>
        if truthy_str tid then dict_set team_km t (dict_get team_km t 0 + km)
        else team_km
    | None => team_km
    end in
  (team_km', dict_set user_km uid (dict_get user_km uid 0 + km)).

Definition accumulate (data : list zone_activity) : dict Q * dict Q :=
  fold_left accumulate_step data ([], []).

(** [.select(...).eq('zone_id', zone_id).gte('recorded_at', cutoff)] *)
Definition select_window (now : Z) (zone_id : nat) (st : db) : list zone_activity :=
  let cutoff_date := (now - window_seconds)%Z in
  filter (fun a => Nat.eqb (za_zone_id a) zone_id && (cutoff_date <=? za_recorded_at a)%Z)
         (zone_activities st).

(** [.select('*').eq('id', zone_id)] on [zones]. *)
Definition select_zone (zone_id : nat) (st : db) : list zone :=
  filter (fun z => Nat.eqb (z_id z) zone_id) (zones st).

(** [.update(update_data).eq('id', zone_id)] on [zones]:
    [controlled_by_user] is only part of [update_data] when a top user
    was found. *)
Definition apply_update (u : update_data) (z : zone) : zone :=
  {| z_id := z_id z;
     h3_index := h3_index z;
     center_lat := center_lat z;
     center_lng := center_lng z;
     bonus_multiplier := bonus_multiplier z;
     controlled_by_team := Some (upd_team u);
     controlled_by_user :=
       match upd_user u with
       | Some uid => Some uid
       | None => controlled_by_user z
       end;
     control_percentage := upd_percentage u;
     total_km := total_km z;
     total_activities := total_activities z |}.

Definition update_zone (zone_id : nat) (u : update_data) (st : db) : db :=
  {| zones := map (fun z => if Nat.eqb (z_id z) zone_id then apply_update u z else z)
                  (zones st);
     zone_activities := zone_activities st;
     zone_control_history := zone_control_history st |}.

(** [.insert(history_entry)] on [zone_control_history]. *)
Definition insert_history (entry : history_entry) (st : db) : db :=
  {| zones := zones st;
     zone_activities := zone_activities st;
     zone_control_history := zone_control_history st ++ [entry] |}.

(** [_log_control_change] *)
Definition _log_control_change (zone_id : nat) (previous : option string)
    (new : string) : M unit :=
  modify (insert_history
            {| he_zone_id := zone_id; previous_team := previous; new_team := new |}).

Section WithSettings.

Variable settings : Settings.

(** Lines 159-202 of [_recalculate_zone_control]: from the zone row and
    the activities of the window to the update that is to be written,
    [None] when the zone is to be left alone. *)
Definition control_decision (zone : zone) (data : list zone_activity)
  : result (option update_data) :=
  let '(team_km, user_km) := accumulate data in
  match team_km with
  | [] => Ok None
  | first :: rest =>
      let controlling_team := max_by_value first rest in
      let total_km := py_sum (dict_values team_km) in
      let controlling_km :=
        if opt_str_eqb (controlled_by_team zone) (fst controlling_team)
        then snd controlling_team * ZONE_DEFENSE_MULTIPLIER settings
        else snd controlling_team in
      if Qeq_bool total_km 0 then Raise ZeroDivisionError
      else
        let control_percentage := py_min 100 ((controlling_km / total_km) * 100) in
        if Qle_bool 50 control_percentage
           && Qle_bool (ZONE_CONTROL_THRESHOLD_KM settings) controlling_km
        then
          let new_team := fst controlling_team in
          let changed := negb (opt_str_eqb (controlled_by_team zone) new_team) in
          let team_users :=
            filter (fun kv =>
                      existsb (fun a => String.eqb (za_user_id a) (fst kv)
                                        && opt_str_eqb (za_team_id a) new_team)
                              data)
                   user_km in
          Ok (Some {| upd_team := new_team;
                      upd_percentage := round2 control_percentage;
                      upd_user :=
                        match team_users with
                        | [] => None
                        | u :: us => Some (fst (max_by_value u us))
                        end;
                      upd_changed := changed |})
        else Ok None
  end.

(** [_recalculate_zone_control]; [now] is [datetime.utcnow()] in seconds. *)
Definition _recalculate_zone_control (now : Z) (zone_id : nat) : M bool :=
  zone_response <- gets (select_zone zone_id) ;;
  match zone_response with
  | [] => raise IndexError
  | zone :: _ =>
      activities_response <- gets (select_window now zone_id) ;;
      match activities_response with
      | [] => ret false
      | _ :: _ =>
          match control_decision zone activities_response with
          | Raise e => raise e
          | Ok None => ret false
          | Ok (Some update) =>
              modify (update_zone zone_id update) ;;;
              (if upd_changed update
               then _log_control_change zone_id (controlled_by_team zone)
                                        (upd_team update)
               else ret tt) ;;;
              ret (upd_changed update)
          end
      end
  end.

(** Modelled from the spec: the [zones] table itself (its primary key and
    column defaults) is not part of the Python sources.  A fresh row gets
    an unused id, no controller, zero totals and a neutral bonus
    multiplier. *)
Definition insert_zone (h3 : string) (lat lng : Q) (st : db) : zone * db :=
  let row :=
    {| z_id := S (list_max (map z_id (zones st)));
       h3_index := h3;
       center_lat := lat;
       center_lng := lng;
       bonus_multiplier := 1;
       controlled_by_team := None;
       controlled_by_user := None;
       control_percentage := 0;
       total_km := 0;
       total_activities := 0 |} in
  (row, {| zones := zones st ++ [row];
           zone_activities := zone_activities st;
           zone_control_history := zone_control_history st |}).

(** [h3_service.cell_to_lat_lng], a call into the h3 library: the centre
    of the cell, or the exception the library raises on a string that is
    not the index of a cell. *)
Variable cell_to_lat_lng : string -> result (Q * Q).

(** [_get_or_create_zone] *)
Definition _get_or_create_zone (h3 : string) : M zone :=
  response <- gets (fun st => filter (fun z => String.eqb (h3_index z) h3) (zones st)) ;;
  match response with
  | z :: _ => ret z
  | [] =>
      match cell_to_lat_lng h3 with
      | Raise e => raise e
      | Ok (lat, lng) =>
          fun st => let '(row, st') := insert_zone h3 lat lng st in (Ok row, st')
      end
  end.

(** [_create_zone_activity]: one new row of [zone_activities], and the
    lifetime totals of the zone. *)
Definition _create_zone_activity (zone_id : nat) (activity_id user_id : string)
    (team_id : option string) (distance_km : Q) (points_earned : Z)
    (recorded_at : Z) : M zone_activity :=
  let zone_activity :=
    {| za_zone_id := zone_id;
       za_activity_id := activity_id;
       za_user_id := user_id;
       za_team_id := if truthy_str team_id then team_id else None;
       za_distance_km := distance_km;
       za_points_earned := points_earned;
       za_recorded_at := recorded_at |} in
  modify (fun st =>
    {| zones :=
         map (fun z =>
                if Nat.eqb (z_id z) zone_id
                then {| z_id := z_id z;
                        h3_index := h3_index z;
                        center_lat := center_lat z;
                        center_lng := center_lng z;
                        bonus_multiplier := bonus_multiplier z;
                        controlled_by_team := controlled_by_team z;
                        controlled_by_user := controlled_by_user z;
                        control_percentage := control_percentage z;
                        total_km := total_km z + distance_km;
                        total_activities := (total_activities z + 1)%Z |}
                else z)
             (zones st);
       zone_activities := zone_activities st ++ [zone_activity];
       zone_control_history := zone_control_history st |}) ;;;
  ret zone_activity.

(** An entry of the [affected_zones] list. *)
Record affected_zone : Type := {
  az_zone_id : nat;
  az_h3_index : string;
  az_distance_km : Q;
  az_points_earned : Z;
  az_control_changed : bool;
  az_controlled_by_team : option string;
  az_controlled_by_user : option string
}.

(** [km_per_zone], lines 31-35. *)
Definition km_per_zone (h3_indexes : list string) (distance_km : Q) (is_gym : bool) : Q :=
  let km :=
    match h3_indexes with
    | [] => 0
    | _ :: _ => distance_km / inject_Z (Z.of_nat (List.length h3_indexes))
    end in
  if is_gym then km * GYM_ACTIVITY_MULTIPLIER settings else km.

(** The body of [for h3_index in h3_indexes], lines 38-74. *)
Definition process_zone (now : Z) (activity_id user_id : string)
    (team_id : option string) (km : Q) (recorded_at : Z) (h3 : string)
  : M affected_zone :=
  zone <- _get_or_create_zone h3 ;;
  let points :=
    py_int (km * inject_Z (ACTIVITY_POINTS_PER_KM settings) * bonus_multiplier zone) in
  let points :=
    if truthy_str team_id
    then py_int (inject_Z points * TEAM_ACTIVITY_BONUS settings)
    else points in
  _create_zone_activity (z_id zone) activity_id user_id team_id km points recorded_at ;;;
  control_changed <- _recalculate_zone_control now (z_id zone) ;;
  ret {| az_zone_id := z_id zone;
         az_h3_index := h3;
         az_distance_km := km;
         az_points_earned := points;
         az_control_changed := control_changed;
         az_controlled_by_team := controlled_by_team zone;
         az_controlled_by_user := controlled_by_user zone |}.

Fixpoint for_each_zone (body : string -> M affected_zone) (h3_indexes : list string)
    (affected_zones : list affected_zone) : M (list affected_zone) :=
  match h3_indexes with
  | [] => ret affected_zones
  | h3 :: rest =>
      z <- body h3 ;;
      for_each_zone body rest (affected_zones ++ [z])
  end.

(** [process_activity_zones] *)
Definition process_activity_zones (now : Z) (activity_id user_id : string)
    (team_id : option string) (h3_indexes : list string) (distance_km : Q)
    (recorded_at : Z) (is_gym : bool) : M (list affected_zone) :=
  for_each_zone
    (process_zone now activity_id user_id team_id
                  (km_per_zone h3_indexes distance_km is_gym) recorded_at)
    h3_indexes [].

End WithSettings.

End ZoneControl.

(** ** app/services/h3_service.py *)

Module H3Service.

(** [ord(c)] *)
Definition ord (c : ascii) : Z := Z.of_N (N_of_ascii c).

(** One [while True] loop of [_decode_polyline]: reads 5-bit groups from
    the front of what is left of the polyline until a group below [0x20];
    [polyline[index]] past the end raises [IndexError].  Returns the
    accumulated value and the rest of the string. *)
Fixpoint read_value (polyline : list ascii) (res shift : Z)
  : result (Z * list ascii) :=
  match polyline with
  | [] => Raise IndexError
  | c :: rest =>
      let b := (ord c - 63)%Z in
      let res := Z.lor res (Z.shiftl (Z.land b 31) shift) in
      let shift := (shift + 5)%Z in
      if (b <? 32)%Z then Ok (res, rest) else read_value rest res shift
  end.

(** [~(result >> 1) if result & 1 else result >> 1] *)
Definition signed_delta (res : Z) : Z :=
  if Z.eqb (Z.land res 1) 0 then Z.shiftr res 1 else Z.lnot (Z.shiftr res 1).

Definition inspect {A : Type} (a : A) : {b : A | a = b} := exist _ a eq_refl.

(** The outer [while index < len(polyline)] loop, on what is left of the
    polyline from [index] on. *)
Equations? decode_from (polyline : list ascii) (lat lng : Z) (points : list (Q * Q))
  : result (list (Q * Q)) by wf (List.length polyline) lt :=
  decode_from [] lat lng points := Ok points;
  decode_from (c :: p) lat lng points with inspect (read_value (c :: p) 0 0) := {
    | exist _ (Raise e) _ := Raise e;
    | exist _ (Ok (r1, rest1)) H1 with inspect (read_value rest1 0 0) := {
      | exist _ (Raise e) _ := Raise e;
      | exist _ (Ok (r2, rest2)) H2 :=
          let lat := (lat + signed_delta r1)%Z in
          let lng := (lng + signed_delta r2)%Z in
          decode_from rest2 lat lng
            (points ++ [(inject_Z lat / 100000, inject_Z lng / 100000)]) } }.
Proof.
  assert (shorter : forall s res shift v rest,
             read_value s res shift = Ok (v, rest) ->
             (List.length rest < List.length s)%nat).
  { induction s as [|a s IH]; simpl; intros r sh v rest E; [discriminate|].
    destruct (ord a - 63 <? 32)%Z.
    - inversion E; subst. lia.
    - apply IH in E. lia. }
  change (read_value (c :: p) 0 0 = Ok (r1, rest1)) in H1.
  apply shorter in H1. apply shorter in H2.
  simpl in *. lia.
Qed.

(** [_decode_polyline] *)
Definition _decode_polyline (polyline : string) : result (list (Q * Q)) :=
  decode_from (list_ascii_of_string polyline) 0 0 [].

(** [int((radius_km ** 2) / hex_area) + 1] *)
Definition k_rings (radius_km hex_area : Q) : result Z :=
  if Qeq_bool hex_area 0 then Raise ZeroDivisionError
  else Ok (py_int ((radius_km * radius_km) / hex_area) + 1)%Z.

Section WithH3.

(** The calls into the h3 library: [h3.latlng_to_cell], [h3.cell_area]
    with [unit='km^2'] and [h3.grid_disk]. *)
Variable latlng_to_cell : Q -> Q -> Z -> string.
Variable cell_area : string -> Q.
Variable grid_disk : string -> Z -> list string.

(** [self.resolution] *)
Variable resolution : Z.

Definition lat_lng_to_cell (lat lng : Q) : string :=
  latlng_to_cell lat lng resolution.

(** [polyline_to_cells]; the set of cells is kept as a duplicate-free
    list (the order of [list(cells)] is not specified by Python). *)
Definition polyline_to_cells (polyline : string) : result (list string) :=
  match _decode_polyline polyline with
  | Raise e => Raise e
  | Ok points =>
      Ok (fold_left (fun cells p => set_add string_dec (lat_lng_to_cell (fst p) (snd p)) cells)
                    points (empty_set string))
  end.

(** [get_area_cells] *)
Definition get_area_cells (center_lat center_lng radius_km : Q) : result (list string) :=
  let center_cell := lat_lng_to_cell center_lat center_lng in
  let hex_area := cell_area center_cell in
  match k_rings radius_km hex_area with
  | Raise e => Raise e
  | Ok k => Ok (grid_disk center_cell k)
  end.

End WithH3.

End H3Service.

(** ** app/models/activity.py *)

Module ActivityModel.

(** What a request body says about a field of the model: the key is
    absent, or it carries a value (which may be [null]). *)
Inductive field (A : Type) : Type :=
| Omitted
| Given (v : A).

Arguments Omitted {A}.
Arguments Given {A} v.

(** The two fields [ActivityCreate] adds to [ActivityBase], validated. *)
Record ActivityCreate : Type := {
  is_gym_activity : bool;
  assigned_zones : option (list string)
}.

(** [validate_gym_zones(cls, v, info)]; [data_is_gym] is
    [info.data.get('is_gym_activity')]. *)
Definition validate_gym_zones (v : option (list string)) (data_is_gym : option bool)
  : result (option (list string)) :=
  let gym := match data_is_gym with Some b => b | None => false end in
  if gym && negb (truthy_list v)
  then Raise (ValueError "Gym activities must have assigned zones")
  else if negb gym && truthy_list v
  then Raise (ValueError "Only gym activities can have assigned zones")
  else Ok v.

(** Validation of the two fields by pydantic, in declaration order.  A
    field left out of the request takes its declared default, and a
    [@field_validator] is not run on a default value (the declaration of
    [assigned_zones] does not ask for [validate_default]); a [ValueError]
    raised by a validator is reported as a [ValidationError]. *)
Definition validate_ActivityCreate (gym_in : field bool)
    (zones_in : field (option (list string))) : result ActivityCreate :=
  let gym := match gym_in with Omitted => false | Given b => b end in
  match zones_in with
  | Omitted => Ok {| is_gym_activity := gym; assigned_zones := None |}
  | Given v =>
      match validate_gym_zones v (Some gym) with
      | Ok v' => Ok {| is_gym_activity := gym; assigned_zones := v' |}
      | Raise (ValueError msg) => Raise (ValidationError msg)
      | Raise e => Raise e
      end
  end.

End ActivityModel.

(** ** app/services/activity_processor.py *)

Module Processor.

Import ActivityModel.

(** Truthiness of an [Optional[float]]: [None] and [0.0] are falsy. *)
Definition truthy_float (o : option Q) : bool :=
  match o with
  | Some x => negb (Qeq_bool x 0)
  | None => false
  end.

Section WithH3.

Variable settings : Settings.
Variable latlng_to_cell : Q -> Q -> Z -> string.
Variable cell_to_lat_lng : string -> result (Q * Q).
Variable resolution : Z.

(** Lines 39-50 of [create_activity]: which cells the activity touches. *)
Definition resolve_h3_indexes (is_gym_activity : bool)
    (assigned_zones : option (list string)) (polyline : option string)
    (start_lat start_lng : option Q) : result (list string) :=
  if is_gym_activity && truthy_list assigned_zones then
    Ok (match assigned_zones with Some l => l | None => [] end)
  else if truthy_str polyline then
    H3Service.polyline_to_cells latlng_to_cell resolution
      (match polyline with Some p => p | None => EmptyString end)
  else if truthy_float start_lat && truthy_float start_lng then
    match start_lat, start_lng with
    | Some lat, Some lng => Ok [H3Service.lat_lng_to_cell latlng_to_cell resolution lat lng]
    | _, _ => Ok []
    end
  else Ok [].

(** Lines 52-59: the base points of the activity. *)
Definition base_points (distance_km : Q) (is_gym_activity : bool)
    (team_id : option string) : Z :=
  let points_earned := py_int (distance_km * inject_Z (ACTIVITY_POINTS_PER_KM settings)) in
  let points_earned :=
    if is_gym_activity
    then py_int (inject_Z points_earned * GYM_ACTIVITY_MULTIPLIER settings)
    else points_earned in
  if truthy_str team_id
  then py_int (inject_Z points_earned * TEAM_ACTIVITY_BONUS settings)
  else points_earned.

(** [create_activity], as far as zones are concerned: the cells are
    resolved and, when there are any, handed to
    [process_activity_zones].  [team_id] is the team read from [users];
    the rows of [activities], the achievements and the competition
    statistics are left out. *)
Definition create_activity (now : Z) (activity_id user_id : string)
    (team_id : option string) (distance_km : Q) (recorded_at : Z)
    (polyline : option string) (start_lat start_lng : option Q)
    (is_gym_activity : bool) (assigned_zones : option (list string))
  : M (Z * list ZoneControl.affected_zone) :=
  match resolve_h3_indexes is_gym_activity assigned_zones polyline start_lat start_lng with
  | Raise e => raise e
  | Ok h3_indexes =>
      let points_earned := base_points distance_km is_gym_activity team_id in
      match h3_indexes with
      | [] => ret (points_earned, [])
      | _ :: _ =>
          bind (ZoneControl.process_activity_zones settings cell_to_lat_lng now
                  activity_id user_id team_id h3_indexes distance_km recorded_at
                  is_gym_activity)
               (fun affected_zones => ret (points_earned, affected_zones))
      end
  end.

End WithH3.

End Processor.

(** ** app/api/risk.py: [preview_attack] *)

Module Risk.

(** The rows [get_territory_detail] reads for a preview. *)
Record geographic_entity : Type := {
  ge_id : string;
  ge_name : string
}.

Record territory_control : Type := {
  tc_territory_id : string;
  tc_units : option Q;
  tc_defense_bonus : option Q
}.

Record zone_geo : Type := {
  zg_city_id : option string;
  zg_region_id : option string;
  zg_country_id : option string
}.

Record risk_db : Type := {
  geographic_entities : list geographic_entity;
  territory_control_rows : list territory_control;
  zone_rows : list zone_geo
}.

(** The part of the dictionary returned by [get_territory_detail] that
    [preview_attack] looks at; [td_control = None] is the empty
    [control] dictionary. *)
Record territory_detail : Type := {
  td_name : string;
  td_control : option territory_control;
  td_total_hexagons : Z
}.

(** [_get_hexagon_distribution]: [total = len(hexagons)]. *)
Definition total_hexagons (st : risk_db) (territory_id : string) : Z :=
  Z.of_nat (List.length
    (filter (fun z => opt_str_eqb (zg_city_id z) territory_id
                      || opt_str_eqb (zg_region_id z) territory_id
                      || opt_str_eqb (zg_country_id z) territory_id)
            (zone_rows st))).

(** [get_territory_detail]: three [select]s and the hexagon count. *)
Definition get_territory_detail (st : risk_db) (territory_id : string)
  : option territory_detail :=
  match filter (fun g => String.eqb (ge_id g) territory_id) (geographic_entities st) with
  | [] => None
  | territory :: _ =>
      Some {| td_name := ge_name territory;
              td_control :=
                hd_error (filter (fun c => String.eqb (tc_territory_id c) territory_id)
                                 (territory_control_rows st));
              td_total_hexagons := total_hexagons st territory_id |}
  end.

Record preview : Type := {
  territory_name : string;
  current_units : Q;
  attack_units : Z;
  defense_bonus : Q;
  success_probability : Q;
  estimated_hexagons_conquered : Z;
  progress_to_conquest : Q;
  recommendation : string
}.

(** [control.get(key, 0)]: the default [0] stands in only when there is
    no control row at all (the empty dictionary); a row carries both keys,
    and a NULL column comes back as [None]. *)
Definition control_get (control : option territory_control)
    (key : territory_control -> option Q) : option Q :=
  match control with
  | Some c => key c
  | None => Some 0
  end.

(** Line 345: the probability before rounding. *)
Definition raw_success_probability (attack_strength defense_strength : Q) : Q :=
  if Qlt_bool 0 defense_strength
  then py_min 100 ((attack_strength / defense_strength) * 100)
  else 100.

(** Line 361 *)
Definition recommend (success_probability : Q) : string :=
  if Qlt_bool 60 success_probability then "GO!"
  else if Qlt_bool 40 success_probability then "RISKY"
  else "AVOID".

(** [preview_attack]; [units] is checked by [Query(..., ge=1)] before the
    body runs, and [territory_id] is taken to be a well-formed UUID.  The
    tables are returned as they were found: the handler only issues
    [select]s.  Line 343 multiplies the defender's units by one plus the
    bonus: with [None] for either, the arithmetic raises [TypeError]. *)
Definition preview_attack (territory_id : string) (units : Z) (st : risk_db)
  : result preview * risk_db :=
  if (units <? 1)%Z then (Raise (HTTPException 422), st)
  else
    match get_territory_detail st territory_id with
    | None => (Raise (HTTPException 404), st)
    | Some territory =>
        let control := td_control territory in
        match control_get control tc_units, control_get control tc_defense_bonus with
        | Some current_defender_units, Some bonus =>
            let attack_strength := inject_Z units in
            let defense_strength := current_defender_units * (1 + bonus) in
            let success_probability :=
              raw_success_probability attack_strength defense_strength in
            let total_hexagons := td_total_hexagons territory in
            let estimated_conquest :=
              py_int (inject_Z total_hexagons * (success_probability / 200)) in
            (Ok {| territory_name := td_name territory;
                   current_units := current_defender_units;
                   attack_units := units;
                   defense_bonus := bonus;
                   success_probability := round2 success_probability;
                   estimated_hexagons_conquered := estimated_conquest;
                   progress_to_conquest :=
                     if (0 <? total_hexagons)%Z
                     then round2 (inject_Z estimated_conquest / inject_Z total_hexagons * 100)
                     else 0;
                   recommendation := recommend success_probability |},
             st)
        | _, _ => (Raise TypeError, st)
        end
    end.

End Risk.

(** ** Quantities the statements about zone control are phrased with *)

Module ControlSpec.

Import ZoneControl.

(** The team an activity is counted for in [team_km]: its [team_id] when
    that is truthy. *)
Definition counted_team (a : zone_activity) : option string :=
  if truthy_str (za_team_id a) then za_team_id a else None.

(** The raw distance team [t] has in the window. *)
Definition team_total (data : list zone_activity) (t : string) : Q :=
  fold_left (fun s a => if opt_str_eqb (za_team_id a) t then s + za_distance_km a else s)
            data 0.

(** Team [t] has a contribution in [data]. *)
Definition contributes (data : list zone_activity) (t : string) : Prop :=
  exists a, In a data /\ counted_team a = Some t.

(** [team_km] after the loop, and [max(team_km.items(), ...)] when
    [team_km] is not empty (lines 173-174). *)
Definition team_km_of (data : list zone_activity) : dict Q := fst (accumulate data).

Definition controlling_team_of (data : list zone_activity) : option (string * Q) :=
  match team_km_of data with
  | [] => None
  | first :: rest => Some (max_by_value first rest)
  end.

(** [sum(team_km.values())], line 175. *)
Definition window_total (data : list zone_activity) : Q :=
  py_sum (dict_values (team_km_of data)).

(** [controlling_km], lines 178-181. *)
Definition effective_km (settings : Settings) (incumbent : option string)
    (controlling_team : string * Q) : Q :=
  if opt_str_eqb incumbent (fst controlling_team)
  then snd controlling_team * ZONE_DEFENSE_MULTIPLIER settings
  else snd controlling_team.

(** [control_percentage], line 183. *)
Definition percentage (controlling_km total_km : Q) : Q :=
  py_min 100 ((controlling_km / total_km) * 100).

(** The test of line 187. *)
Definition passes_gate (settings : Settings) (control_percentage controlling_km : Q) : bool :=
  Qle_bool 50 control_percentage
  && Qle_bool (ZONE_CONTROL_THRESHOLD_KM settings) controlling_km.

(** The top user of team [t] in the window, lines 198-202. *)
Definition top_user (data : list zone_activity) (t : string) : option string :=
  match filter (fun kv =>
                  existsb (fun a => String.eqb (za_user_id a) (fst kv)
                                    && opt_str_eqb (za_team_id a) t)
                          data)
               (snd (accumulate data)) with
  | [] => None
  | u :: us => Some (fst (max_by_value u us))
  end.

(** A zone row with its [control_percentage] blanked, to compare two rows
    in every other column. *)
Definition forget_percentage (z : zone) : zone :=
  {| z_id := z_id z;
     h3_index := h3_index z;
     center_lat := center_lat z;
     center_lng := center_lng z;
     bonus_multiplier := bonus_multiplier z;
     controlled_by_team := controlled_by_team z;
     controlled_by_user := controlled_by_user z;
     control_percentage := 0;
     total_km := total_km z;
     total_activities := total_activities z |}.

(** The settings with another defense multiplier. *)
Definition with_defense_multiplier (settings : Settings) (m : Q) : Settings :=
  {| DEFAULT_H3_RESOLUTION := DEFAULT_H3_RESOLUTION settings;
     ZONE_CONTROL_THRESHOLD_KM := ZONE_CONTROL_THRESHOLD_KM settings;
     ZONE_DEFENSE_MULTIPLIER := m;
     ACTIVITY_POINTS_PER_KM := ACTIVITY_POINTS_PER_KM settings;
     TEAM_ACTIVITY_BONUS := TEAM_ACTIVITY_BONUS settings;
     GYM_ACTIVITY_MULTIPLIER := GYM_ACTIVITY_MULTIPLIER settings |}.

(** The row [_recalculate_zone_control] reads for a zone id, if any. *)
Definition stored_zone (zone_id : nat) (st : db) : option zone :=
  hd_error (select_zone zone_id st).

(** A recalculation commits when it writes [update_data] to the zone. *)
Definition commits (settings : Settings) (z : zone) (data : list zone_activity) : Prop :=
  exists u, control_decision settings z data = Ok (Some u).

End ControlSpec.

(** ** The framing of an encoded polyline *)

Module PolylineSpec.

Import H3Service.





End PolylineSpec.

(** ** Sample rows used in the examples *)

Module Samples.

Local Open Scope string_scope.
Local Open Scope Q_scope.

(** A contribution of [km] kilometres to zone [zid] by user [u] of team [t],
    recorded at time 0. *)
Definition contribution (zid : nat) (u : string) (t : option string) (km : Q)
  : zone_activity :=
  {| za_zone_id := zid; za_activity_id := "activity"; za_user_id := u;
     za_team_id := t; za_distance_km := km; za_points_earned := 0;
     za_recorded_at := 0 |}.

(** Zone 1, controlled by [team] and [user] at [pct] percent. *)
Definition zone_one (team user : option string) (pct : Q) : zone :=
  {| z_id := 1; h3_index := "8928308280fffff"; center_lat := 0; center_lng := 0;
     bonus_multiplier := 1; controlled_by_team := team;
     controlled_by_user := user; control_percentage := pct;
     total_km := 0; total_activities := 0 |}.

Definition tables (z : zone) (window : list zone_activity) : db :=
  {| zones := [z]; zone_activities := window; zone_control_history := [] |}.

Definition empty_tables : db :=
  {| zones := []; zone_activities := []; zone_control_history := [] |}.



End Samples.

(** ** Further quantities for statements about zone control *)

Module ControlExtraSpec.

Import ZoneControl ControlSpec.

(** The distance in the window that is counted for some team: what
    [sum(team_km.values())] adds up. *)
Definition teamed_distance (data : list zone_activity) : Q :=
  fold_left (fun s a => if truthy_str (za_team_id a) then s + za_distance_km a else s)
            data 0.

(** The test of the window query: the row is of the zone and not older
    than thirty days. *)
Definition in_window (now : Z) (zone_id : nat) (a : zone_activity) : bool :=
  Nat.eqb (za_zone_id a) zone_id && (now - window_seconds <=? za_recorded_at a)%Z.

(** The tables with more rows in [zone_activities]. *)
Definition with_more_activities (extra : list zone_activity) (st : db) : db :=
  {| zones := zones st;
     zone_activities := zone_activities st ++ extra;
     zone_control_history := zone_control_history st |}.

(** Two zone rows agree in every column a recalculation does not write. *)
Definition same_fixed_columns (z z' : zone) : Prop :=
  z_id z' = z_id z /\ h3_index z' = h3_index z
  /\ center_lat z' = center_lat z /\ center_lng z' = center_lng z
  /\ bonus_multiplier z' = bonus_multiplier z
  /\ total_km z' = total_km z /\ total_activities z' = total_activities z.

(** The rows of the window that carry a team. *)
Definition teamed (data : list zone_activity) : list zone_activity :=
  filter (fun a => truthy_str (za_team_id a)) data.

(** A decision without the top user: the team, the stored percentage and
    the change flag. *)
Definition team_decision (d : result (option update_data))
  : result (option (string * Q * bool)) :=
  match d with
  | Ok (Some u) => Ok (Some (upd_team u, upd_percentage u, upd_changed u))
  | Ok None => Ok None
  | Raise e => Raise e
  end.

End ControlExtraSpec.

(** ** Further quantities for statements about an activity's cells *)

Module AllocationExtraSpec.

Import ZoneControl.

(** What [_create_zone_activity] does to a row of [zones]: the lifetime
    totals of zone [zone_id] grow by the distance and by one activity. *)
Definition add_to_totals (zone_id : nat) (distance_km : Q) (z : zone) : zone :=
  if Nat.eqb (z_id z) zone_id
  then {| z_id := z_id z;
          h3_index := h3_index z;
          center_lat := center_lat z;
          center_lng := center_lng z;
          bonus_multiplier := bonus_multiplier z;
          controlled_by_team := controlled_by_team z;
          controlled_by_user := controlled_by_user z;
          control_percentage := control_percentage z;
          total_km := total_km z + distance_km;
          total_activities := (total_activities z + 1)%Z |}
  else z.

(** The primary key of [zones] is unique. *)
Definition unique_zone_ids (st : db) : Prop := NoDup (map z_id (zones st)).

(** The zone a cell resolves to: the first row with its index. *)
Definition zone_of_cell (h3 : string) (st : db) : option zone :=
  hd_error (filter (fun z => String.eqb (h3_index z) h3) (zones st)).

(** The team that holds a cell: none when the cell has no zone yet. *)
Definition controller_before (h3 : string) (st : db) : option string :=
  match zone_of_cell h3 st with
  | Some z => controlled_by_team z
  | None => None
  end.

(** An entry of [affected_zones] against the tables before ([st]) and
    after ([st']) the call: it names the team that held its cell before,
    and its flag tells whether the zone is now stored with another team. *)
Definition reports_previous_controller (st st' : db) (az : affected_zone) : Prop :=
  az_controlled_by_team az = controller_before (az_h3_index az) st
  /\ exists z',
       ControlSpec.stored_zone (az_zone_id az) st' = Some z'
       /\ h3_index z' = az_h3_index az
       /\ (az_control_changed az = true ->
           controlled_by_team z' <> az_controlled_by_team az)
       /\ (az_control_changed az = false ->
           controlled_by_team z' = az_controlled_by_team az).

End AllocationExtraSpec.

(** ** app/services/risk_service.py: summaries and suggestions *)

Module RiskService.

(** A row of [tactical_moves], with the columns the summary reads. *)
Record tactical_move : Type := {
  tm_user_id : string;
  tm_to_territory_id : string;
  tm_was_critical : bool;
  tm_turned_tide : bool;
  tm_units_moved : Z;
  tm_km_allocated : Q
}.

Record impact_summary : Type := {
  total_moves : nat;
  critical_moves : nat;
  conquests_participated : nat;
  territories_impacted : nat;
  total_units_deployed : Z;
  total_km_allocated : Q;
  average_impact_per_move : Q
}.

(** [sum([...])] over integers. *)
Definition py_sum_int (xs : list Z) : Z := fold_left Z.add xs 0%Z.

(** [get_user_impact_summary]; [tactical_moves] is the whole table. *)
Definition get_user_impact_summary (tactical_moves : list tactical_move)
    (user_id : string) : impact_summary :=
  let data := filter (fun m => String.eqb (tm_user_id m) user_id) tactical_moves in
  let total_moves := List.length data in
  let critical_moves := List.length (filter tm_was_critical data) in
  let conquests_participated := List.length (filter tm_turned_tide data) in
  let territories :=
    fold_left (fun s m => set_add string_dec (tm_to_territory_id m) s) data
              (empty_set string) in
  let total_units := py_sum_int (map tm_units_moved data) in
  let total_km := py_sum (map tm_km_allocated data) in
  {| total_moves := total_moves;
     critical_moves := critical_moves;
     conquests_participated := conquests_participated;
     territories_impacted := List.length territories;
     total_units_deployed := total_units;
     total_km_allocated := total_km;
     average_impact_per_move :=
       if Nat.ltb 0 total_moves
       then inject_Z total_units / inject_Z (Z.of_nat total_moves)
       else 0 |}.

(** A row of [v_hot_borders] and a row of [v_active_battles_detail]. *)
Record hot_border : Type := {
  entity_1_name : string;
  entity_2_name : string
}.

Record battle_detail : Type := {
  bd_territory_name : string;
  conquest_progress : Q
}.

Inductive suggestion_target : Type :=
| BorderTarget (border : hot_border)
| BattleTarget (battle : battle_detail).

Record suggestion : Type := {
  sg_type : string;
  sg_priority : string;
  sg_target : suggestion_target;
  sg_reason : string;
  sg_recommended_units : Z
}.

(** [get_hot_borders]: [.limit(limit)] on the view. *)
Definition get_hot_borders (v_hot_borders : list hot_border) (limit : nat)
  : list hot_border :=
  firstn limit v_hot_borders.

(** [get_active_battles]: the filter on the user is not implemented
    ([pass]); [.limit(50)] on the view. *)
Definition get_active_battles (v_active_battles_detail : list battle_detail)
    (user_related : bool) (user_id : option string) : list battle_detail :=
  firstn 50 v_active_battles_detail.

(** [suggest_strategic_targets] *)
Definition suggest_strategic_targets (v_hot_borders : list hot_border)
    (v_active_battles_detail : list battle_detail) (user_id user_city : string)
  : list suggestion :=
  let hot_borders := get_hot_borders v_hot_borders 5 in
  let suggestions :=
    fold_left
      (fun suggestions border =>
         if String.eqb user_city (entity_1_name border)
            || String.eqb user_city (entity_2_name border)
         then suggestions ++
              [{| sg_type := "defend_border";
                  sg_priority := "HIGH";
                  sg_target := BorderTarget border;
                  sg_reason := "Frontera con " ++ entity_2_name border ++ " en disputa";
                  sg_recommended_units := 10 |}]
         else suggestions)
      hot_borders [] in
  let battles := get_active_battles v_active_battles_detail true (Some user_id) in
  fold_left
    (fun suggestions battle =>
       if Qlt_bool 50 (conquest_progress battle)
       then suggestions ++
            [{| sg_type := "defend_territory";
                sg_priority := "CRITICAL";
                sg_target := BattleTarget battle;
                sg_reason := bd_territory_name battle ++ " a punto de caer";
                sg_recommended_units := 15 |}]
       else suggestions)
    (firstn 3 battles) suggestions.

End RiskService.

(** ** app/services/activity_processor.py: achievements and deletion *)

Module ProcessorMore.

(** Rows of [users], [teams], [activities], [achievements] and
    [user_achievements], with the columns the two functions read or
    write. *)
Record user_row : Type := {
  u_id : string;
  u_total_km : Q;
  u_total_points : Z;
  u_zones_controlled : Z
}.

Record team_row : Type := {
  t_id : string;
  t_total_km : Q;
  t_total_points : Z
}.

Record activity_row : Type := {
  act_id : string;
  act_user_id : string;
  act_team_id : option string;
  act_distance_km : Q;
  act_points_earned : Z
}.

Record achievement : Type := {
  ach_id : string;
  requirement_type : string;
  requirement_value : Q;
  points_reward : Z
}.

Record user_achievement : Type := {
  ua_user_id : string;
  ua_achievement_id : string
}.

Record app_tables : Type := {
  users : list user_row;
  teams : list team_row;
  activities : list activity_row;
  achievements : list achievement;
  user_achievements : list user_achievement
}.

(** [.select('id', count='exact').eq('user_id', user_id)] on
    [activities]. *)
Definition count_activities (user_id : string) (st : app_tables) : Z :=
  Z.of_nat (List.length (filter (fun a => String.eqb (act_user_id a) user_id)
                                (activities st))).

(** The [if]/[elif] chain on [requirement_type]; an unknown type unlocks
    nothing. *)
Definition requirement_met (user : user_row) (user_id : string) (a : achievement)
    (st : app_tables) : bool :=
  if String.eqb (requirement_type a) "total_km"
  then Qle_bool (requirement_value a) (u_total_km user)
  else if String.eqb (requirement_type a) "zones_controlled"
  then Qle_bool (requirement_value a) (inject_Z (u_zones_controlled user))
  else if String.eqb (requirement_type a) "activities_count"
  then Qle_bool (requirement_value a) (inject_Z (count_activities user_id st))
  else false.

(** [total_points + reward] on the rows of [users] with the given id. *)
Definition add_points (user_id : string) (reward : Z) (u : user_row) : user_row :=
  if String.eqb (u_id u) user_id
  then {| u_id := u_id u;
          u_total_km := u_total_km u;
          u_total_points := (u_total_points u + reward)%Z;
          u_zones_controlled := u_zones_controlled u |}
  else u.

(** The body of [if unlocked:]. *)
Definition unlock (user_id : string) (a : achievement) (st : app_tables) : app_tables :=
  {| users := if (0 <? points_reward a)%Z
              then map (add_points user_id (points_reward a)) (users st)
              else users st;
     teams := teams st;
     activities := activities st;
     achievements := achievements st;
     user_achievements :=
       user_achievements st
       ++ [{| ua_user_id := user_id; ua_achievement_id := ach_id a |}] |}.

(** One turn of [for achievement in achievements_response.data]. *)
Definition check_one (user : user_row) (user_id : string) (unlocked_ids : list string)
    (st : app_tables) (a : achievement) : app_tables :=
  if existsb (String.eqb (ach_id a)) unlocked_ids then st
  else if requirement_met user user_id a st then unlock user_id a st
  else st.

(** [_check_achievements] *)
Definition _check_achievements (user_id : string) (st : app_tables) : app_tables :=
  match filter (fun u => String.eqb (u_id u) user_id) (users st) with
  | [] => st
  | user :: _ =>
      let unlocked_ids :=
        map ua_achievement_id
            (filter (fun r => String.eqb (ua_user_id r) user_id) (user_achievements st)) in
      fold_left (check_one user user_id unlocked_ids) (achievements st) st
  end.

(** [total_km - distance], [total_points - points] on the matching row. *)
Definition subtract_user (user_id : string) (activity : activity_row) (u : user_row)
  : user_row :=
  if String.eqb (u_id u) user_id
  then {| u_id := u_id u;
          u_total_km := u_total_km u - act_distance_km activity;
          u_total_points := (u_total_points u - act_points_earned activity)%Z;
          u_zones_controlled := u_zones_controlled u |}
  else u.

Definition subtract_team (team_id : string) (activity : activity_row) (t : team_row)
  : team_row :=
  if String.eqb (t_id t) team_id
  then {| t_id := t_id t;
          t_total_km := t_total_km t - act_distance_km activity;
          t_total_points := (t_total_points t - act_points_earned activity)%Z |}
  else t.

(** [delete_activity]; the rows of [zone_activities] go with the
    activity by the database's cascade, and nothing is recalculated. *)
Definition delete_activity (activity_id user_id : string) (st : app_tables) : bool * app_tables :=
  match filter (fun a => String.eqb (act_id a) activity_id
                         && String.eqb (act_user_id a) user_id)
               (activities st) with
  | [] => (false, st)
  | activity :: _ =>
      (true,
       {| users := map (subtract_user user_id activity) (users st);
          teams :=
            match act_team_id activity with
            | Some team_id =>
                if truthy_str (act_team_id activity)
                then map (subtract_team team_id activity) (teams st)
                else teams st
            | None => teams st
            end;
          activities :=
            filter (fun a => negb (String.eqb (act_id a) activity_id)) (activities st);
          achievements := achievements st;
          user_achievements := user_achievements st |})
  end.

(** Two user rows agree in what a requirement looks at. *)
Definition same_standing (u u' : user_row) : Prop :=
  u_id u' = u_id u /\ u_total_km u' = u_total_km u
  /\ u_zones_controlled u' = u_zones_controlled u.

(** The user holds the achievement. *)
Definition holds (user_id achievement_id : string) (st : app_tables) : Prop :=
  exists r, In r (user_achievements st)
            /\ ua_user_id r = user_id /\ ua_achievement_id r = achievement_id.

End ProcessorMore.

(** ** app/services/competition_service.py *)

Module CompetitionService.

(** *** [update_geographic_stats] and [get_city_battle] *)

(** The geographic columns of a row of [zones]; the row's id is the
    number used for zones throughout. *)
Record zone_place : Type := {
  zp_id : nat;
  zp_city_id : option string;
  zp_region_id : option string;
  zp_country_id : option string
}.

(** A row of [user_geographic_stats]. *)
Record geo_stats : Type := {
  gs_id : nat;
  gs_user_id : string;
  gs_entity_id : string;
  gs_total_km : Q;
  gs_total_points : Z;
  gs_activities_count : Z;
  gs_last_activity_at : Z
}.

(** A row of [geographic_entities]. *)
Record entity_row : Type := {
  en_id : string;
  en_name : string;
  en_entity_type : string;
  en_total_km : Q;
  en_total_users : Z
}.

Record geo_tables : Type := {
  zone_places : list zone_place;
  user_geographic_stats : list geo_stats;
  entities : list entity_row
}.

(** [if zone.get(key): entity_ids.add(zone[key])] *)
Definition add_if_set (o : option string) (entity_ids : list string) : list string :=
  match o with
  | Some e => if truthy_str o then set_add string_dec e entity_ids else entity_ids
  | None => entity_ids
  end.

(** The set [entity_ids], lines 250-258, as a duplicate-free list (the
    order in which Python walks a set is not specified). *)
Definition collect_entity_ids (zones_response : list zone_place) : list string :=
  fold_left (fun entity_ids zone =>
               add_if_set (zp_country_id zone)
                 (add_if_set (zp_region_id zone)
                    (add_if_set (zp_city_id zone) entity_ids)))
            zones_response (empty_set string).

(** Lines 261-262. *)
Definition km_per_entity (activity_km : Q) (entity_ids : list string) : Q :=
  match entity_ids with
  | [] => 0
  | _ :: _ => activity_km / inject_Z (Z.of_nat (List.length entity_ids))
  end.

Definition points_per_entity (activity_points : Z) (entity_ids : list string) : Z :=
  match entity_ids with
  | [] => 0
  | _ :: _ => (activity_points / Z.of_nat (List.length entity_ids))%Z
  end.

(** The body of [for entity_id in entity_ids], lines 265-294.
    Modelled from the spec: a new row of [user_geographic_stats] gets an
    unused id (the table is not part of the Python sources). *)
Definition upsert_entity (now : Z) (user_id : string) (km : Q) (points : Z)
    (st : geo_tables) (entity_id : string) : geo_tables :=
  let existing :=
    filter (fun r => String.eqb (gs_user_id r) user_id
                     && String.eqb (gs_entity_id r) entity_id)
           (user_geographic_stats st) in
  let stats :=
    match existing with
    | first :: _ =>
        map (fun r =>
               if Nat.eqb (gs_id r) (gs_id first)
               then {| gs_id := gs_id r;
                       gs_user_id := gs_user_id r;
                       gs_entity_id := gs_entity_id r;
                       gs_total_km := gs_total_km r + km;
                       gs_total_points := (gs_total_points r + points)%Z;
                       gs_activities_count := (gs_activities_count r + 1)%Z;
                       gs_last_activity_at := now |}
               else r)
            (user_geographic_stats st)
    | [] =>
        user_geographic_stats st
        ++ [{| gs_id := S (list_max (map gs_id (user_geographic_stats st)));
               gs_user_id := user_id;
               gs_entity_id := entity_id;
               gs_total_km := km;
               gs_total_points := points;
               gs_activities_count := 1;
               gs_last_activity_at := now |}]
    end in
  {| zone_places := zone_places st;
     user_geographic_stats := stats;
     entities :=
       map (fun e =>
              if String.eqb (en_id e) entity_id
              then {| en_id := en_id e;
                      en_name := en_name e;
                      en_entity_type := en_entity_type e;
                      en_total_km := en_total_km e + km;
                      en_total_users := en_total_users e |}
              else e)
           (entities st) |}.

Section SetOrder.

(** The order in which [for entity_id in entity_ids] walks the set. *)
Variable iteration_order : list string -> list string.

(** [update_geographic_stats]; [now] is [datetime.utcnow()]. *)
Definition update_geographic_stats (now : Z) (user_id : string) (activity_km : Q)
    (activity_points : Z) (zone_ids : list nat) (st : geo_tables) : geo_tables :=
  match zone_ids with
  | [] => st
  | _ :: _ =>
      let zones_response :=
        filter (fun z => existsb (Nat.eqb (zp_id z)) zone_ids) (zone_places st) in
      let entity_ids := collect_entity_ids zones_response in
      fold_left (upsert_entity now user_id (km_per_entity activity_km entity_ids)
                               (points_per_entity activity_points entity_ids))
                (iteration_order entity_ids) st
  end.

End SetOrder.

(** [abs] on floats. *)
Definition py_abs (x : Q) : Q := if Qlt_bool x 0 then - x else x.

Record city_side : Type := {
  cs_name : string;
  cs_total_km : Q;
  cs_total_users : Z;
  cs_percentage : Q
}.

Record city_battle : Type := {
  city1 : city_side;
  city2 : city_side;
  winner : string;
  is_close : bool
}.

(** [get_city_battle] *)
Definition get_city_battle (st : geo_tables) (name1 name2 : string) : option city_battle :=
  let city_rows name :=
    filter (fun e => String.eqb (en_name e) name && String.eqb (en_entity_type e) "city")
           (entities st) in
  match city_rows name1, city_rows name2 with
  | c1 :: _, c2 :: _ =>
      let total_km := en_total_km c1 + en_total_km c2 in
      let side c :=
        {| cs_name := en_name c;
           cs_total_km := en_total_km c;
           cs_total_users := en_total_users c;
           cs_percentage :=
             if Qlt_bool 0 total_km then en_total_km c / total_km * 100 else 0 |} in
      Some {| city1 := side c1;
              city2 := side c2;
              winner := if Qlt_bool (en_total_km c2) (en_total_km c1)
                        then en_name c1 else en_name c2;
              is_close := Qlt_bool (py_abs (en_total_km c1 - en_total_km c2))
                                   (total_km * (5 # 100)) |}
  | _, _ => None
  end.

(** *** [allocate_activity_km] *)

(** Errors of this file: the exceptions above, and the reading of a
    local variable that no statement has assigned. *)
Inductive error : Type :=
| Builtin (e : exn)
| UnboundLocalError (name : string).

Inductive outcome (A : Type) : Type :=
| Returned (a : A)
| Raised (e : error).

Arguments Returned {A} a.
Arguments Raised {A} e.

(** A row of [competitions], with the columns read here. *)
Record competition : Type := {
  c_id : string;
  c_status : string;
  c_name : string
}.

(** [ActivityAllocation], app/models/competition.py. *)
Record ActivityAllocation : Type := {
  competition_id : string;
  allocated_km : Q;
  allocated_percentage : option Q
}.

(** A row of [activity_allocations]. *)
Record allocation_row : Type := {
  al_activity_id : string;
  al_competition_id : string;
  al_allocated_km : Q;
  al_allocated_percentage : Q;
  al_points_earned : Z
}.

(** A row of [competition_participants]. *)
Record participant : Type := {
  p_id : nat;
  p_competition_id : string;
  p_participant_type : string;
  p_participant_id : option string;
  p_participant_name : option string;
  p_total_points : Z;
  p_current_rank : option Z
}.

Record comp_tables : Type := {
  competitions : list competition;
  activity_allocations : list allocation_row;
  competition_participants : list participant
}.

(** An entry of [results]. *)
Record allocation_result : Type := {
  ar_competition_id : string;
  ar_competition_name : string;
  ar_allocated_km : Q;
  ar_points_earned : Z;
  ar_percentage : Q
}.

Record allocation_response : Type := {
  total_allocated : Q;
  remaining_km : Q;
  allocations : list allocation_result
}.

(** [_add_participant].
    Modelled from the spec: the new row gets an unused id, no points and
    no rank (the table's defaults are not part of the Python sources). *)
Definition _add_participant (competition_id participant_type : string)
    (participant_id participant_name : option string) (st : comp_tables) : comp_tables :=
  {| competitions := competitions st;
     activity_allocations := activity_allocations st;
     competition_participants :=
       competition_participants st
       ++ [{| p_id := S (list_max (map p_id (competition_participants st)));
              p_competition_id := competition_id;
              p_participant_type := participant_type;
              p_participant_id := if truthy_str participant_id then participant_id else None;
              p_participant_name := participant_name;
              p_total_points := 0;
              p_current_rank := None |}] |}.

(** [update({'current_rank': idx}).eq('id', id)] *)
Definition set_rank (idx : Z) (id : nat) (st : comp_tables) : comp_tables :=
  {| competitions := competitions st;
     activity_allocations := activity_allocations st;
     competition_participants :=
       map (fun p =>
              if Nat.eqb (p_id p) id
              then {| p_id := p_id p;
                      p_competition_id := p_competition_id p;
                      p_participant_type := p_participant_type p;
                      p_participant_id := p_participant_id p;
                      p_participant_name := p_participant_name p;
                      p_total_points := p_total_points p;
                      p_current_rank := Some idx |}
              else p)
           (competition_participants st) |}.

(** [for idx, participant in enumerate(participants.data, 1)] *)
Fixpoint rank_loop (idx : Z) (participants : list participant) (st : comp_tables)
    : comp_tables :=
  match participants with
  | [] => st
  | participant :: rest => rank_loop (idx + 1) rest (set_rank idx (p_id participant) st)
  end.

Section Ordering.

(** [.order('total_points', desc=True)]: the order in which the database
    returns the selected rows. *)
Variable order_by_points : list participant -> list participant.

(** [_recalculate_competition_rankings] *)
Definition _recalculate_competition_rankings (competition_id : string)
    (st : comp_tables) : comp_tables :=
  let participants :=
    order_by_points
      (filter (fun p => String.eqb (p_competition_id p) competition_id)
              (competition_participants st)) in
  rank_loop 1 participants st.

(** One turn of [for allocation in allocations], lines 33-85: the
    entry appended to [results], if any, and the tables afterwards. *)
Definition allocate_one (activity_id user_id : string) (total_activity_km : Q)
    (allocation : ActivityAllocation) (st : comp_tables)
    : outcome (option allocation_result) * comp_tables :=
  let comp_response :=
    filter (fun c => String.eqb (c_id c) (competition_id allocation)
                     && String.eqb (c_status c) "active")
           (competitions st) in
  match comp_response with
  | [] => (Returned None, st)
  | competition :: _ =>
      let points := py_int (allocated_km allocation * 10) in
      let percentage : outcome Q :=
        match allocated_percentage allocation with
        | Some p =>
            if Processor.truthy_float (Some p) then Returned p
            else if Qeq_bool total_activity_km 0 then Raised (Builtin ZeroDivisionError)
            else Returned (allocated_km allocation / total_activity_km * 100)
        | None =>
            if Qeq_bool total_activity_km 0 then Raised (Builtin ZeroDivisionError)
            else Returned (allocated_km allocation / total_activity_km * 100)
        end in
      match percentage with
      | Raised e => (Raised e, st)
      | Returned percentage =>
          let st1 :=
            {| competitions := competitions st;
               activity_allocations :=
                 activity_allocations st
                 ++ [{| al_activity_id := activity_id;
                        al_competition_id := competition_id allocation;
                        al_allocated_km := allocated_km allocation;
                        al_allocated_percentage := round2 percentage;
                        al_points_earned := points |}];
               competition_participants := competition_participants st |} in
          let participant_response :=
            filter (fun p => String.eqb (p_competition_id p) (competition_id allocation)
                             && String.eqb (p_participant_type p) "user"
                             && match p_participant_id p with
                                | Some u => String.eqb u user_id
                                | None => false
                                end)
                   (competition_participants st1) in
          let st2 :=
            match participant_response with
            | [] => _add_participant (competition_id allocation) "user" (Some user_id) None st1
            | _ :: _ => st1
            end in
          (Returned (Some {| ar_competition_id := competition_id allocation;
                             ar_competition_name := c_name competition;
                             ar_allocated_km := allocated_km allocation;
                             ar_points_earned := points;
                             ar_percentage := round2 percentage |}),
           st2)
      end
  end.

(** The loop of lines 33-85 with its list [results]. *)
Fixpoint allocation_loop (activity_id user_id : string) (total_activity_km : Q)
    (allocations : list ActivityAllocation) (results : list allocation_result)
    (st : comp_tables) : outcome (list allocation_result) * comp_tables :=
  match allocations with
  | [] => (Returned results, st)
  | allocation :: rest =>
      match allocate_one activity_id user_id total_activity_km allocation st with
      | (Raised e, st1) => (Raised e, st1)
      | (Returned None, st1) =>
          allocation_loop activity_id user_id total_activity_km rest results st1
      | (Returned (Some entry), st1) =>
          allocation_loop activity_id user_id total_activity_km rest (results ++ [entry]) st1
      end
  end.

(** [allocate_activity_km]. After the loop the variable [allocation]
    holds the last element of [allocations], or nothing at all. The
    message of the [ValueError] is kept up to the first number it
    prints. *)
Definition allocate_activity_km (activity_id user_id : string)
    (allocations : list ActivityAllocation) (total_activity_km : Q) (st : comp_tables)
    : outcome allocation_response * comp_tables :=
  let total_allocated := py_sum (map allocated_km allocations) in
  if Qlt_bool total_activity_km total_allocated
  then (Raised (Builtin (ValueError "Cannot allocate")), st)
  else
    match allocation_loop activity_id user_id total_activity_km allocations [] st with
    | (Raised e, st1) => (Raised e, st1)
    | (Returned results, st1) =>
        match last (map Some allocations) None with
        | None => (Raised (UnboundLocalError "allocation"), st1)
        | Some allocation =>
            (Returned {| total_allocated := total_allocated;
                         remaining_km := total_activity_km - total_allocated;
                         allocations := results |},
             _recalculate_competition_rankings (competition_id allocation) st1)
        end
    end.

End Ordering.

End CompetitionService.

(** ** Vocabulary for the geographic statistics *)

Module GeoSpec.
Import CompetitionService.
Local Open Scope string_scope.
Local Open Scope list_scope.
Local Open Scope Q_scope.

(** The rows of [user_geographic_stats] of one user. *)
Definition rows_of (user_id : string) (st : geo_tables) : list geo_stats :=
  filter (fun r => String.eqb (gs_user_id r) user_id) (user_geographic_stats st).

(** Kilometres and points a user holds over all entities. *)
Definition km_sum (rows : list geo_stats) : Q := py_sum (map gs_total_km rows).

Definition points_sum (rows : list geo_stats) : Z :=
  fold_left Z.add (map gs_total_points rows) 0%Z.

Definition user_km (user_id : string) (st : geo_tables) : Q :=
  km_sum (rows_of user_id st).

Definition user_points (user_id : string) (st : geo_tables) : Z :=
  points_sum (rows_of user_id st).

(** The primary key of [user_geographic_stats] is unique. *)
Definition unique_stats_ids (st : geo_tables) : Prop :=
  NoDup (map gs_id (user_geographic_stats st)).

(** The entities the zones of a route lie in. *)
Definition route_entities (zone_ids : list nat) (st : geo_tables) : list string :=
  collect_entity_ids
    (filter (fun z => existsb (Nat.eqb (zp_id z)) zone_ids) (zone_places st)).

(** A zone names an entity in one of its three columns. *)
Definition names_entity (zone : zone_place) (e : string) : Prop :=
  zp_city_id zone = Some e \/ zp_region_id zone = Some e \/ zp_country_id zone = Some e.

(** An order of walking a set visits exactly its members, each once. *)
Definition walks_the_set (iteration_order : list string -> list string) : Prop :=
  forall l, NoDup l ->
    NoDup (iteration_order l)
    /\ List.length (iteration_order l) = List.length l
    /\ forall e, In e (iteration_order l) <-> In e l.

(** A row of the user for the entity exists. *)
Definition has_row (user_id entity_id : string) (st : geo_tables) : Prop :=
  exists row, In row (user_geographic_stats st)
              /\ gs_user_id row = user_id /\ gs_entity_id row = entity_id.

(** The update of lines 274-279 on the rows with one id. *)
Definition bump (now : Z) (km : Q) (points : Z) (id : nat) (r : geo_stats) : geo_stats :=
  if Nat.eqb (gs_id r) id
  then {| gs_id := gs_id r;
          gs_user_id := gs_user_id r;
          gs_entity_id := gs_entity_id r;
          gs_total_km := gs_total_km r + km;
          gs_total_points := (gs_total_points r + points)%Z;
          gs_activities_count := (gs_activities_count r + 1)%Z;
          gs_last_activity_at := now |}
  else r.

(** Sample tables: two zones of one city, the second also in a region. *)
Definition sample_geo : geo_tables :=
  {| zone_places :=
       [ {| zp_id := 1; zp_city_id := Some "madrid"; zp_region_id := None;
            zp_country_id := Some "es" |};
         {| zp_id := 2; zp_city_id := Some "madrid"; zp_region_id := Some "cam";
            zp_country_id := Some "es" |} ];
     user_geographic_stats :=
       [ {| gs_id := 1; gs_user_id := "u1"; gs_entity_id := "madrid";
            gs_total_km := 4; gs_total_points := 40; gs_activities_count := 1;
            gs_last_activity_at := 0 |} ];
     entities :=
       [ {| en_id := "madrid"; en_name := "Madrid"; en_entity_type := "city";
            en_total_km := 120; en_total_users := 9 |};
         {| en_id := "bcn"; en_name := "Barcelona"; en_entity_type := "city";
            en_total_km := 80; en_total_users := 7 |} ] |}.

End GeoSpec.

(** ** Vocabulary for the allocation of kilometres to competitions *)

Module CompetitionSpec.
Import CompetitionService.
Local Open Scope string_scope.
Local Open Scope list_scope.
Local Open Scope Q_scope.

(** The row of [activity_allocations] behind an entry of the response. *)
Definition stored_row (activity_id : string) (r : allocation_result) : allocation_row :=
  {| al_activity_id := activity_id;
     al_competition_id := ar_competition_id r;
     al_allocated_km := ar_allocated_km r;
     al_allocated_percentage := ar_percentage r;
     al_points_earned := ar_points_earned r |}.

(** The competition is in the table and active. *)
Definition is_active (competition_id : string) (st : comp_tables) : Prop :=
  exists c, In c (competitions st)
            /\ c_id c = competition_id /\ c_status c = "active".

(** The row enters a user into a competition. *)
Definition joined (competition_id user_id : string) (p : participant) : bool :=
  String.eqb (p_competition_id p) competition_id
  && String.eqb (p_participant_type p) "user"
  && match p_participant_id p with
     | Some u => String.eqb u user_id
     | None => false
     end.

(** How many rows enter the user into the competition. *)
Definition entries (competition_id user_id : string) (st : comp_tables) : nat :=
  List.length (filter (joined competition_id user_id) (competition_participants st)).

(** The kilometres stored for an activity over all competitions. *)
Definition stored_km (activity_id : string) (st : comp_tables) : Q :=
  py_sum (map al_allocated_km
              (filter (fun a => String.eqb (al_activity_id a) activity_id)
                      (activity_allocations st))).

(** The participants of a competition, and the rank of a row. *)
Definition participants_of (competition_id : string) (st : comp_tables) : list participant :=
  filter (fun p => String.eqb (p_competition_id p) competition_id)
         (competition_participants st).

Definition unique_participant_ids (st : comp_tables) : Prop :=
  NoDup (map p_id (competition_participants st)).

(** The database hands back the selected rows, each once. *)
Definition returns_each_once (order_by_points : list participant -> list participant)
    (rows : list participant) : Prop :=
  NoDup (map p_id (order_by_points rows))
  /\ forall p, In p (order_by_points rows) <-> In p rows.

(** The row with a rank written into it. *)
Definition with_rank (idx : Z) (p : participant) : participant :=
  {| p_id := p_id p;
     p_competition_id := p_competition_id p;
     p_participant_type := p_participant_type p;
     p_participant_id := p_participant_id p;
     p_participant_name := p_participant_name p;
     p_total_points := p_total_points p;
     p_current_rank := Some idx |}.

(** Where an id stands in a list of ids. *)
Fixpoint position (id : nat) (ids : list nat) : option nat :=
  match ids with
  | [] => None
  | x :: rest => if Nat.eqb x id then Some 0%nat else option_map S (position id rest)
  end.

(** The table after the ranks of the listed rows are written. *)
Definition ranked_from (idx : Z) (listed : list participant) (p : participant) : participant :=
  match position (p_id p) (map p_id listed) with
  | Some k => with_rank (idx + Z.of_nat k) p
  | None => p
  end.

(** Sample tables: two active competitions and a finished one; one
    user already takes part in the first. *)
Definition sample_competitions : comp_tables :=
  {| competitions :=
       [ {| c_id := "c1"; c_status := "active"; c_name := "Barcelona" |};
         {| c_id := "c2"; c_status := "active"; c_name := "Badalona" |};
         {| c_id := "c3"; c_status := "finished"; c_name := "Girona" |} ];
     activity_allocations := [];
     competition_participants :=
       [ {| p_id := 1; p_competition_id := "c1"; p_participant_type := "user";
            p_participant_id := Some "u1"; p_participant_name := None;
            p_total_points := 30; p_current_rank := None |};
         {| p_id := 2; p_competition_id := "c1"; p_participant_type := "user";
            p_participant_id := Some "u2"; p_participant_name := None;
            p_total_points := 50; p_current_rank := None |};
         {| p_id := 3; p_competition_id := "c2"; p_participant_type := "user";
            p_participant_id := Some "u2"; p_participant_name := None;
            p_total_points := 10; p_current_rank := Some 4%Z |} ] |}.

(** A request for 2 km to the first and 3 km to the second competition. *)
Definition sample_allocations : list ActivityAllocation :=
  [ {| competition_id := "c1"; allocated_km := 2; allocated_percentage := None |};
    {| competition_id := "c2"; allocated_km := 3; allocated_percentage := Some 60 |} ].

(** Rows by falling points, the higher id first among equals. *)
Fixpoint insert_by_points (p : participant) (l : list participant) : list participant :=
  match l with
  | [] => [p]
  | q :: rest =>
      if (p_total_points q <? p_total_points p)%Z then p :: l
      else q :: insert_by_points p rest
  end.

Definition sort_by_points (l : list participant) : list participant :=
  fold_right insert_by_points [] l.

End CompetitionSpec.

(** * Properties

    ** Python helpers *)

Module ListFacts.

Lemma Qlt_bool_iff (x y : Q) : Qlt_bool x y = true <-> x < y.
Proof.
  unfold Qlt_bool. rewrite negb_true_iff.
  split; intro H.
  - apply Qnot_le_lt. intro L. apply Qle_bool_iff in L. congruence.
  - destruct (Qle_bool y x) eqn:E; [|reflexivity].
    apply Qle_bool_iff in E. exfalso. apply (Qlt_not_le _ _ H E).
Qed.

Lemma Qlt_bool_false (x y : Q) : Qlt_bool x y = false <-> y <= x.
Proof.
  unfold Qlt_bool. rewrite negb_false_iff. apply Qle_bool_iff.
Qed.

(** [max_by_value] returns the first item of maximal value. *)
Lemma max_by_value_first (rest : list (string * Q)) :
  forall best,
    exists l1 l2,
      best :: rest = l1 ++ max_by_value best rest :: l2
      /\ (forall x, In x l1 -> snd x < snd (max_by_value best rest))
      /\ (forall x, In x l2 -> snd x <= snd (max_by_value best rest)).
Proof.
  induction rest as [|x rest IH]; intro best; simpl.
  - exists [], []. repeat split; simpl; intros ? [].
  - destruct (Qlt_bool (snd best) (snd x)) eqn:E.
    + apply Qlt_bool_iff in E.
      destruct (IH x) as (l1 & l2 & Heq & Hlt & Hle).
      exists (best :: l1), l2. split; [simpl; now rewrite Heq|]. split; [|exact Hle].
      intros y [<-|Hy]; [|now apply Hlt].
      eapply Qlt_le_trans; [exact E|].
      assert (Hin : In x (l1 ++ max_by_value x rest :: l2)) by (rewrite <- Heq; now left).
      apply in_app_or in Hin. destruct Hin as [Hin|[Hm|Hin]].
      * apply Qlt_le_weak. now apply Hlt.
      * rewrite Hm. apply Qle_refl.
      * now apply Hle.
    + apply Qlt_bool_false in E.
      destruct (IH best) as (l1 & l2 & Heq & Hlt & Hle).
      destruct l1 as [|b l1].
      * simpl in Heq. injection Heq as Hb Hr.
        exists [], (x :: l2). split; [simpl; now rewrite <- Hb, <- Hr|].
        split; [intros ? []|].
        intros y [Hy|Hy]; [subst y; rewrite <- Hb at 1; exact E|now apply Hle].
      * simpl in Heq. injection Heq as Hb Hr. subst b.
        exists (best :: x :: l1), l2. split; [simpl; do 2 f_equal; exact Hr|].
        split; [|exact Hle].
        intros y [<-|[<-|Hy]].
        -- apply Hlt. now left.
        -- eapply Qle_lt_trans; [exact E|]. apply Hlt. now left.
        -- apply Hlt. now right.
Qed.

Lemma max_by_value_in (rest : list (string * Q)) (best : string * Q) :
  In (max_by_value best rest) (best :: rest).
Proof.
  destruct (max_by_value_first rest best) as (l1 & l2 & Heq & _).
  rewrite Heq. apply in_or_app. right. now left.
Qed.

Section DictFacts.
Context {V : Type}.
Implicit Types (d : dict V) (k : string) (v : V).

Lemma dict_set_present d k v :
  In k (dict_keys d) -> dict_keys (dict_set d k v) = dict_keys d.
Proof.
  induction d as [|[k' v'] d IH]; simpl; [intros []|].
  intros H. destruct (String.eqb_spec k' k) as [->|Hne]; [reflexivity|].
  simpl. f_equal. apply IH. destruct H as [H|H]; [contradiction|exact H].
Qed.

Lemma dict_set_absent d k v :
  ~ In k (dict_keys d) -> dict_set d k v = d ++ [(k, v)].
Proof.
  induction d as [|[k' v'] d IH]; simpl; [reflexivity|].
  intros H. destruct (String.eqb_spec k' k) as [->|Hne].
  - exfalso. apply H. now left.
  - f_equal. apply IH. intro. apply H. now right.
Qed.

Lemma dict_get_absent d k dflt :
  ~ In k (dict_keys d) -> dict_get d k dflt = dflt.
Proof.
  induction d as [|[k' v'] d IH]; simpl; [reflexivity|].
  intros H. destruct (String.eqb_spec k' k) as [->|Hne].
  - exfalso. apply H. now left.
  - apply IH. intro. apply H. now right.
Qed.

Lemma dict_get_present d k v dflt :
  NoDup (dict_keys d) -> In (k, v) d -> dict_get d k dflt = v.
Proof.
  induction d as [|[k' v'] d IH]; simpl; [intros _ []|].
  intros Hnd [H|H].
  - injection H as -> ->. now rewrite String.eqb_refl.
  - inversion Hnd as [|? ? Hnotin Hnd']; subst.
    destruct (String.eqb_spec k' k) as [->|Hne].
    + exfalso. apply Hnotin. apply (in_map fst) in H. exact H.
    + now apply IH.
Qed.

Lemma dict_set_in d k v :
  NoDup (dict_keys d) ->
  forall k0 v0, In (k0, v0) (dict_set d k v) ->
                (k0 = k /\ v0 = v) \/ (k0 <> k /\ In (k0, v0) d).
Proof.
  induction d as [|[k' v'] d IH]; simpl; intros Hnd k0 v0 H.
  - destruct H as [H|[]]. injection H as <- <-. now left.
  - inversion Hnd as [|? ? Hnotin Hnd']; subst.
    destruct (String.eqb_spec k' k) as [->|Hne].
    + destruct H as [H|H].
      * injection H as <- <-. now left.
      * right. split; [|now right].
        intros ->. apply Hnotin. apply (in_map fst) in H. exact H.
    + destruct H as [H|H].
      * injection H as <- <-. right. split; [exact Hne|now left].
      * destruct (IH Hnd' _ _ H) as [E|[Hk Hin]]; [now left|].
        right. split; [exact Hk|now right].
Qed.

Lemma dict_set_keys_nodup d k v :
  NoDup (dict_keys d) -> NoDup (dict_keys (dict_set d k v)).
Proof.
  intros Hnd. destruct (in_dec string_dec k (dict_keys d)) as [Hin|Hout].
  - now rewrite dict_set_present.
  - rewrite dict_set_absent by exact Hout. unfold dict_keys. rewrite map_app. simpl.
    apply NoDup_app; [exact Hnd|constructor; [intros []|constructor]|].
    intros x Hx [<-|[]]. now apply Hout.
Qed.
End DictFacts.

End ListFacts.

Import ListFacts.

(** ** The accumulation loop of [_recalculate_zone_control] *)

Module AccumulateFacts.

Import ZoneControl ControlSpec.

Lemma dict_set_key_in {V : Type} (d : dict V) (k : string) (v : V) :
  In k (dict_keys (dict_set d k v)).
Proof.
  destruct (in_dec string_dec k (dict_keys d)) as [Hin|Hout].
  - now rewrite dict_set_present.
  - rewrite dict_set_absent by exact Hout. unfold dict_keys. rewrite map_app.
    apply in_or_app. right. now left.
Qed.

Lemma dict_set_keys_incl {V : Type} (d : dict V) (k k0 : string) (v : V) :
  In k0 (dict_keys d) -> In k0 (dict_keys (dict_set d k v)).
Proof.
  intro H. destruct (in_dec string_dec k (dict_keys d)) as [Hin|Hout].
  - now rewrite dict_set_present.
  - rewrite dict_set_absent by exact Hout. unfold dict_keys. rewrite map_app.
    apply in_or_app. now left.
Qed.

Lemma counted_team_Some (a : zone_activity) (t : string) :
  counted_team a = Some t <-> za_team_id a = Some t /\ t <> EmptyString.
Proof.
  unfold counted_team, truthy_str. destruct (za_team_id a) as [s|]; [|split; [discriminate|intros [? _]; discriminate]].
  destruct (String.eqb_spec s EmptyString) as [->|Hne]; simpl.
  - split; [discriminate|]. intros [E Hne]. injection E as <-. now contradiction Hne.
  - split.
    + intros E. injection E as <-. now split.
    + now intros [E _].
Qed.

Lemma team_km_snoc (data : list zone_activity) (a : zone_activity) :
  team_km_of (data ++ [a]) =
  match counted_team a with
  | Some t => dict_set (team_km_of data) t
                       (dict_get (team_km_of data) t 0 + za_distance_km a)
  | None => team_km_of data
  end.
Proof.
  unfold team_km_of, accumulate. rewrite fold_left_app. simpl.
  destruct (fold_left accumulate_step data ([], [])) as [tk uk]. simpl.
  unfold counted_team. destruct (za_team_id a) as [t|]; [|reflexivity].
  destruct (truthy_str (Some t)); reflexivity.
Qed.

Lemma team_total_snoc (data : list zone_activity) (a : zone_activity) (t : string) :
  team_total (data ++ [a]) t =
  if opt_str_eqb (za_team_id a) t then team_total data t + za_distance_km a
  else team_total data t.
Proof. unfold team_total. now rewrite fold_left_app. Qed.

Lemma opt_str_eqb_true (o : option string) (t : string) :
  opt_str_eqb o t = true <-> o = Some t.
Proof.
  destruct o as [s|]; simpl; [|split; discriminate].
  destruct (String.eqb_spec s t) as [->|Hne]; split; try reflexivity; try discriminate.
  intros E. injection E as ->. now contradiction Hne.
Qed.

Lemma team_total_absent (data : list zone_activity) (t : string) :
  (forall a, In a data -> za_team_id a <> Some t) -> team_total data t = 0.
Proof.
  induction data as [|a data IH] using rev_ind; intro H; [reflexivity|].
  rewrite team_total_snoc.
  destruct (opt_str_eqb (za_team_id a) t) eqn:E.
  - apply opt_str_eqb_true in E. exfalso. apply (H a); [|exact E].
    apply in_or_app. right. now left.
  - apply IH. intros a' Ha'. apply H. apply in_or_app. now left.
Qed.

Lemma contributes_snoc (data : list zone_activity) (a : zone_activity) (t : string) :
  contributes (data ++ [a]) t <-> contributes data t \/ counted_team a = Some t.
Proof.
  unfold contributes. split.
  - intros (a' & Hin & Hc). apply in_app_or in Hin. destruct Hin as [Hin|[<-|[]]].
    + left. now exists a'.
    + now right.
  - intros [(a' & Hin & Hc)|Hc].
    + exists a'. split; [apply in_or_app; now left|exact Hc].
    + exists a. split; [apply in_or_app; right; now left|exact Hc].
Qed.

(** What [team_km] holds after the loop: one entry per contributing team,
    with the team's raw distance in the window. *)
Lemma team_km_invariant (data : list zone_activity) :
  NoDup (dict_keys (team_km_of data))
  /\ (forall t v, In (t, v) (team_km_of data) ->
                  v == team_total data t /\ contributes data t)
  /\ (forall t, contributes data t -> In t (dict_keys (team_km_of data))).
Proof.
  induction data as [|a data IH] using rev_ind.
  - split; [constructor|]. split; [intros ? ? []|].
    intros t (a & [] & _).
  - destruct IH as (Hnd & Hval & Hkeys).
    rewrite team_km_snoc. destruct (counted_team a) as [t0|] eqn:Hc.
    + pose proof (proj1 (counted_team_Some a t0) Hc) as [Hid Hne].
      split; [now apply dict_set_keys_nodup|]. split.
      * intros t v Hin. apply dict_set_in in Hin; [|exact Hnd].
        rewrite team_total_snoc, contributes_snoc.
        destruct Hin as [[-> ->]|[Hneq Hin]].
        -- rewrite Hid. simpl. rewrite String.eqb_refl. split; [|now right].
           destruct (in_dec string_dec t0 (dict_keys (team_km_of data))) as [Hin|Hout].
           ++ apply in_map_iff in Hin. destruct Hin as ([k v0] & Hk & Hin).
              simpl in Hk. subst k.
              rewrite (dict_get_present _ _ v0 0 Hnd Hin).
              now rewrite (proj1 (Hval _ _ Hin)).
           ++ rewrite dict_get_absent by exact Hout.
              rewrite team_total_absent; [reflexivity|].
              intros a' Ha' Hid'. apply Hout, Hkeys. exists a'. split; [exact Ha'|].
              now apply counted_team_Some.
        -- destruct (Hval _ _ Hin) as [Hv Hct]. split; [|now left].
           rewrite Hid. simpl.
           destruct (String.eqb_spec t0 t) as [->|_]; [now contradiction Hneq|exact Hv].
      * intros t Hct. apply contributes_snoc in Hct. destruct Hct as [Hct|Hct].
        -- apply dict_set_keys_incl. now apply Hkeys.
        -- rewrite Hc in Hct. injection Hct as ->. apply dict_set_key_in.
    + split; [exact Hnd|]. split.
      * intros t v Hin. destruct (Hval _ _ Hin) as [Hv Hct].
        rewrite team_total_snoc, contributes_snoc. split; [|now left].
        destruct (opt_str_eqb (za_team_id a) t) eqn:E; [|exact Hv].
        apply opt_str_eqb_true in E. exfalso.
        destruct Hct as (a' & _ & Hc').
        apply counted_team_Some in Hc'. destruct Hc' as [_ Hne].
        assert (Hc2 : counted_team a = Some t) by (apply counted_team_Some; now split).
        congruence.
      * intros t Hct. apply contributes_snoc in Hct. destruct Hct as [Hct|Hct].
        -- now apply Hkeys.
        -- congruence.
Qed.

(** The keys of [team_km] are in the order in which the teams first
    appear in the window. *)
Lemma team_km_order (data : list zone_activity) :
  forall k1 t k2,
    dict_keys (team_km_of data) = k1 ++ t :: k2 ->
    exists w1 a w2,
      data = w1 ++ a :: w2
      /\ counted_team a = Some t
      /\ forall t', contributes w1 t' -> In t' k1.
Proof.
  induction data as [|a data IH] using rev_ind; intros k1 t k2 Hk.
  - destruct k1; discriminate.
  - assert (Hold : forall k2', dict_keys (team_km_of data) = k1 ++ t :: k2' ->
                   exists w1 a0 w2, data ++ [a] = w1 ++ a0 :: w2
                     /\ counted_team a0 = Some t
                     /\ forall t', contributes w1 t' -> In t' k1).
    { intros k2' Hk'. destruct (IH _ _ _ Hk') as (w1 & a0 & w2 & -> & Hc & Hbefore).
      exists w1, a0, (w2 ++ [a]). split; [now rewrite <- app_assoc|]. now split. }
    rewrite team_km_snoc in Hk. destruct (counted_team a) as [t0|] eqn:Hc; [|now apply (Hold k2)].
    destruct (in_dec string_dec t0 (dict_keys (team_km_of data))) as [Hin|Hout].
    + rewrite dict_set_present in Hk by exact Hin. now apply (Hold k2).
    + rewrite dict_set_absent in Hk by exact Hout.
      unfold dict_keys in Hk. rewrite map_app in Hk. simpl in Hk.
      destruct (exists_last (l := t :: k2)) as (k2' & last & Hlast); [discriminate|].
      rewrite Hlast, app_assoc in Hk. apply app_inj_tail in Hk. destruct Hk as [Hk ->].
      destruct k2 as [|x k2].
      * destruct k2' as [|? [|? ?]]; simpl in Hlast; try discriminate.
        injection Hlast as ->. rewrite app_nil_r in Hk.
        exists data, a, []. split; [reflexivity|]. split; [exact Hc|].
        intros t' Hct. rewrite <- Hk. now apply (team_km_invariant data).
      * destruct k2' as [|y k2']; [simpl in Hlast; injection Hlast as _ Hx; discriminate|].
        simpl in Hlast. injection Hlast as -> Hrest.
        apply (Hold k2'). exact Hk.
Qed.

End AccumulateFacts.

Import AccumulateFacts.

(** ** Zone control recalculation *)

Module ControlFacts.

Import ZoneControl ControlSpec Samples.
Local Open Scope string_scope.
Local Open Scope list_scope.
Local Open Scope Q_scope.

(** [control_decision] in terms of the quantities of [ControlSpec]. *)
Lemma control_decision_unfold (settings : Settings) (z : zone) (data : list zone_activity) :
  control_decision settings z data =
  match controlling_team_of data with
  | None => Ok None
  | Some ct =>
      let eff := effective_km settings (controlled_by_team z) ct in
      if Qeq_bool (window_total data) 0 then Raise ZeroDivisionError
      else if passes_gate settings (percentage eff (window_total data)) eff
      then Ok (Some {| upd_team := fst ct;
                       upd_percentage := round2 (percentage eff (window_total data));
                       upd_user := top_user data (fst ct);
                       upd_changed := negb (opt_str_eqb (controlled_by_team z) (fst ct)) |})
      else Ok None
  end.
Proof.
  unfold control_decision, controlling_team_of, window_total, top_user, team_km_of.
  destruct (accumulate data) as [team_km user_km]. simpl.
  destruct team_km as [|first rest]; reflexivity.
Qed.

(** The value [max] returns with the candidate is that team's raw
    distance in the window. *)
Lemma controlling_team_value (data : list zone_activity) (t : string) (v : Q) :
  controlling_team_of data = Some (t, v) -> v == team_total data t.
Proof.
  unfold controlling_team_of. intros H.
  destruct (team_km_of data) as [|first rest] eqn:Hd; [discriminate|].
  injection H as Hmax.
  pose proof (max_by_value_in rest first) as Hin. rewrite Hmax, <- Hd in Hin.
  now apply (team_km_invariant data).
Qed.

(** C5 (as the code has it): the candidate is a team of maximal raw
    distance in the window, and among the teams of maximal distance it is
    the one that contributes first: every team with a contribution before
    the candidate's first one has a strictly smaller distance. *)
Theorem candidate_is_first_maximal_team (data : list zone_activity) (t : string) (v : Q) :
  controlling_team_of data = Some (t, v) ->
  v == team_total data t
  /\ contributes data t
  /\ (forall t', contributes data t' -> team_total data t' <= v)
  /\ exists w1 a w2,
       data = w1 ++ a :: w2
       /\ counted_team a = Some t
       /\ forall t', contributes w1 t' -> team_total data t' < v.
Proof.
  unfold controlling_team_of. intros H.
  destruct (team_km_of data) as [|first rest] eqn:Hd; [discriminate|].
  injection H as Hmax.
  destruct (team_km_invariant data) as (Hnd & Hval & Hkeys).
  destruct (max_by_value_first rest first) as (l1 & l2 & Hsplit & Hlt & Hle).
  rewrite Hmax in Hsplit, Hlt, Hle. simpl in Hlt, Hle.
  rewrite <- Hd in Hsplit.
  assert (Hin : In (t, v) (team_km_of data)).
  { rewrite Hsplit. apply in_or_app. right. now left. }
  destruct (Hval _ _ Hin) as [Hv Hct].
  split; [exact Hv|]. split; [exact Hct|]. split.
  - intros t' Hct'. apply Hkeys in Hct'. apply in_map_iff in Hct'.
    destruct Hct' as ([k v'] & Hk & Hin'). simpl in Hk. subst k.
    rewrite <- (proj1 (Hval _ _ Hin')).
    rewrite Hsplit in Hin'. apply in_app_or in Hin'.
    destruct Hin' as [Hin'|[Hin'|Hin']].
    + apply Qlt_le_weak. apply (Hlt _ Hin').
    + injection Hin' as _ <-. apply Qle_refl.
    + apply (Hle _ Hin').
  - assert (Hk : dict_keys (team_km_of data) = dict_keys l1 ++ t :: dict_keys l2).
    { rewrite Hsplit. unfold dict_keys. now rewrite map_app. }
    destruct (team_km_order _ _ _ _ Hk) as (w1 & a & w2 & Hdata & Hc & Hbefore).
    exists w1, a, w2. split; [exact Hdata|]. split; [exact Hc|].
    intros t' Hct'. apply Hbefore in Hct'. apply in_map_iff in Hct'.
    destruct Hct' as ([k v'] & Hk' & Hin'). simpl in Hk'. subst k.
    assert (Hin2 : In (t', v') (team_km_of data)).
    { rewrite Hsplit. apply in_or_app. now left. }
    rewrite <- (proj1 (Hval _ _ Hin2)). apply (Hlt _ Hin').
Qed.

Lemma candidate_is_first_maximal_team_witness :
  let data := [contribution 1 "ub" (Some "b") 5; contribution 1 "ua" (Some "a") 5] in
  controlling_team_of data = Some ("b", 0 + 5)
  /\ (0 + 5 == team_total data "b"
      /\ contributes data "b"
      /\ (forall t', contributes data t' -> team_total data t' <= 0 + 5)
      /\ exists w1 a w2,
           data = w1 ++ a :: w2
           /\ counted_team a = Some "b"
           /\ forall t', contributes w1 t' -> team_total data t' < 0 + 5).
Proof.
  intro data.
  split; [reflexivity|].
  apply (candidate_is_first_maximal_team data "b" (0 + 5)). reflexivity.
Defined.

(** C5 as stated fails: two teams tie at 5 km, ["a"] sorts before ["b"],
    and the candidate is ["b"], whose contribution comes first. *)
Lemma lexicographic_tie_break_counterexample :
  ~ (forall data t v t',
        controlling_team_of data = Some (t, v) ->
        contributes data t' -> team_total data t' == v ->
        String.leb t t' = true).
Proof.
  intro H.
  specialize (H [contribution 1 "ub" (Some "b") 5; contribution 1 "ua" (Some "a") 5] "b" (0 + 5) "a" eq_refl).
  assert (Hc : contributes [contribution 1 "ub" (Some "b") 5; contribution 1 "ua" (Some "a") 5] "a").
  { exists (contribution 1 "ua" (Some "a") 5). split; [right; now left|reflexivity]. }
  specialize (H Hc). discriminate H. reflexivity.
Qed.

End ControlFacts.

Import ControlFacts.

(** ** One recalculation, and a second one *)

Module RecalculationFacts.

Import ZoneControl ControlSpec Samples.
Local Open Scope string_scope.
Local Open Scope list_scope.
Local Open Scope Q_scope.

(** [_recalculate_zone_control] with the monad unfolded. *)
Lemma recalculate_unfold (settings : Settings) (now : Z) (zone_id : nat) (st : db) :
  _recalculate_zone_control settings now zone_id st =
  match select_zone zone_id st with
  | [] => (Raise IndexError, st)
  | z :: _ =>
      match select_window now zone_id st with
      | [] => (Ok false, st)
      | data =>
          match control_decision settings z data with
          | Raise e => (Raise e, st)
          | Ok None => (Ok false, st)
          | Ok (Some u) =>
              (Ok (upd_changed u),
               if upd_changed u
               then insert_history {| he_zone_id := zone_id;
                                      previous_team := controlled_by_team z;
                                      new_team := upd_team u |}
                                   (update_zone zone_id u st)
               else update_zone zone_id u st)
          end
      end
  end.
Proof.
  unfold _recalculate_zone_control, bind, gets, ret, raise, modify, _log_control_change.
  destruct (select_zone zone_id st) as [|z rest]; [reflexivity|].
  destruct (select_window now zone_id st) as [|a data]; [reflexivity|].
  destruct (control_decision settings z (a :: data)) as [[u|]|e]; try reflexivity.
  destruct (upd_changed u); reflexivity.
Qed.

Lemma select_zone_update (zone_id : nat) (u : update_data) (st : db) :
  select_zone zone_id (update_zone zone_id u st) =
  map (apply_update u) (select_zone zone_id st).
Proof.
  unfold select_zone, update_zone. simpl.
  induction (zones st) as [|z zs IH]; [reflexivity|].
  simpl. destruct (Nat.eqb (z_id z) zone_id) eqn:E; simpl.
  - rewrite E. simpl. now rewrite IH.
  - rewrite E. exact IH.
Qed.

Lemma update_zone_twice (zone_id : nat) (u : update_data) (st : db) :
  update_zone zone_id u (update_zone zone_id u st) = update_zone zone_id u st.
Proof.
  unfold update_zone. simpl. f_equal. rewrite map_map. apply map_ext.
  intros z. destruct (Nat.eqb (z_id z) zone_id) eqn:E; simpl; rewrite E; [|reflexivity].
  unfold apply_update. simpl. destruct (upd_user u); reflexivity.
Qed.

Lemma team_km_of_teamless (data : list zone_activity) :
  (forall a, In a data -> truthy_str (za_team_id a) = false) ->
  team_km_of data = [].
Proof.
  induction data as [|a data IH] using rev_ind; intro H; [reflexivity|].
  rewrite team_km_snoc. unfold counted_team.
  rewrite (H a) by (apply in_or_app; right; now left).
  apply IH. intros a' Ha'. apply H. apply in_or_app. now left.
Qed.

(** C10: when no contribution of the window carries a team id, the
    recalculation decides nothing: it returns [False] and leaves the
    zone's controller, its control percentage and the change log as they
    were, whatever the distances are. *)
Theorem teamless_window_changes_nothing (settings : Settings) (now : Z)
    (zone_id : nat) (st : db) (z : zone) (rest : list zone) :
  select_zone zone_id st = z :: rest ->
  (forall a, In a (select_window now zone_id st) -> truthy_str (za_team_id a) = false) ->
  _recalculate_zone_control settings now zone_id st = (Ok false, st).
Proof.
  intros Hz Hteamless. rewrite recalculate_unfold, Hz.
  destruct (select_window now zone_id st) as [|a data] eqn:Hw; [reflexivity|].
  rewrite control_decision_unfold. unfold controlling_team_of.
  now rewrite (team_km_of_teamless _ Hteamless).
Qed.

Lemma teamless_window_changes_nothing_witness :
  let st := tables (zone_one (Some "A") (Some "ua") 80)
                   [contribution 1 "u1" None 1000; contribution 1 "u2" None 2500] in
  _recalculate_zone_control settings 0 1 st = (Ok false, st).
Proof.
  intro st.
  apply (teamless_window_changes_nothing settings 0 1 st
           (zone_one (Some "A") (Some "ua") 80) []).
  - reflexivity.
  - intros a [<-|[<-|[]]]; reflexivity.
Defined.

(** C2 at the failing input: team A holds the zone with 10 km in the
    window, team B has 11 km, which is more than 10 but not more than
    10 x 1.2 = 12; the recalculation hands the zone to B. *)
Lemma challenger_within_defense_margin_takes_control :
  let data := [contribution 1 "ua" (Some "A") 10; contribution 1 "ub" (Some "B") 11] in
  let st := tables (zone_one (Some "A") (Some "ua") 100) data in
  team_total data "A" < team_total data "B"
  /\ team_total data "B" <= team_total data "A" * ZONE_DEFENSE_MULTIPLIER settings
  /\ fst (_recalculate_zone_control settings 0 1 st) = Ok true
  /\ map controlled_by_team (zones (snd (_recalculate_zone_control settings 0 1 st)))
     = [Some "B"]
  /\ zone_control_history (snd (_recalculate_zone_control settings 0 1 st))
     = [{| he_zone_id := 1; previous_team := Some "A"; new_team := "B" |}].
Proof.
  intros data st. split; [reflexivity|]. split; [unfold Qle; simpl; lia|].
  repeat split; reflexivity.
Qed.

(** The defense multiplier never decides who controls a zone: with any
    other multiplier the recalculation returns the same flag, logs the
    same changes and stores the same controlling team. *)
Lemma defense_multiplier_never_decides_controller (settings : Settings) (m : Q)
    (now : Z) (zone_id : nat) (st : db) :
  let r1 := _recalculate_zone_control settings now zone_id st in
  let r2 := _recalculate_zone_control (with_defense_multiplier settings m) now zone_id st in
  fst r1 = fst r2
  /\ zone_control_history (snd r1) = zone_control_history (snd r2)
  /\ option_map controlled_by_team (stored_zone zone_id (snd r1))
     = option_map controlled_by_team (stored_zone zone_id (snd r2)).
Proof.
  cbv zeta. rewrite !recalculate_unfold.
  destruct (select_zone zone_id st) as [|z rest] eqn:Hz; [now repeat split|].
  destruct (select_window now zone_id st) as [|a data] eqn:Hw; [now repeat split|].
  rewrite !control_decision_unfold.
  destruct (controlling_team_of (a :: data)) as [[t raw]|]; [|now repeat split].
  cbv zeta. destruct (Qeq_bool (window_total (a :: data)) 0); [now repeat split|].
  unfold effective_km. simpl fst. simpl snd.
  destruct (opt_str_eqb (controlled_by_team z) t) eqn:E.
  - apply opt_str_eqb_true in E.
    assert (Hupd : forall u, upd_team u = t ->
              option_map controlled_by_team (stored_zone zone_id (update_zone zone_id u st))
              = option_map controlled_by_team (stored_zone zone_id st)).
    { intros u Hu. unfold stored_zone. rewrite select_zone_update, Hz. simpl.
      now rewrite Hu, E. }
    destruct (passes_gate settings _ _), (passes_gate (with_defense_multiplier settings m) _ _);
      simpl; repeat split; try reflexivity;
      rewrite ?Hupd by reflexivity; try reflexivity.
  - unfold passes_gate. simpl.
    destruct (Qle_bool 50 _ && Qle_bool _ raw); now repeat split.
Qed.

Lemma py_min_100_ge_50 (x : Q) : 50 <= py_min 100 x <-> 50 <= x.
Proof.
  unfold py_min. destruct (Qlt_bool x 100) eqn:E; [reflexivity|].
  apply Qlt_bool_false in E. split; intro H; [|unfold Qle; simpl; lia].
  eapply Qle_trans; [|exact E]. unfold Qle; simpl; lia.
Qed.

Lemma passes_gate_iff (settings : Settings) (pct km : Q) :
  passes_gate settings pct km = true <->
  50 <= pct /\ ZONE_CONTROL_THRESHOLD_KM settings <= km.
Proof.
  unfold passes_gate. rewrite andb_true_iff, !Qle_bool_iff. reflexivity.
Qed.

(** C3 (as the code has it): with a candidate team and a non-zero window
    total, the recalculation commits exactly when the control percentage
    is at least 50 and the candidate's effective distance - its raw
    distance, multiplied by the defense multiplier when the candidate
    already controls the zone - reaches the threshold; it then stores the
    candidate and the rounded percentage.  In every other case the
    tables are left as they were and [False] is returned. *)
Theorem commit_iff_gate_on_effective_distance (settings : Settings) (now : Z)
    (zone_id : nat) (st : db) (z : zone) (rest : list zone)
    (a : zone_activity) (more : list zone_activity) (t : string) (raw : Q) :
  select_zone zone_id st = z :: rest ->
  select_window now zone_id st = a :: more ->
  controlling_team_of (a :: more) = Some (t, raw) ->
  ~ window_total (a :: more) == 0 ->
  let data := a :: more in
  let eff := effective_km settings (controlled_by_team z) (t, raw) in
  let pct := percentage eff (window_total data) in
  let gate := 50 <= pct /\ ZONE_CONTROL_THRESHOLD_KM settings <= eff in
  raw == team_total data t
  /\ (commits settings z data <-> gate)
  /\ (gate ->
      exists st' z',
        _recalculate_zone_control settings now zone_id st
        = (Ok (negb (opt_str_eqb (controlled_by_team z) t)), st')
        /\ stored_zone zone_id st' = Some z'
        /\ controlled_by_team z' = Some t
        /\ control_percentage z' = round2 pct)
  /\ (~ gate -> _recalculate_zone_control settings now zone_id st = (Ok false, st)).
Proof.
  intros Hz Hw Hct Htot data eff pct gate.
  split; [exact (controlling_team_value _ _ _ Hct)|].
  assert (Hdec : control_decision settings z data =
                 if passes_gate settings pct eff
                 then Ok (Some {| upd_team := t;
                                  upd_percentage := round2 pct;
                                  upd_user := top_user data t;
                                  upd_changed := negb (opt_str_eqb (controlled_by_team z) t) |})
                 else Ok None).
  { rewrite control_decision_unfold. subst data. rewrite Hct. cbv zeta.
    destruct (Qeq_bool (window_total (a :: more)) 0) eqn:E; [|reflexivity].
    apply Qeq_bool_iff in E. contradiction. }
  split; [|split].
  - unfold commits. rewrite Hdec. subst gate. rewrite <- passes_gate_iff.
    destruct (passes_gate settings pct eff); split; intro H; try reflexivity.
    + eexists. reflexivity.
    + destruct H as [u Hu]. discriminate.
    + discriminate.
  - intros Hg. apply passes_gate_iff in Hg.
    rewrite recalculate_unfold, Hz, Hw. fold data. rewrite Hdec, Hg. simpl upd_changed.
    eexists. exists (apply_update {| upd_team := t;
                                     upd_percentage := round2 pct;
                                     upd_user := top_user data t;
                                     upd_changed := negb (opt_str_eqb (controlled_by_team z) t) |} z).
    split; [reflexivity|].
    split; [|split; reflexivity].
    unfold stored_zone.
    destruct (negb (opt_str_eqb (controlled_by_team z) t));
      [change (select_zone zone_id (insert_history ?e ?s)) with (select_zone zone_id s)|];
      rewrite select_zone_update, Hz; reflexivity.
  - intros Hg. rewrite recalculate_unfold, Hz, Hw. fold data. rewrite Hdec.
    destruct (passes_gate settings pct eff) eqn:E; [|reflexivity].
    apply passes_gate_iff in E. contradiction.
Qed.

Lemma commit_iff_gate_on_effective_distance_witness :
  let z := zone_one (Some "A") (Some "ua") 60 in
  let a := contribution 1 "ua" (Some "A") (45 # 10) in
  let st := tables z [a] in
  let eff := effective_km settings (Some "A") ("A", 0 + (45 # 10)) in
  (select_zone 1 st = [z]
   /\ select_window 0 1 st = [a]
   /\ controlling_team_of [a] = Some ("A", 0 + (45 # 10))
   /\ ~ window_total [a] == 0)
  /\ (commits settings z [a] <->
      50 <= percentage eff (window_total [a])
      /\ ZONE_CONTROL_THRESHOLD_KM settings <= eff).
Proof.
  intros z a st eff.
  assert (Htot : ~ window_total [a] == 0) by (intro H; discriminate H).
  split; [repeat split; exact Htot|].
  apply (commit_iff_gate_on_effective_distance settings 0 1 st z [] a [] "A"
           (0 + (45 # 10)) eq_refl eq_refl eq_refl Htot).
Defined.

(** C3 as stated fails: team A controls the zone and has 4.5 km in the
    window, below the 5 km threshold; boosted to 5.4 km it passes, and the
    recalculation commits (the stored percentage goes from 60 to 100). *)
Lemma raw_threshold_counterexample :
  let z := zone_one (Some "A") (Some "ua") 60 in
  let data := [contribution 1 "ua" (Some "A") (45 # 10)] in
  let st := tables z data in
  controlling_team_of data = Some ("A", 0 + (45 # 10))
  /\ ~ (commits settings z data <->
        50 <= percentage (effective_km settings (controlled_by_team z) ("A", 0 + (45 # 10)))
                         (window_total data)
        /\ ZONE_CONTROL_THRESHOLD_KM settings <= team_total data "A")
  /\ map control_percentage (zones (snd (_recalculate_zone_control settings 0 1 st)))
     = [100].
Proof.
  intros z data st. split; [reflexivity|]. split; [|reflexivity].
  intros [H _].
  assert (Hc : commits settings z data) by (eexists; reflexivity).
  destruct (H Hc) as [_ Hthr]. revert Hthr. unfold Qle. simpl. lia.
Qed.

Lemma gate_survives_defense_boost (settings : Settings) (raw total : Q) :
  1 <= ZONE_DEFENSE_MULTIPLIER settings ->
  0 <= ZONE_CONTROL_THRESHOLD_KM settings ->
  passes_gate settings (percentage raw total) raw = true ->
  passes_gate settings
    (percentage (raw * ZONE_DEFENSE_MULTIPLIER settings) total)
    (raw * ZONE_DEFENSE_MULTIPLIER settings) = true.
Proof.
  intros Hm Hthr H. apply passes_gate_iff in H. apply passes_gate_iff.
  destruct H as [Hpct Hraw]. unfold percentage in *.
  apply (proj1 (py_min_100_ge_50 _)) in Hpct. rewrite py_min_100_ge_50.
  set (m := ZONE_DEFENSE_MULTIPLIER settings) in *.
  set (thr := ZONE_CONTROL_THRESHOLD_KM settings) in *.
  clearbody m thr.
  split.
  - assert (E : raw * m / total * 100 == m * (raw / total * 100))
      by (unfold Qdiv; ring).
    rewrite E. set (x := raw / total * 100) in *. clearbody x. clear E.
    assert (0 <= (m - 1) * x) by (apply Qmult_le_0_compat; lra).
    lra.
  - assert (0 <= (m - 1) * raw) by (apply Qmult_le_0_compat; lra).
    lra.
Qed.

(** C4 (as the code has it): after a recalculation that returned, a
    second one over the same window returns [False], appends nothing to
    the change log and leaves every column of every zone row as it was,
    except possibly [control_percentage]; when the first run did not
    change the controlling team the tables are left exactly as they
    were. *)
Theorem second_recalculation_is_quiet (settings : Settings) (now : Z)
    (zone_id : nat) (st st1 : db) (changed : bool) :
  1 <= ZONE_DEFENSE_MULTIPLIER settings ->
  0 <= ZONE_CONTROL_THRESHOLD_KM settings ->
  _recalculate_zone_control settings now zone_id st = (Ok changed, st1) ->
  exists st2,
    _recalculate_zone_control settings now zone_id st1 = (Ok false, st2)
    /\ zone_control_history st2 = zone_control_history st1
    /\ zone_activities st2 = zone_activities st1
    /\ map forget_percentage (zones st2) = map forget_percentage (zones st1)
    /\ (changed = false -> st2 = st1).
Proof.
  intros Hm Hthr H1. rewrite recalculate_unfold in H1.
  destruct (select_zone zone_id st) as [|z rest] eqn:Hz; [discriminate|].
  destruct (select_window now zone_id st) as [|a more] eqn:Hw.
  { injection H1 as <- <-. exists st. rewrite recalculate_unfold, Hz, Hw. now repeat split. }
  destruct (control_decision settings z (a :: more)) as [[u|]|e] eqn:Hd;
    [|injection H1 as <- <-; exists st;
      rewrite recalculate_unfold, Hz, Hw, Hd; now repeat split
     |discriminate].
  injection H1 as Hchanged Hst1.
  pose proof Hd as Hd0. rewrite control_decision_unfold in Hd.
  destruct (controlling_team_of (a :: more)) as [[t raw]|] eqn:Hct; [|discriminate].
  cbv zeta in Hd.
  destruct (Qeq_bool (window_total (a :: more)) 0) eqn:Htot; [discriminate|].
  destruct (passes_gate settings _ _) eqn:Hg; [|discriminate].
  injection Hd as Hu. simpl fst in Hu.
  assert (Hw1 : select_window now zone_id st1 = a :: more).
  { rewrite <- Hw, <- Hst1. destruct (upd_changed u); reflexivity. }
  assert (Hz1 : select_zone zone_id st1 = map (apply_update u) (z :: rest)).
  { rewrite <- Hz, <- select_zone_update, <- Hst1. destruct (upd_changed u); reflexivity. }
  assert (Hteam : upd_team u = t) by (now rewrite <- Hu).
  assert (Huser : upd_user u = top_user (a :: more) t) by (now rewrite <- Hu).
  assert (Hflag : upd_changed u = negb (opt_str_eqb (controlled_by_team z) t))
    by (now rewrite <- Hu).
  rewrite recalculate_unfold, Hz1, Hw1. cbn [map]. cbv iota beta.
  rewrite control_decision_unfold, Hct. cbv zeta. rewrite Htot.
  simpl controlled_by_team. rewrite Hteam.
  assert (Hself : opt_str_eqb (Some t) t = true) by (simpl; apply String.eqb_refl).
  simpl fst. rewrite Hself. simpl negb.
  destruct (opt_str_eqb (controlled_by_team z) t) eqn:Hinc.
  - (* the candidate already held the zone: the same update is written again *)
    apply opt_str_eqb_true in Hinc. rewrite Hinc in Hg. rewrite Hg.
    simpl in Hflag. rewrite Hflag in Hst1, Hchanged. subst changed.
    assert (Hsame : {| upd_team := t;
                       upd_percentage :=
                         round2 (percentage (effective_km settings (Some t) (t, raw))
                                            (window_total (a :: more)));
                       upd_user := top_user (a :: more) t;
                       upd_changed := false |} = u).
    { rewrite <- Hu, Hinc. reflexivity. }
    rewrite Hsame, Hflag.
    exists st1. split; [|now repeat split].
    rewrite <- Hst1. now rewrite update_zone_twice.
  - (* the candidate has just taken the zone: it is now boosted *)
    unfold effective_km in Hg. simpl fst in Hg. simpl snd in Hg. rewrite Hinc in Hg.
    unfold effective_km. simpl fst. simpl snd. rewrite Hself.
    rewrite (gate_survives_defense_boost settings raw _ Hm Hthr Hg).
    simpl upd_changed. cbv iota.
    eexists. split; [reflexivity|].
    simpl in Hflag. rewrite Hflag in Hst1, Hchanged. subst changed.
    split; [reflexivity|]. split; [reflexivity|]. split; [|discriminate].
    rewrite <- Hst1. simpl. rewrite !map_map. apply map_ext. intros z'.
    destruct (Nat.eqb (z_id z') zone_id) eqn:E; simpl; rewrite E; [|reflexivity].
    unfold forget_percentage, apply_update. simpl. rewrite Hteam, Huser.
    destruct (top_user (a :: more) t); reflexivity.
Qed.

Lemma second_recalculation_is_quiet_witness :
  let st := tables (zone_one None None 0)
                   [contribution 1 "ua" (Some "A") 6; contribution 1 "ub" (Some "B") 4] in
  let st1 := snd (_recalculate_zone_control settings 0 1 st) in
  _recalculate_zone_control settings 0 1 st = (Ok true, st1)
  /\ exists st2,
       _recalculate_zone_control settings 0 1 st1 = (Ok false, st2)
       /\ zone_control_history st2 = zone_control_history st1
       /\ zone_activities st2 = zone_activities st1
       /\ map forget_percentage (zones st2) = map forget_percentage (zones st1)
       /\ (true = false -> st2 = st1).
Proof.
  intros st st1.
  assert (H1 : _recalculate_zone_control settings 0 1 st = (Ok true, st1)) by reflexivity.
  split; [exact H1|].
  apply (second_recalculation_is_quiet settings 0 1 st st1 true); [| |exact H1].
  - unfold Qle; simpl; lia.
  - unfold Qle; simpl; lia.
Defined.

(** C4 as stated fails: teams A (6 km) and B (4 km) in a neutral zone.
    The first run gives the zone to A at 60 percent; the second run, over
    the same window, finds A in control, boosts it and stores 72. *)
Lemma recalculation_not_idempotent_counterexample :
  let st := tables (zone_one None None 0)
                   [contribution 1 "ua" (Some "A") 6; contribution 1 "ub" (Some "B") 4] in
  let st1 := snd (_recalculate_zone_control settings 0 1 st) in
  let st2 := snd (_recalculate_zone_control settings 0 1 st1) in
  fst (_recalculate_zone_control settings 0 1 st) = Ok true
  /\ map control_percentage (zones st1) = [60]
  /\ map control_percentage (zones st2) = [72]
  /\ st2 <> st1.
Proof.
  intros st st1 st2. repeat split; try reflexivity.
  intro H. apply (f_equal (fun s => map control_percentage (zones s))) in H.
  discriminate H.
Qed.

End RecalculationFacts.

Import RecalculationFacts.

(** ** Splitting an activity over its cells *)

Module AllocationFacts.

Import ZoneControl ControlSpec Samples.
Local Open Scope string_scope.
Local Open Scope list_scope.
Local Open Scope Q_scope.









End AllocationFacts.

(** ** Decoding a route *)

Module DecodeFacts.

Import H3Service PolylineSpec.
Local Open Scope string_scope.
Local Open Scope list_scope.






(** The reference route of the polyline format decodes to its three
    coordinates. *)
Example decode_reference_route :
  match _decode_polyline "_p~iF~ps|U_ulLnnqC_mqNvxq`@" with
  | Ok points =>
      map (fun p => (Qred (fst p), Qred (snd p))) points
      = [(Qred (385 # 10), Qred (-1202 # 10)); (Qred (407 # 10), Qred (-12095 # 100));
         (Qred (43252 # 1000), Qred (-126453 # 1000))]
  | Raise _ => False
  end.
Proof. vm_compute. reflexivity. Qed.


End DecodeFacts.

(** ** Validation of a new activity *)

Module ValidationFacts.

Import ActivityModel Processor.
Local Open Scope string_scope.
Local Open Scope list_scope.

(** On a value that the request supplies, the validator rejects exactly
    the mismatches of the gym flag and the cell list. *)
Lemma supplied_zones_are_checked (gym : bool) (v : option (list string)) :
  (exists msg, validate_ActivityCreate (Given gym) (Given v) = Raise (ValidationError msg))
  <-> (gym = true /\ truthy_list v = false) \/ (gym = false /\ truthy_list v = true).
Proof.
  unfold validate_ActivityCreate, validate_gym_zones.
  destruct gym, (truthy_list v); simpl; split.
  - intros [msg H]. discriminate.
  - intros [[_ H]|[H _]]; discriminate.
  - intros _. now left.
  - intros _. eexists. reflexivity.
  - intros _. now right.
  - intros _. eexists. reflexivity.
  - intros [msg H]. discriminate.
  - intros [[H _]|[_ H]]; discriminate.
Qed.

(** C7 at the failing input: a gym activity whose request leaves
    [assigned_zones] out passes validation, and [create_activity] then
    resolves its cells from the route like for a tracked activity. *)
Lemma gym_activity_without_zones_is_accepted :
  validate_ActivityCreate (Given true) Omitted
  = Ok {| is_gym_activity := true; assigned_zones := None |}
  /\ (forall latlng_to_cell resolution polyline,
        resolve_h3_indexes latlng_to_cell resolution true None (Some polyline) None None
        = resolve_h3_indexes latlng_to_cell resolution false None (Some polyline) None None)
  /\ (exists msg,
        validate_ActivityCreate (Given true) (Given None) = Raise (ValidationError msg)).
Proof.
  split; [reflexivity|]. split; [reflexivity|]. eexists. reflexivity.
Qed.

End ValidationFacts.

(** ** Previewing an attack *)

Module PreviewFacts.

Import Risk Samples.
Local Open Scope string_scope.
Local Open Scope list_scope.
Local Open Scope Q_scope.




(** A preview never writes, whatever it is asked. *)
Lemma preview_attack_mutates_nothing (territory_id : string) (units : Z) (st : risk_db) :
  snd (preview_attack territory_id units st) = st.
Proof.
  unfold preview_attack. destruct (units <? 1)%Z; [reflexivity|].
  destruct (get_territory_detail st territory_id) as [territory|]; [|reflexivity].
  destruct (control_get (td_control territory) tc_units);
    destruct (control_get (td_control territory) tc_defense_bonus); reflexivity.
Qed.

(** A control row with a NULL in [units] or [defense_bonus] stops the
    preview at line 343. *)
Lemma preview_attack_on_a_null_column (territory_id : string) (units : Z)
    (st : risk_db) (territory : territory_detail) :
  (1 <= units)%Z ->
  get_territory_detail st territory_id = Some territory ->
  control_get (td_control territory) tc_units = None
  \/ control_get (td_control territory) tc_defense_bonus = None ->
  preview_attack territory_id units st = (Raise TypeError, st).
Proof.
  intros Hunits Hdetail Hnull. unfold preview_attack. rewrite Hdetail.
  destruct (units <? 1)%Z eqn:E; [apply Z.ltb_lt in E; lia|].
  destruct Hnull as [-> | ->]; [reflexivity|].
  destruct (control_get (td_control territory) tc_units); reflexivity.
Qed.


End PreviewFacts.

(** ** The ring count of [get_area_cells] *)

Module AreaFacts.

Import H3Service.
Local Open Scope string_scope.
Local Open Scope list_scope.
Local Open Scope Q_scope.

Lemma py_int_nonneg (x : Q) : 0 <= x -> py_int x = Qfloor x.
Proof.
  destruct x as [n d]. unfold Qle, py_int, Qfloor. simpl. intros H.
  apply Z.quot_div_nonneg; lia.
Qed.

(** The ring count of the code: for a cell of positive area it is
    [floor(radius_km^2 / cell_area) + 1] - [int] truncates, it does not
    round up -, which is at least 1 and strictly more than
    [radius_km^2 / cell_area]; [get_area_cells] returns the disk of that
    many rings around the cell of the center. *)
Lemma ring_count_is_floor_plus_one
    (latlng_to_cell : Q -> Q -> Z -> string) (cell_area : string -> Q)
    (grid_disk : string -> Z -> list string) (resolution : Z)
    (center_lat center_lng radius_km : Q) :
  let center_cell := lat_lng_to_cell latlng_to_cell resolution center_lat center_lng in
  let hex_area := cell_area center_cell in
  let k := (Qfloor (radius_km * radius_km / hex_area) + 1)%Z in
  0 < hex_area ->
  k_rings radius_km hex_area = Ok k
  /\ get_area_cells latlng_to_cell cell_area grid_disk resolution
       center_lat center_lng radius_km
     = Ok (grid_disk center_cell k)
  /\ (1 <= k)%Z
  /\ radius_km * radius_km / hex_area < inject_Z k
  /\ (Qceiling (radius_km * radius_km / hex_area) <= k)%Z.
Proof.
  intros center_cell hex_area k Harea.
  assert (Hq : 0 <= radius_km * radius_km / hex_area).
  { apply Qle_shift_div_l; [exact Harea|]. rewrite Qmult_0_l.
    destruct (Qlt_le_dec radius_km 0) as [Hneg|Hpos].
    - setoid_replace (radius_km * radius_km) with ((- radius_km) * (- radius_km)) by ring.
      apply Qmult_le_0_compat; lra.
    - now apply Qmult_le_0_compat. }
  assert (Hk : k_rings radius_km hex_area = Ok k).
  { unfold k_rings. destruct (Qeq_bool hex_area 0) eqn:E.
    - apply Qeq_bool_iff in E. rewrite E in Harea. discriminate Harea.
    - now rewrite py_int_nonneg. }
  split; [exact Hk|]. split.
  { unfold get_area_cells. fold center_cell. fold hex_area. now rewrite Hk. }
  assert (Hfloor : (0 <= Qfloor (radius_km * radius_km / hex_area))%Z).
  { change 0%Z with (Qfloor 0). now apply Qfloor_resp_le. }
  split; [subst k; lia|]. split.
  - subst k. apply Qlt_floor.
  - subst k.
    pose proof (Qceiling_lt (radius_km * radius_km / hex_area)) as Hc.
    pose proof (Qlt_floor (radius_km * radius_km / hex_area)) as Hf.
    pose proof (Qlt_trans _ _ _ Hc Hf) as H.
    rewrite <- Zlt_Qlt in H. lia.
Qed.

(** With a radius of 1 km and a cell of 0.3 km2 the quotient is 3.33;
    the code takes [int(3.33) + 1 = 4] rings, not [ceil(3.33) + 1 = 5]. *)
Lemma ring_count_below_the_ceiling :
  k_rings 1 (3 # 10) = Ok 4%Z
  /\ (Qceiling (1 * 1 / (3 # 10)) + 1 = 5)%Z.
Proof. split; reflexivity. Qed.

Lemma Qfloor_below_one (x : Q) : 0 <= x -> x < 1 -> Qfloor x = 0%Z.
Proof.
  intros H0 H1.
  assert (Hlo : (0 <= Qfloor x)%Z) by (change 0%Z with (Qfloor 0); now apply Qfloor_resp_le).
  pose proof (Qfloor_le x) as Hle.
  assert (Hhi : inject_Z (Qfloor x) < inject_Z 1) by (change (inject_Z 1) with 1; lra).
  rewrite <- Zlt_Qlt in Hhi. lia.
Qed.

Lemma Qceiling_within_one (x : Q) : 0 < x -> x < 1 -> Qceiling x = 1%Z.
Proof.
  intros H0 H1.
  pose proof (Qle_ceiling x) as Hle. pose proof (Qceiling_lt x) as Hlt.
  assert (Hlo : inject_Z 0 < inject_Z (Qceiling x)) by (change (inject_Z 0) with 0; lra).
  assert (Hhi : inject_Z (Qceiling x - 1) < inject_Z 1)
    by (change (inject_Z 1) with 1; lra).
  rewrite <- Zlt_Qlt in Hlo, Hhi. lia.
Qed.

(** C9 (the code against the claim): for a positive radius whose square
    is below the area of the center's cell, the count of the claim,
    [ceil(radius_km^2 / cell_area) + 1], is 2, and the code asks for one
    ring: [get_area_cells] returns the center's cell and the ring of its
    neighbours, whatever the radius is within that range and wherever
    in its cell the center lies. *)
Theorem small_radius_gets_a_single_ring
    (latlng_to_cell : Q -> Q -> Z -> string) (cell_area : string -> Q)
    (grid_disk : string -> Z -> list string) (resolution : Z)
    (center_lat center_lng radius_km : Q) :
  let center_cell := lat_lng_to_cell latlng_to_cell resolution center_lat center_lng in
  let hex_area := cell_area center_cell in
  0 < radius_km ->
  radius_km * radius_km < hex_area ->
  k_rings radius_km hex_area = Ok 1%Z
  /\ get_area_cells latlng_to_cell cell_area grid_disk resolution
       center_lat center_lng radius_km
     = Ok (grid_disk center_cell 1%Z)
  /\ (Qceiling (radius_km * radius_km / hex_area) + 1 = 2)%Z.
Proof.
  intros center_cell hex_area Hr Hsmall.
  assert (Hsq : 0 < radius_km * radius_km) by (apply Qmult_lt_0_compat; exact Hr).
  assert (Harea : 0 < hex_area) by lra.
  assert (Hq0 : 0 < radius_km * radius_km / hex_area).
  { apply Qlt_shift_div_l; [exact Harea|]. now rewrite Qmult_0_l. }
  assert (Hq1 : radius_km * radius_km / hex_area < 1).
  { apply Qlt_shift_div_r; [exact Harea|]. now rewrite Qmult_1_l. }
  assert (Hk : k_rings radius_km hex_area = Ok 1%Z).
  { unfold k_rings. destruct (Qeq_bool hex_area 0) eqn:E.
    - apply Qeq_bool_iff in E. rewrite E in Harea. discriminate Harea.
    - rewrite py_int_nonneg by lra. rewrite Qfloor_below_one by lra. reflexivity. }
  split; [exact Hk|]. split.
  - unfold get_area_cells. fold center_cell. fold hex_area. now rewrite Hk.
  - now rewrite Qceiling_within_one.
Qed.

Lemma small_radius_gets_a_single_ring_witness :
  get_area_cells (fun _ _ _ => "8928308280fffff") (fun _ => 1 # 10)
    (fun c k => repeat c (Z.to_nat (3 * k * (k + 1) + 1))) 9 (413851 # 10000) (21734 # 10000)
    (3 # 10)
  = Ok (repeat "8928308280fffff" 7)
  /\ (Qceiling ((3 # 10) * (3 # 10) / (1 # 10)) + 1 = 2)%Z.
Proof.
  destruct (small_radius_gets_a_single_ring (fun _ _ _ => "8928308280fffff")
              (fun _ => 1 # 10) (fun c k => repeat c (Z.to_nat (3 * k * (k + 1) + 1)))
              9 (413851 # 10000) (21734 # 10000) (3 # 10))
    as (_ & Hcells & Hclaim); [reflexivity|reflexivity|].
  split; [exact Hcells|exact Hclaim].
Defined.

End AreaFacts.

(** * Further properties of the code

    ** Zone control *)

Module ControlExtras.

Import ZoneControl ControlSpec ControlExtraSpec Samples.
Local Open Scope string_scope.
Local Open Scope list_scope.
Local Open Scope Q_scope.

Lemma round_half_even_lower (a : Z) (y : Q) :
  inject_Z a <= y -> (a <= round_half_even y)%Z.
Proof.
  intros H. apply Qfloor_resp_le in H. rewrite Qfloor_Z in H.
  unfold round_half_even.
  destruct (Qlt_bool _ _); [exact H|].
  destruct (Qlt_bool _ _); [lia|].
  destruct (Z.even _); lia.
Qed.

Lemma round_half_even_upper (b : Z) (y : Q) :
  y <= inject_Z b -> (round_half_even y <= b)%Z.
Proof.
  intros H. pose proof (Qfloor_resp_le _ _ H) as Hf. rewrite Qfloor_Z in Hf.
  unfold round_half_even.
  destruct (Qlt_bool (y - inject_Z (Qfloor y)) (1 # 2)) eqn:E; [exact Hf|].
  apply Qlt_bool_false in E.
  assert (Hlt : inject_Z (Qfloor y) < inject_Z b) by lra.
  rewrite <- Zlt_Qlt in Hlt.
  destruct (Qlt_bool _ _); [lia|].
  destruct (Z.even _); lia.
Qed.

Lemma round2_between (lo hi : Z) (x : Q) :
  inject_Z lo <= x -> x <= inject_Z hi ->
  inject_Z lo <= round2 x /\ round2 x <= inject_Z hi.
Proof.
  intros Hlo Hhi. unfold round2. rewrite Qred_correct.
  assert (H1 : (lo * 100 <= round_half_even (x * 100))%Z).
  { apply round_half_even_lower. rewrite inject_Z_mult. change (inject_Z 100) with 100. lra. }
  assert (H2 : (round_half_even (x * 100) <= hi * 100)%Z).
  { apply round_half_even_upper. rewrite inject_Z_mult. change (inject_Z 100) with 100. lra. }
  rewrite Zle_Qle, inject_Z_mult in H1, H2. change (inject_Z 100) with 100 in H1, H2.
  split.
  - apply Qle_shift_div_l; [reflexivity|exact H1].
  - apply Qle_shift_div_r; [reflexivity|exact H2].
Qed.

Lemma py_min_100_le (x : Q) : py_min 100 x <= 100.
Proof.
  unfold py_min. destruct (Qlt_bool x 100) eqn:E; [|apply Qle_refl].
  apply Qlt_bool_iff in E. now apply Qlt_le_weak.
Qed.

(** X1: whenever the control decision commits a team to a zone, the
    percentage written with it lies between 50 and 100: the gate asks
    for at least half of the effective distance, and the figure is capped
    at 100 before it is rounded to two places. *)
Theorem committed_percentage_between_50_and_100 (settings : Settings) (z : zone)
    (data : list zone_activity) (u : update_data) :
  control_decision settings z data = Ok (Some u) ->
  50 <= upd_percentage u /\ upd_percentage u <= 100.
Proof.
  rewrite control_decision_unfold.
  destruct (controlling_team_of data) as [ct|]; [|discriminate]. cbv zeta.
  destruct (Qeq_bool (window_total data) 0); [discriminate|].
  destruct (passes_gate settings _ _) eqn:Hg; [|discriminate].
  intros H. injection H as <-. simpl.
  apply passes_gate_iff in Hg. destruct Hg as [H50 _].
  apply (round2_between 50 100); [exact H50|]. apply py_min_100_le.
Qed.

Lemma committed_percentage_between_50_and_100_witness :
  let z := zone_one None None 0 in
  let data := [contribution 1 "ua" (Some "A") 6; contribution 1 "ub" (Some "B") 4] in
  exists u, control_decision settings z data = Ok (Some u)
            /\ 50 <= upd_percentage u /\ upd_percentage u <= 100.
Proof.
  intros z data. eexists. split; [reflexivity|].
  apply (committed_percentage_between_50_and_100 settings z data). reflexivity.
Defined.

(** What a returning recalculation has done, case by case. *)
Lemma recalculate_outcome (settings : Settings) (now : Z) (zone_id : nat)
    (st st' : db) (r : result bool) :
  _recalculate_zone_control settings now zone_id st = (r, st') ->
  (st' = st /\ r <> Ok true)
  \/ exists z rest u,
       select_zone zone_id st = z :: rest
       /\ control_decision settings z (select_window now zone_id st) = Ok (Some u)
       /\ r = Ok (upd_changed u)
       /\ st' = (if upd_changed u
                 then insert_history {| he_zone_id := zone_id;
                                        previous_team := controlled_by_team z;
                                        new_team := upd_team u |}
                                     (update_zone zone_id u st)
                 else update_zone zone_id u st).
Proof.
  rewrite recalculate_unfold.
  destruct (select_zone zone_id st) as [|z rest] eqn:Hz.
  { intros H. injection H as <- <-. left. split; [reflexivity|discriminate]. }
  destruct (select_window now zone_id st) as [|a more] eqn:Hw.
  { intros H. injection H as <- <-. left. split; [reflexivity|discriminate]. }
  destruct (control_decision settings z (a :: more)) as [[u|]|e] eqn:Hd;
    intros H; injection H as <- <-.
  - right. exists z, rest, u. now repeat split.
  - left. split; [reflexivity|discriminate].
  - left. split; [reflexivity|discriminate].
Qed.

Lemma decision_fields (settings : Settings) (z : zone) (data : list zone_activity)
    (u : update_data) :
  control_decision settings z data = Ok (Some u) ->
  exists raw,
    controlling_team_of data = Some (upd_team u, raw)
    /\ upd_changed u = negb (opt_str_eqb (controlled_by_team z) (upd_team u))
    /\ upd_user u = top_user data (upd_team u).
Proof.
  rewrite control_decision_unfold.
  destruct (controlling_team_of data) as [[t raw]|]; [|discriminate]. cbv zeta.
  destruct (Qeq_bool (window_total data) 0); [discriminate|].
  destruct (passes_gate settings _ _); [|discriminate].
  intros H. injection H as <-. exists raw. now repeat split.
Qed.

(** X2: [_recalculate_zone_control] and the change log agree. When it
    returns [True] the log has grown by exactly one entry, from the
    zone's previous team to the team now stored as its controller, and
    the two differ; when it returns [False] the log and the zone's
    controller are as before. *)
Theorem change_log_grows_exactly_on_change (settings : Settings) (now : Z)
    (zone_id : nat) (st st' : db) (changed : bool) :
  _recalculate_zone_control settings now zone_id st = (Ok changed, st') ->
  exists z z',
    stored_zone zone_id st = Some z
    /\ stored_zone zone_id st' = Some z'
    /\ if changed
       then exists t,
              zone_control_history st' =
              zone_control_history st ++
              [{| he_zone_id := zone_id; previous_team := controlled_by_team z;
                  new_team := t |}]
              /\ controlled_by_team z' = Some t
              /\ controlled_by_team z <> Some t
       else zone_control_history st' = zone_control_history st
            /\ controlled_by_team z' = controlled_by_team z.
Proof.
  intros H. pose proof H as H0. apply recalculate_outcome in H.
  destruct H as [[-> Hr]|(z & rest & u & Hz & Hd & Hr & Hst)].
  - rewrite recalculate_unfold in H0. unfold stored_zone.
    destruct (select_zone zone_id st) as [|z rest]; [discriminate|].
    exists z, z. split; [reflexivity|]. split; [reflexivity|].
    destruct changed; [now contradiction Hr|now split].
  - injection Hr as ->.
    destruct (decision_fields _ _ _ _ Hd) as (raw & _ & Hflag & _).
    exists z, (apply_update u z). unfold stored_zone. rewrite Hz.
    split; [reflexivity|]. split.
    { rewrite Hst. destruct (upd_changed u);
        [change (select_zone zone_id (insert_history ?e ?s)) with (select_zone zone_id s)|];
        rewrite select_zone_update, Hz; reflexivity. }
    rewrite Hst. destruct (upd_changed u) eqn:Hc.
    + exists (upd_team u). split; [reflexivity|]. split; [reflexivity|].
      intros E. apply opt_str_eqb_true in E. rewrite E in Hflag. discriminate.
    + split; [reflexivity|]. simpl.
      symmetry in Hflag. apply negb_false_iff in Hflag.
      apply opt_str_eqb_true in Hflag. now rewrite Hflag.
Qed.

Lemma change_log_grows_exactly_on_change_witness :
  let st := tables (zone_one (Some "B") None 0)
                   [contribution 1 "ua" (Some "A") 6; contribution 1 "ub" (Some "B") 4] in
  let st' := snd (_recalculate_zone_control settings 0 1 st) in
  _recalculate_zone_control settings 0 1 st = (Ok true, st')
  /\ exists z z',
       stored_zone 1 st = Some z /\ stored_zone 1 st' = Some z'
       /\ exists t,
            zone_control_history st' =
            zone_control_history st ++
            [{| he_zone_id := 1%nat; previous_team := controlled_by_team z; new_team := t |}]
            /\ controlled_by_team z' = Some t
            /\ controlled_by_team z <> Some t.
Proof.
  intros st st'.
  assert (H : _recalculate_zone_control settings 0 1 st = (Ok true, st')) by reflexivity.
  split; [exact H|].
  exact (change_log_grows_exactly_on_change settings 0 1 st st' true H).
Defined.

(** X3: [_recalculate_zone_control] writes to one zone only. It never
    touches [zone_activities]; it keeps the number and order of the zone
    rows and their fixed columns, and every row with another id is left
    as it was; and when it raises, nothing at all has been written. *)
Theorem recalculation_touches_one_zone_only (settings : Settings) (now : Z)
    (zone_id : nat) (st : db) :
  let r := fst (_recalculate_zone_control settings now zone_id st) in
  let st' := snd (_recalculate_zone_control settings now zone_id st) in
  zone_activities st' = zone_activities st
  /\ Forall2 (fun z z' => same_fixed_columns z z' /\ (z_id z <> zone_id -> z' = z))
             (zones st) (zones st')
  /\ (forall e, r = Raise e -> st' = st).
Proof.
  cbv zeta.
  destruct (_recalculate_zone_control settings now zone_id st) as [r st'] eqn:H.
  simpl. apply recalculate_outcome in H.
  assert (Hsame : Forall2 (fun z z' => same_fixed_columns z z' /\ (z_id z <> zone_id -> z' = z))
                          (zones st) (zones st)).
  { induction (zones st) as [|z zs IH]; constructor; [|exact IH].
    split; [now repeat split|reflexivity]. }
  destruct H as [[-> _]|(z & rest & u & _ & _ & -> & ->)].
  - split; [reflexivity|]. split; [exact Hsame|reflexivity].
  - assert (Hupd : Forall2 (fun z z' => same_fixed_columns z z'
                                          /\ (z_id z <> zone_id -> z' = z))
                           (zones st) (zones (update_zone zone_id u st))).
    { unfold update_zone. simpl. clear Hsame.
      induction (zones st) as [|z0 zs IH]; constructor; [|exact IH].
      destruct (Nat.eqb_spec (z_id z0) zone_id) as [E|E].
      - split; [now repeat split|]. intros Hne. contradiction.
      - split; [now repeat split|reflexivity]. }
    destruct (upd_changed u); (split; [reflexivity|]); (split; [exact Hupd|]);
      intros e He; discriminate.
Qed.

Lemma user_km_snoc (data : list zone_activity) (a : zone_activity) :
  snd (accumulate (data ++ [a])) =
  dict_set (snd (accumulate data)) (za_user_id a)
           (dict_get (snd (accumulate data)) (za_user_id a) 0 + za_distance_km a).
Proof.
  unfold accumulate. rewrite fold_left_app. simpl.
  destruct (fold_left accumulate_step data ([], [])) as [tk uk]. reflexivity.
Qed.

Lemma user_km_has_every_user (data : list zone_activity) (a : zone_activity) :
  In a data -> In (za_user_id a) (dict_keys (snd (accumulate data))).
Proof.
  induction data as [|b data IH] using rev_ind; [intros []|].
  intros Hin. rewrite user_km_snoc. apply in_app_or in Hin.
  destruct Hin as [Hin|[->|[]]].
  - apply dict_set_keys_incl. now apply IH.
  - apply dict_set_key_in.
Qed.

Lemma candidate_contributes (data : list zone_activity) (t : string) (raw : Q) :
  controlling_team_of data = Some (t, raw) -> contributes data t.
Proof.
  unfold controlling_team_of. intros H.
  destruct (team_km_of data) as [|first rest] eqn:Hd; [discriminate|].
  injection H as Hmax.
  pose proof (max_by_value_in rest first) as Hin. rewrite Hmax, <- Hd in Hin.
  destruct (team_km_invariant data) as (_ & Hval & _).
  exact (proj2 (Hval _ _ Hin)).
Qed.

(** X4: the user stored as controller of a zone is always set, and
    has a row in the window that was run for the team that takes the
    zone. *)
Theorem committed_user_ran_for_the_winning_team (settings : Settings) (z : zone)
    (data : list zone_activity) (u : update_data) :
  control_decision settings z data = Ok (Some u) ->
  exists uid a,
    upd_user u = Some uid
    /\ In a data
    /\ za_user_id a = uid
    /\ za_team_id a = Some (upd_team u).
Proof.
  intros Hd. destruct (decision_fields _ _ _ _ Hd) as (raw & Hct & _ & Huser).
  rewrite Huser. unfold top_user.
  set (t := upd_team u) in *.
  set (pred := fun kv : string * Q =>
                 existsb (fun a => String.eqb (za_user_id a) (fst kv)
                                   && opt_str_eqb (za_team_id a) t) data).
  assert (Hpred : forall kv, pred kv = true ->
            exists a, In a data /\ za_user_id a = fst kv /\ za_team_id a = Some t).
  { intros kv H. apply existsb_exists in H. destruct H as (a & Hin & H).
    apply andb_true_iff in H. destruct H as [H1 H2].
    exists a. split; [exact Hin|]. split; [now apply String.eqb_eq|].
    now apply opt_str_eqb_true. }
  assert (Hne : filter pred (snd (accumulate data)) <> []).
  { destruct (candidate_contributes _ _ _ Hct) as (a0 & Hin0 & Hc0).
    apply counted_team_Some in Hc0. destruct Hc0 as [Hteam0 _].
    pose proof (user_km_has_every_user data a0 Hin0) as Hkey.
    apply in_map_iff in Hkey. destruct Hkey as ([k v] & Hk & Hkv). simpl in Hk. subst k.
    assert (Hf : In (za_user_id a0, v) (filter pred (snd (accumulate data)))).
    { apply filter_In. split; [exact Hkv|]. apply existsb_exists.
      exists a0. split; [exact Hin0|]. simpl. rewrite String.eqb_refl. simpl.
      now apply opt_str_eqb_true. }
    intros E. rewrite E in Hf. exact Hf. }
  destruct (filter pred (snd (accumulate data))) as [|x xs] eqn:Hf; [contradiction|].
  pose proof (max_by_value_in xs x) as Hin. rewrite <- Hf in Hin.
  apply filter_In in Hin. destruct Hin as [_ Hp].
  destruct (Hpred _ Hp) as (a & Ha & Hu & Ht).
  exists (fst (max_by_value x xs)), a. now repeat split.
Qed.

Lemma committed_user_ran_for_the_winning_team_witness :
  let z := zone_one None None 0 in
  let data := [contribution 1 "ua" (Some "A") 6; contribution 1 "ub" (Some "B") 4] in
  exists u, control_decision settings z data = Ok (Some u)
            /\ exists uid a, upd_user u = Some uid /\ In a data
                             /\ za_user_id a = uid /\ za_team_id a = Some (upd_team u).
Proof.
  intros z data. eexists. split; [reflexivity|].
  apply (committed_user_ran_for_the_winning_team settings z data). reflexivity.
Defined.

Lemma fold_left_Qplus_from (l : list Q) :
  forall a, fold_left Qplus l a == a + py_sum l.
Proof.
  unfold py_sum. induction l as [|x l IH]; intro a; cbn [fold_left].
  - ring.
  - rewrite (IH (a + x)), (IH (0 + x)). ring.
Qed.

Lemma py_sum_cons (x : Q) (l : list Q) : py_sum (x :: l) == x + py_sum l.
Proof. unfold py_sum at 1. cbn [fold_left]. rewrite fold_left_Qplus_from. ring. Qed.

Lemma py_sum_after_set (d : dict Q) (k : string) (v : Q) :
  py_sum (dict_values (dict_set d k v)) ==
  py_sum (dict_values d) - dict_get d k 0 + v.
Proof.
  unfold dict_values.
  induction d as [|[k' v'] d IH]; cbn [dict_set dict_get map snd].
  - rewrite py_sum_cons. unfold py_sum. cbn [fold_left]. ring.
  - destruct (String.eqb k' k); cbn [map snd].
    + rewrite !py_sum_cons. ring.
    + rewrite !py_sum_cons, IH. ring.
Qed.

Lemma teamed_distance_snoc (data : list zone_activity) (a : zone_activity) :
  teamed_distance (data ++ [a]) =
  if truthy_str (za_team_id a) then teamed_distance data + za_distance_km a
  else teamed_distance data.
Proof. unfold teamed_distance. now rewrite fold_left_app. Qed.

(** [sum(team_km.values())] is the distance of the rows that carry a
    team. *)
Lemma window_total_is_teamed_distance (data : list zone_activity) :
  window_total data == teamed_distance data.
Proof.
  unfold window_total.
  induction data as [|a data IH] using rev_ind; [reflexivity|].
  rewrite team_km_snoc, teamed_distance_snoc. unfold counted_team.
  destruct (truthy_str (za_team_id a)) eqn:E; [|exact IH].
  destruct (za_team_id a) as [t|]; [|discriminate].
  rewrite py_sum_after_set, IH. ring.
Qed.

Lemma team_km_nonempty (data : list zone_activity) (a : zone_activity) :
  In a data -> truthy_str (za_team_id a) = true -> team_km_of data <> [].
Proof.
  intros Hin Ht E.
  assert (Hc : exists t, counted_team a = Some t).
  { unfold counted_team. rewrite Ht. destruct (za_team_id a) as [t|]; [|discriminate].
    now exists t. }
  destruct Hc as [t Hc].
  assert (Hk : In t (dict_keys (team_km_of data))).
  { apply (team_km_invariant data). now exists a. }
  rewrite E in Hk. exact Hk.
Qed.

(** X5: when the window of an existing zone holds a row with a team
    but the distances of the rows with a team add up to zero,
    [_recalculate_zone_control] divides by zero: it raises
    [ZeroDivisionError] and writes nothing. *)
Theorem zero_teamed_distance_raises (settings : Settings) (now : Z) (zone_id : nat)
    (st : db) (z : zone) (rest : list zone) (a : zone_activity) :
  select_zone zone_id st = z :: rest ->
  In a (select_window now zone_id st) ->
  truthy_str (za_team_id a) = true ->
  teamed_distance (select_window now zone_id st) == 0 ->
  _recalculate_zone_control settings now zone_id st = (Raise ZeroDivisionError, st).
Proof.
  intros Hz Hin Ht Hzero. rewrite recalculate_unfold, Hz.
  destruct (select_window now zone_id st) as [|b more] eqn:Hw; [destruct Hin|].
  rewrite control_decision_unfold. unfold controlling_team_of.
  pose proof (team_km_nonempty _ _ Hin Ht) as Hne.
  destruct (team_km_of (b :: more)) as [|first others]; [contradiction|].
  cbv zeta. rewrite <- window_total_is_teamed_distance in Hzero.
  apply Qeq_bool_iff in Hzero. now rewrite Hzero.
Qed.

Lemma zero_teamed_distance_raises_witness :
  let a := contribution 1 "ua" (Some "A") 0 in
  let st := tables (zone_one None None 0) [a] in
  _recalculate_zone_control settings 0 1 st = (Raise ZeroDivisionError, st).
Proof.
  intros a st.
  apply (zero_teamed_distance_raises settings 0 1 st (zone_one None None 0) [] a).
  - reflexivity.
  - now left.
  - reflexivity.
  - reflexivity.
Defined.

Lemma single_team_km (data : list zone_activity) (t : string) :
  data <> [] ->
  t <> EmptyString ->
  (forall a, In a data -> za_team_id a = Some t) ->
  exists v, team_km_of data = [(t, v)] /\ v == team_total data t.
Proof.
  intros Hne Ht Hall.
  destruct (team_km_invariant data) as (Hnd & Hval & Hkeys).
  assert (Honly : forall k v, In (k, v) (team_km_of data) -> k = t).
  { intros k v Hin. destruct (Hval _ _ Hin) as [_ (a & Ha & Hc)].
    apply counted_team_Some in Hc. destruct Hc as [Hc _].
    rewrite (Hall a Ha) in Hc. now injection Hc as <-. }
  assert (Hin : In t (dict_keys (team_km_of data))).
  { apply Hkeys. destruct data as [|a data]; [contradiction|].
    exists a. split; [now left|]. apply counted_team_Some.
    split; [apply Hall; now left|exact Ht]. }
  destruct (team_km_of data) as [|[k v] [|[k' v'] d]] eqn:Hd.
  - destruct Hin.
  - assert (k = t) by (apply (Honly k v); now left). subst k.
    exists v. split; [reflexivity|]. apply Hval. now left.
  - exfalso.
    assert (k = t) by (apply (Honly k v); now left).
    assert (k' = t) by (apply (Honly k' v'); right; now left).
    subst k k'. simpl in Hnd. inversion Hnd as [|? ? Hnot _]. apply Hnot. now left.
Qed.

(** X6: when every row of the window was run for one team that does
    not hold the zone, and that team reaches the threshold, the
    recalculation hands it the zone with 100 percent, stores its top user
    and logs the change. *)
Theorem single_team_takes_the_zone (settings : Settings) (now : Z) (zone_id : nat)
    (st : db) (z : zone) (rest : list zone) (t : string) :
  let data := select_window now zone_id st in
  select_zone zone_id st = z :: rest ->
  data <> [] ->
  t <> EmptyString ->
  (forall a, In a data -> za_team_id a = Some t) ->
  controlled_by_team z <> Some t ->
  0 < team_total data t ->
  ZONE_CONTROL_THRESHOLD_KM settings <= team_total data t ->
  _recalculate_zone_control settings now zone_id st =
  (Ok true,
   insert_history {| he_zone_id := zone_id; previous_team := controlled_by_team z;
                     new_team := t |}
     (update_zone zone_id
        {| upd_team := t; upd_percentage := 100; upd_user := top_user data t;
           upd_changed := true |} st)).
Proof.
  intros data Hz Hne Ht Hall Hctl Hpos Hthr.
  destruct (single_team_km data t Hne Ht Hall) as (v & Hkm & Hv).
  assert (Hinc : opt_str_eqb (controlled_by_team z) t = false).
  { destruct (opt_str_eqb (controlled_by_team z) t) eqn:E; [|reflexivity].
    apply opt_str_eqb_true in E. contradiction. }
  assert (Hdec : control_decision settings z data =
                 Ok (Some {| upd_team := t; upd_percentage := 100;
                             upd_user := top_user data t; upd_changed := true |})).
  { rewrite control_decision_unfold. unfold controlling_team_of, window_total.
    rewrite Hkm. cbn [max_by_value dict_values map snd fst]. cbv zeta.
    unfold effective_km. cbn [fst snd]. rewrite Hinc.
    assert (Htot : py_sum [v] == v) by (unfold py_sum; cbn [fold_left]; ring).
    assert (Hvpos : 0 < v) by (now rewrite Hv).
    destruct (Qeq_bool (py_sum [v]) 0) eqn:E0.
    { apply Qeq_bool_iff in E0. rewrite Htot in E0. rewrite E0 in Hvpos.
      discriminate Hvpos. }
    assert (Hpct : percentage v (py_sum [v]) = 100).
    { unfold percentage, py_min.
      assert (Hx : v / py_sum [v] * 100 == 100).
      { rewrite Htot. field. intro E. rewrite E in Hvpos. discriminate Hvpos. }
      destruct (Qlt_bool (v / py_sum [v] * 100) 100) eqn:E; [|reflexivity].
      apply Qlt_bool_iff in E. rewrite Hx in E. discriminate E. }
    rewrite Hpct.
    assert (Hg : passes_gate settings 100 v = true).
    { apply passes_gate_iff. split; [discriminate|]. now rewrite Hv. }
    rewrite Hg. reflexivity. }
  rewrite recalculate_unfold, Hz. fold data.
  destruct data as [|a more] eqn:Hdata; [contradiction|].
  rewrite Hdec. reflexivity.
Qed.

Lemma single_team_takes_the_zone_witness :
  let a := contribution 1 "ua" (Some "A") 7 in
  let st := tables (zone_one None None 0) [a] in
  fst (_recalculate_zone_control settings 0 1 st) = Ok true
  /\ map controlled_by_team (zones (snd (_recalculate_zone_control settings 0 1 st)))
     = [Some "A"].
Proof.
  intros a st.
  assert (H : _recalculate_zone_control settings 0 1 st = _) by
    (apply (single_team_takes_the_zone settings 0 1 st (zone_one None None 0) [] "A");
     [reflexivity|discriminate|discriminate
     |intros b [<-|[]]; reflexivity|discriminate|reflexivity|unfold Qle; simpl; lia]).
  rewrite H. split; reflexivity.
Defined.

Lemma select_window_filter (now : Z) (zone_id : nat) (st : db) :
  select_window now zone_id st = filter (in_window now zone_id) (zone_activities st).
Proof. reflexivity. Qed.

(** X7: rows of [zone_activities] that lie outside the window of a
    zone (another zone, or recorded before the cutoff) have no effect on
    the recalculation of that zone: with or without them it returns the
    same answer and makes the same writes. *)
Theorem rows_outside_the_window_do_not_count (settings : Settings) (now : Z)
    (zone_id : nat) (st : db) (extra : list zone_activity) :
  (forall a, In a extra -> in_window now zone_id a = false) ->
  _recalculate_zone_control settings now zone_id (with_more_activities extra st) =
  (fst (_recalculate_zone_control settings now zone_id st),
   with_more_activities extra (snd (_recalculate_zone_control settings now zone_id st))).
Proof.
  intros Hout.
  assert (Hw : select_window now zone_id (with_more_activities extra st)
               = select_window now zone_id st).
  { rewrite !select_window_filter. unfold with_more_activities. simpl.
    rewrite filter_app.
    assert (E : filter (in_window now zone_id) extra = []).
    { induction extra as [|a extra IH]; [reflexivity|]. simpl.
      rewrite (Hout a) by now left. apply IH. intros b Hb. apply Hout. now right. }
    rewrite E. apply app_nil_r. }
  rewrite !recalculate_unfold, Hw.
  change (select_zone zone_id (with_more_activities extra st)) with (select_zone zone_id st).
  destruct (select_zone zone_id st) as [|z rest]; [reflexivity|].
  destruct (select_window now zone_id st) as [|a more]; [reflexivity|].
  destruct (control_decision settings z (a :: more)) as [[u|]|e]; try reflexivity.
  destruct (upd_changed u); reflexivity.
Qed.

Lemma rows_outside_the_window_do_not_count_witness :
  let old := {| za_zone_id := 1; za_activity_id := "old"; za_user_id := "ub";
                za_team_id := Some "B"; za_distance_km := 500; za_points_earned := 0;
                za_recorded_at := -1 |} in
  let st := tables (zone_one None None 0) [contribution 1 "ua" (Some "A") 7] in
  in_window (30 * 86400) 1 old = false
  /\ fst (_recalculate_zone_control settings (30 * 86400) 1 (with_more_activities [old] st))
     = fst (_recalculate_zone_control settings (30 * 86400) 1 st).
Proof.
  intros old st. split; [reflexivity|].
  rewrite (rows_outside_the_window_do_not_count settings (30 * 86400) 1 st [old]).
  - reflexivity.
  - intros a [<-|[]]. reflexivity.
Defined.

Lemma team_km_of_teamed (data : list zone_activity) :
  team_km_of (teamed data) = team_km_of data.
Proof.
  unfold teamed.
  induction data as [|a data IH] using rev_ind; [reflexivity|].
  rewrite filter_app, team_km_snoc. cbn [filter]. unfold counted_team.
  destruct (truthy_str (za_team_id a)) eqn:E.
  - rewrite team_km_snoc, IH. unfold counted_team. now rewrite E.
  - now rewrite app_nil_r.
Qed.

(** X8: rows without a team never change which team the decision
    commits, nor with which percentage: dropping them from the window
    gives the same team decision. *)
Theorem teamless_rows_do_not_move_the_team_decision (settings : Settings) (z : zone)
    (data : list zone_activity) :
  team_decision (control_decision settings z (teamed data))
  = team_decision (control_decision settings z data).
Proof.
  rewrite !control_decision_unfold. unfold controlling_team_of, window_total.
  rewrite team_km_of_teamed.
  destruct (team_km_of data) as [|first rest]; [reflexivity|]. cbv zeta.
  destruct (Qeq_bool _ 0); [reflexivity|].
  destruct (passes_gate settings _ _); reflexivity.
Qed.

End ControlExtras.

(** ** One cell of an activity *)

Module AllocationExtras.

Import ZoneControl ControlSpec ControlExtraSpec AllocationExtraSpec Samples ControlExtras.
Local Open Scope string_scope.
Local Open Scope list_scope.
Local Open Scope Q_scope.

(** What [_get_or_create_zone] returns and leaves behind. *)
Lemma get_or_create_zone_returned (cell_to_lat_lng : string -> result (Q * Q))
    (h3 : string) (st st0 : db) (z : zone) :
  _get_or_create_zone cell_to_lat_lng h3 st = (Ok z, st0) ->
  h3_index z = h3
  /\ zone_activities st0 = zone_activities st
  /\ zone_control_history st0 = zone_control_history st
  /\ ((zones st0 = zones st
       /\ exists rest, filter (fun z => String.eqb (h3_index z) h3) (zones st) = z :: rest)
      \/ (zones st0 = zones st ++ [z]
          /\ filter (fun z => String.eqb (h3_index z) h3) (zones st) = []
          /\ z_id z = S (list_max (map z_id (zones st)))
          /\ total_km z = 0 /\ total_activities z = 0%Z
          /\ controlled_by_team z = None
          /\ cell_to_lat_lng h3 = Ok (center_lat z, center_lng z))).
Proof.
  unfold _get_or_create_zone, bind, gets, ret, raise.
  destruct (filter (fun z => String.eqb (h3_index z) h3) (zones st)) as [|z1 rest] eqn:Hf.
  - destruct (cell_to_lat_lng h3) as [[lat lng]|e]; [|discriminate].
    simpl. intro H. injection H as <- <-. simpl.
    split; [reflexivity|]. split; [reflexivity|]. split; [reflexivity|].
    right. now repeat split.
  - intro H. injection H as <- <-.
    assert (Hin : In z1 (filter (fun z => String.eqb (h3_index z) h3) (zones st)))
      by (rewrite Hf; now left).
    apply filter_In in Hin. destruct Hin as [_ Hh]. apply String.eqb_eq in Hh.
    split; [exact Hh|]. split; [reflexivity|]. split; [reflexivity|].
    left. split; [reflexivity|]. now exists rest.
Qed.

(** It raises only on a cell without a zone that the library refuses,
    and before anything is written. *)
Lemma get_or_create_zone_raised (cell_to_lat_lng : string -> result (Q * Q))
    (h3 : string) (st st0 : db) (e : exn) :
  _get_or_create_zone cell_to_lat_lng h3 st = (Raise e, st0) ->
  st0 = st
  /\ filter (fun z => String.eqb (h3_index z) h3) (zones st) = []
  /\ cell_to_lat_lng h3 = Raise e.
Proof.
  unfold _get_or_create_zone, bind, gets, ret, raise.
  destruct (filter (fun z => String.eqb (h3_index z) h3) (zones st)) as [|z1 rest];
    [|discriminate].
  destruct (cell_to_lat_lng h3) as [[lat lng]|e'].
  - simpl. discriminate.
  - intro H. injection H as <- <-. now repeat split.
Qed.

(** X9: [_get_or_create_zone] either returns or raises before it writes.
    When it returns, the zone has the cell asked for and is in the table
    afterwards, no existing row is lost, and asking again returns the
    same zone and creates nothing. It raises only when no zone has the
    cell and the h3 library refuses the index, with that exception, and
    then the tables are as before. *)
Theorem get_or_create_zone_is_stable (cell_to_lat_lng : string -> result (Q * Q))
    (h3 : string) (st : db) :
  match _get_or_create_zone cell_to_lat_lng h3 st with
  | (Ok z, st0) =>
      h3_index z = h3
      /\ In z (zones st0)
      /\ (forall z', In z' (zones st) -> In z' (zones st0))
      /\ _get_or_create_zone cell_to_lat_lng h3 st0 = (Ok z, st0)
  | (Raise e, st0) =>
      st0 = st
      /\ cell_to_lat_lng h3 = Raise e
      /\ forall z, In z (zones st) -> h3_index z <> h3
  end.
Proof.
  destruct (_get_or_create_zone cell_to_lat_lng h3 st) as [[z|e] st0] eqn:Hrun.
  - destruct (get_or_create_zone_returned _ _ _ _ _ Hrun) as (Hh & _ & _ & Hcases).
    split; [exact Hh|].
    destruct Hcases as [[Hz (rest & Hf)]|(Hz & Hf & _)].
    + assert (Hin : In z (filter (fun z => String.eqb (h3_index z) h3) (zones st)))
        by (rewrite Hf; now left).
      apply filter_In in Hin. destruct Hin as [Hin _].
      split; [now rewrite Hz|]. split; [intros z' Hz'; now rewrite Hz|].
      unfold _get_or_create_zone, bind, gets, ret. now rewrite Hz, Hf.
    + split; [rewrite Hz; apply in_or_app; right; now left|].
      split; [intros z' Hz'; rewrite Hz; apply in_or_app; now left|].
      unfold _get_or_create_zone, bind, gets, ret.
      rewrite Hz, filter_app, Hf. cbn [filter app]. rewrite Hh, String.eqb_refl.
      reflexivity.
  - destruct (get_or_create_zone_raised _ _ _ _ _ Hrun) as (Hst & Hf & Hcell).
    split; [exact Hst|]. split; [exact Hcell|].
    intros z Hz Hh.
    assert (Hin : In z (filter (fun z => String.eqb (h3_index z) h3) (zones st))).
    { apply filter_In. split; [exact Hz|]. now apply String.eqb_eq. }
    rewrite Hf in Hin. destruct Hin.
Qed.

Lemma select_zone_unique (zs : list zone) (z : zone) :
  NoDup (map z_id zs) -> In z zs ->
  filter (fun z' => Nat.eqb (z_id z') (z_id z)) zs = [z].
Proof.
  induction zs as [|z0 zs IH]; [intros _ []|].
  intros Hnd Hin. inversion Hnd as [|? ? Hnot Hnd']; subst. cbn [filter].
  assert (Hnone : forall y, ~ In (z_id y) (map z_id zs) ->
            filter (fun z' => Nat.eqb (z_id z') (z_id y)) zs = []).
  { intros y Hy. clear -Hy. induction zs as [|z1 zs IH]; [reflexivity|].
    cbn [filter]. destruct (Nat.eqb_spec (z_id z1) (z_id y)) as [E|E].
    - exfalso. apply Hy. left. exact E.
    - apply IH. intro H. apply Hy. now right. }
  destruct Hin as [->|Hin].
  - rewrite Nat.eqb_refl. now rewrite Hnone.
  - destruct (Nat.eqb_spec (z_id z0) (z_id z)) as [E|E].
    + exfalso. apply Hnot. rewrite E. now apply in_map.
    + now apply IH.
Qed.

Lemma fresh_zone_id_is_new (zs : list zone) :
  ~ In (S (list_max (map z_id zs))) (map z_id zs).
Proof.
  intros H.
  assert (Hle : (S (list_max (map z_id zs)) <= list_max (map z_id zs))%nat).
  { pose proof (proj1 (list_max_le (map z_id zs) (list_max (map z_id zs))) (le_n _)) as Hall.
    rewrite Forall_forall in Hall. now apply Hall. }
  lia.
Qed.

(** One cell whose zone is found or created, step by step: the tables
    after the lookup, after [_create_zone_activity], and the
    recalculation. *)
Lemma process_zone_steps (settings : Settings) (cell_to_lat_lng : string -> result (Q * Q))
    (now : Z) (activity_id user_id : string) (team_id : option string)
    (km : Q) (recorded_at : Z) (h3 : string) (st st0 : db) (z0 : zone) :
  unique_zone_ids st ->
  _get_or_create_zone cell_to_lat_lng h3 st = (Ok z0, st0) ->
  unique_zone_ids st0
  /\ select_zone (z_id z0) st0 = [z0]
  /\ exists st1,
       zones st1 = map (add_to_totals (z_id z0) km) (zones st0)
       /\ select_zone (z_id z0) st1 = [add_to_totals (z_id z0) km z0]
       /\ process_zone settings cell_to_lat_lng now activity_id user_id team_id km
            recorded_at h3 st =
          match _recalculate_zone_control settings now (z_id z0) st1 with
          | (Ok control_changed, st2) =>
              (Ok {| az_zone_id := z_id z0;
                     az_h3_index := h3;
                     az_distance_km := km;
                     az_points_earned :=
                       (let points := py_int (km * inject_Z (ACTIVITY_POINTS_PER_KM settings)
                                              * bonus_multiplier z0) in
                        if truthy_str team_id
                        then py_int (inject_Z points * TEAM_ACTIVITY_BONUS settings)
                        else points);
                     az_control_changed := control_changed;
                     az_controlled_by_team := controlled_by_team z0;
                     az_controlled_by_user := controlled_by_user z0 |}, st2)
          | (Raise e, st2) => (Raise e, st2)
          end.
Proof.
  intros Hnd Hrun. unfold unique_zone_ids in *.
  destruct (get_or_create_zone_returned _ _ _ _ _ Hrun) as (Hh & _ & _ & Hcases).
  assert (Hin0 : In z0 (zones st0) /\ NoDup (map z_id (zones st0))).
  { destruct Hcases as [[Hz (rest & Hf)]|(Hz & _ & Hid & _)].
    - rewrite Hz. split; [|exact Hnd].
      assert (Hin : In z0 (filter (fun z => String.eqb (h3_index z) h3) (zones st)))
        by (rewrite Hf; now left).
      now apply filter_In in Hin.
    - rewrite Hz. split; [apply in_or_app; right; now left|].
      rewrite map_app. apply NoDup_app; [exact Hnd|constructor; [intros []|constructor]|].
      intros x Hx [<-|[]]. rewrite Hid in Hx. exact (fresh_zone_id_is_new _ Hx). }
  destruct Hin0 as [Hin0 Hnd0].
  split; [exact Hnd0|]. split; [exact (select_zone_unique _ _ Hnd0 Hin0)|].
  eexists. split; cycle 1.
  { split; cycle 1.
    { unfold process_zone, bind. rewrite Hrun.
      unfold _create_zone_activity, bind, modify, ret. cbv beta iota zeta.
      reflexivity. }
    unfold select_zone. cbn [zones].
    change (fun z : zone => if Nat.eqb (z_id z) (z_id z0) then _ else z)
      with (add_to_totals (z_id z0) km).
    assert (Hcomm : forall zs,
              filter (fun z => Nat.eqb (z_id z) (z_id z0)) (map (add_to_totals (z_id z0) km) zs)
              = map (add_to_totals (z_id z0) km)
                    (filter (fun z => Nat.eqb (z_id z) (z_id z0)) zs)).
    { induction zs as [|z zs IH]; [reflexivity|]. cbn [map filter].
      assert (Hid : z_id (add_to_totals (z_id z0) km z) = z_id z).
      { unfold add_to_totals. destruct (Nat.eqb (z_id z) (z_id z0)); reflexivity. }
      rewrite Hid. destruct (Nat.eqb (z_id z) (z_id z0)); cbn [map]; now rewrite IH. }
    rewrite Hcomm, (select_zone_unique _ _ Hnd0 Hin0). reflexivity. }
  reflexivity.
Qed.

(** X10: for a cell of an activity whose zone is found or created, once
    the cell is processed the stored row of that zone has gained exactly
    the kilometres allocated to the cell and one activity, whatever the
    control decision was (zone ids being unique). *)
Theorem lifetime_totals_grow_with_every_cell (settings : Settings)
    (cell_to_lat_lng : string -> result (Q * Q)) (now : Z) (activity_id user_id : string)
    (team_id : option string) (km : Q) (recorded_at : Z) (h3 : string) (st : db)
    (z0 : zone) :
  unique_zone_ids st ->
  fst (_get_or_create_zone cell_to_lat_lng h3 st) = Ok z0 ->
  let run := process_zone settings cell_to_lat_lng now activity_id user_id team_id km
               recorded_at h3 st in
  exists z',
    stored_zone (z_id z0) (snd run) = Some z'
    /\ h3_index z' = h3
    /\ total_km z' = total_km z0 + km
    /\ total_activities z' = (total_activities z0 + 1)%Z.
Proof.
  intros Hnd Hget run.
  destruct (_get_or_create_zone cell_to_lat_lng h3 st) as [r0 st0] eqn:Hrun0.
  cbn [fst] in Hget. subst r0.
  destruct (process_zone_steps settings cell_to_lat_lng now activity_id user_id team_id
              km recorded_at h3 st st0 z0 Hnd Hrun0)
    as (_ & _ & st1 & _ & Hsel & Hrun).
  destruct (get_or_create_zone_returned _ _ _ _ _ Hrun0) as (Hh & _).
  subst run. rewrite Hrun.
  destruct (_recalculate_zone_control settings now (z_id z0) st1) as [r st2] eqn:Hrec.
  assert (Hz' : exists z', stored_zone (z_id z0) st2 = Some z'
                           /\ h3_index z' = h3
                           /\ total_km z' = total_km z0 + km
                           /\ total_activities z' = (total_activities z0 + 1)%Z).
  { assert (Hbase : h3_index (add_to_totals (z_id z0) km z0) = h3
                    /\ total_km (add_to_totals (z_id z0) km z0) = total_km z0 + km
                    /\ total_activities (add_to_totals (z_id z0) km z0)
                       = (total_activities z0 + 1)%Z).
    { unfold add_to_totals. rewrite Nat.eqb_refl. now repeat split. }
    apply recalculate_outcome in Hrec.
    destruct Hrec as [[-> _]|(z & rest & u & Hz & _ & _ & ->)].
    - exists (add_to_totals (z_id z0) km z0). unfold stored_zone. rewrite Hsel.
      split; [reflexivity|exact Hbase].
    - exists (apply_update u (add_to_totals (z_id z0) km z0)). unfold stored_zone.
      split; [|exact Hbase].
      destruct (upd_changed u);
        [change (select_zone (z_id z0) (insert_history ?e ?s)) with (select_zone (z_id z0) s)|];
        rewrite select_zone_update, Hsel; reflexivity. }
  destruct Hz' as (z' & Hz').
  exists z'. destruct r; exact Hz'.
Qed.

Lemma lifetime_totals_grow_with_every_cell_witness :
  let st := tables (zone_one None None 0) [] in
  unique_zone_ids st
  /\ exists z', stored_zone 1
                  (snd (process_zone settings (fun _ => Ok (0, 0)) 0 "activity" "ua"
                          (Some "A") 7 0 "8928308280fffff" st)) = Some z'
                /\ total_km z' == 7 /\ total_activities z' = 1%Z.
Proof.
  intros st.
  assert (Hnd : unique_zone_ids st) by (repeat constructor; intros []).
  split; [exact Hnd|].
  destruct (lifetime_totals_grow_with_every_cell settings (fun _ => Ok (0, 0)) 0 "activity"
              "ua" (Some "A") 7 0 "8928308280fffff" st (zone_one None None 0) Hnd eq_refl)
    as (z' & Hst & _ & Hkm & Hn).
  exists z'. split; [exact Hst|].
  split; [rewrite Hkm; reflexivity|exact Hn].
Defined.

(** Rows of other cells pass unchanged through an update of the rows with
    one id, when the rows with that id are all of cell [h3]. *)
Lemma other_cells_survive_an_update (f : zone -> bool) (h3 : string) (zone_id : nat)
    (g : zone -> zone) (zs : list zone) :
  (forall x, f x = true -> h3_index x <> h3) ->
  (forall r, In r zs -> z_id r = zone_id -> h3_index r = h3) ->
  (forall r, z_id r <> zone_id -> g r = r) ->
  (forall r, h3_index (g r) = h3_index r) ->
  filter f (map g zs) = filter f zs.
Proof.
  intros Hf Hrows Hother Hcell.
  induction zs as [|r zs IH]; [reflexivity|]. cbn [map filter].
  rewrite IH by (intros r' Hr'; apply Hrows; now right).
  destruct (Nat.eq_dec (z_id r) zone_id) as [E|E].
  - assert (Hh : h3_index r = h3) by (apply Hrows; [now left|exact E]).
    assert (F1 : f r = false).
    { destruct (f r) eqn:Efr; [|reflexivity]. exfalso. exact (Hf r Efr Hh). }
    assert (F2 : f (g r) = false).
    { destruct (f (g r)) eqn:Efg; [|reflexivity]. exfalso.
      apply (Hf (g r) Efg). now rewrite Hcell. }
    now rewrite F1, F2.
  - now rewrite (Hother r E).
Qed.

Lemma rows_with_the_selected_id (zone_id : nat) (st : db) (z : zone) (h3 : string) :
  select_zone zone_id st = [z] ->
  h3_index z = h3 ->
  forall r, In r (zones st) -> z_id r = zone_id -> h3_index r = h3.
Proof.
  intros Hsel Hh r Hr Hid.
  assert (Hin : In r (select_zone zone_id st)).
  { unfold select_zone. apply filter_In. split; [exact Hr|]. now apply Nat.eqb_eq. }
  rewrite Hsel in Hin. destruct Hin as [<-|[]]. exact Hh.
Qed.

Lemma stored_zone_is_a_row (zone_id : nat) (st : db) (z : zone) :
  stored_zone zone_id st = Some z -> In z (zones st) /\ z_id z = zone_id.
Proof.
  unfold stored_zone, select_zone.
  destruct (filter (fun z => Nat.eqb (z_id z) zone_id) (zones st)) as [|z1 rest] eqn:Hf;
    [discriminate|].
  intro H. injection H as <-.
  assert (Hin : In z1 (filter (fun z => Nat.eqb (z_id z) zone_id) (zones st)))
    by (rewrite Hf; now left).
  apply filter_In in Hin. destruct Hin as [Hin Hid]. apply Nat.eqb_eq in Hid. now split.
Qed.

(** What processing one cell does: the entry reports the controller the
    cell's zone had before, the stored zone differs from it exactly when
    the entry says so, and the rows of all other cells are as before. *)
Lemma process_zone_effect (settings : Settings) (cell_to_lat_lng : string -> result (Q * Q))
    (now : Z) (activity_id user_id : string) (team_id : option string)
    (km : Q) (recorded_at : Z) (h3 : string) (st st' : db) (az : affected_zone) :
  unique_zone_ids st ->
  process_zone settings cell_to_lat_lng now activity_id user_id team_id km recorded_at
    h3 st = (Ok az, st') ->
  unique_zone_ids st'
  /\ az_h3_index az = h3
  /\ reports_previous_controller st st' az
  /\ forall f, (forall x, f x = true -> h3_index x <> h3) ->
               filter f (zones st') = filter f (zones st).
Proof.
  intros Hnd Hrun.
  destruct (_get_or_create_zone cell_to_lat_lng h3 st) as [[z0|e] st0] eqn:Hget.
  2:{ unfold process_zone, bind in Hrun. rewrite Hget in Hrun. discriminate. }
  destruct (process_zone_steps settings cell_to_lat_lng now activity_id user_id team_id
              km recorded_at h3 st st0 z0 Hnd Hget)
    as (Hnd0 & Hsel0 & st1 & Hz1 & Hsel1 & Hsteps).
  destruct (get_or_create_zone_returned _ _ _ _ _ Hget) as (Hh & _ & _ & Hcases).
  rewrite Hsteps in Hrun.
  destruct (_recalculate_zone_control settings now (z_id z0) st1) as [r st2] eqn:Hrec.
  destruct r as [c|e]; [|discriminate]. injection Hrun as <- <-.
  (* the rows after the lookup and after the new activity row *)
  assert (Hadd_id : forall r, z_id (add_to_totals (z_id z0) km r) = z_id r).
  { intro r. unfold add_to_totals. destruct (Nat.eqb (z_id r) (z_id z0)); reflexivity. }
  assert (Hadd_cell : forall r, h3_index (add_to_totals (z_id z0) km r) = h3_index r).
  { intro r. unfold add_to_totals. destruct (Nat.eqb (z_id r) (z_id z0)); reflexivity. }
  assert (Hadd_team : controlled_by_team (add_to_totals (z_id z0) km z0)
                      = controlled_by_team z0).
  { unfold add_to_totals. now rewrite Nat.eqb_refl. }
  assert (Hadd_other : forall r, z_id r <> z_id z0 -> add_to_totals (z_id z0) km r = r).
  { intros r Hr. unfold add_to_totals. apply Nat.eqb_neq in Hr. now rewrite Hr. }
  assert (Hnd1 : unique_zone_ids st1).
  { unfold unique_zone_ids in *. rewrite Hz1, map_map.
    rewrite (map_ext _ z_id Hadd_id). exact Hnd0. }
  assert (Hkeep0 : forall f, (forall x, f x = true -> h3_index x <> h3) ->
                             filter f (zones st0) = filter f (zones st)).
  { intros f Hf. destruct Hcases as [[Hz _]|(Hz & _)]; rewrite Hz; [reflexivity|].
    rewrite filter_app. cbn [filter].
    destruct (f z0) eqn:E; [exfalso; exact (Hf z0 E Hh)|apply app_nil_r]. }
  assert (Hkeep1 : forall f, (forall x, f x = true -> h3_index x <> h3) ->
                             filter f (zones st1) = filter f (zones st)).
  { intros f Hf. rewrite Hz1, <- (Hkeep0 f Hf).
    apply (other_cells_survive_an_update f h3 (z_id z0)); try assumption.
    exact (rows_with_the_selected_id _ _ _ _ Hsel0 Hh). }
  assert (Hbefore : controller_before h3 st = controlled_by_team z0).
  { unfold controller_before, zone_of_cell.
    destruct Hcases as [[_ (rest & Hf)]|(_ & Hf & _ & _ & _ & Hteam & _)];
      rewrite Hf; cbn [hd_error]; [reflexivity|now rewrite Hteam]. }
  assert (Hcell1 : h3_index (add_to_totals (z_id z0) km z0) = h3)
    by (now rewrite Hadd_cell).
  apply recalculate_outcome in Hrec.
  destruct Hrec as [[-> Hr]|(z & rest & u & Hz & Hd & Hr & ->)].
  - (* nothing is committed *)
    assert (Hc : c = false) by (destruct c; [now contradiction Hr|reflexivity]).
    subst c. split; [exact Hnd1|]. split; [reflexivity|]. split; [|exact Hkeep1].
    unfold reports_previous_controller. cbn [az_controlled_by_team az_h3_index
      az_zone_id az_control_changed].
    split; [now rewrite Hbefore|].
    exists (add_to_totals (z_id z0) km z0). unfold stored_zone. rewrite Hsel1.
    split; [reflexivity|]. split; [exact Hcell1|].
    split; [discriminate|]. intros _. exact Hadd_team.
  - (* a team is committed *)
    injection Hr as ->.
    rewrite Hsel1 in Hz. injection Hz as <- _.
    destruct (decision_fields _ _ _ _ Hd) as (raw & _ & Hflag & _).
    rewrite Hadd_team in Hflag.
    set (write := fun r : zone => if Nat.eqb (z_id r) (z_id z0) then apply_update u r else r).
    assert (Hzones : zones (if upd_changed u
                            then insert_history
                                   {| he_zone_id := z_id z0;
                                      previous_team :=
                                        controlled_by_team (add_to_totals (z_id z0) km z0);
                                      new_team := upd_team u |}
                                   (update_zone (z_id z0) u st1)
                            else update_zone (z_id z0) u st1)
                     = map write (zones st1)).
    { destruct (upd_changed u); reflexivity. }
    assert (Hw_id : forall r, z_id (write r) = z_id r).
    { intro r. unfold write. destruct (Nat.eqb (z_id r) (z_id z0)); reflexivity. }
    assert (Hw_cell : forall r, h3_index (write r) = h3_index r).
    { intro r. unfold write. destruct (Nat.eqb (z_id r) (z_id z0)); reflexivity. }
    assert (Hw_other : forall r, z_id r <> z_id z0 -> write r = r).
    { intros r Hr. unfold write. apply Nat.eqb_neq in Hr. now rewrite Hr. }
    split.
    { unfold unique_zone_ids in *. rewrite Hzones, map_map.
      rewrite (map_ext _ z_id Hw_id). exact Hnd1. }
    split; [reflexivity|]. split.
    + unfold reports_previous_controller. cbn [az_controlled_by_team az_h3_index
        az_zone_id az_control_changed].
      split; [now rewrite Hbefore|].
      exists (apply_update u (add_to_totals (z_id z0) km z0)). split.
      { unfold stored_zone.
        destruct (upd_changed u);
          [change (select_zone (z_id z0) (insert_history ?e ?s))
             with (select_zone (z_id z0) s)|];
          rewrite select_zone_update, Hsel1; reflexivity. }
      split; [exact Hcell1|]. cbn [apply_update controlled_by_team]. split.
      * intros Hc E. rewrite Hc in Hflag. symmetry in Hflag.
        apply negb_true_iff in Hflag. rewrite <- E in Hflag. cbn in Hflag.
        rewrite String.eqb_refl in Hflag. discriminate.
      * intros Hc. rewrite Hc in Hflag. symmetry in Hflag.
        apply negb_false_iff in Hflag.
        apply AccumulateFacts.opt_str_eqb_true in Hflag. now rewrite Hflag.
    + intros f Hf. rewrite Hzones, <- (Hkeep1 f Hf).
      apply (other_cells_survive_an_update f h3 (z_id z0)); try assumption.
      exact (rows_with_the_selected_id _ _ _ _ Hsel1 Hcell1).
Qed.

(** The loop over distinct cells: every entry is for its cell and
    reports the controller from before the loop. *)
Lemma for_each_zone_effect (settings : Settings)
    (cell_to_lat_lng : string -> result (Q * Q)) (now : Z) (activity_id user_id : string)
    (team_id : option string) (km : Q) (recorded_at : Z) (cells : list string) :
  NoDup cells ->
  forall acc st affected st',
    unique_zone_ids st ->
    for_each_zone (process_zone settings cell_to_lat_lng now activity_id user_id team_id
                     km recorded_at) cells acc st = (Ok affected, st') ->
    unique_zone_ids st'
    /\ (forall f, (forall x, f x = true -> ~ In (h3_index x) cells) ->
                  filter f (zones st') = filter f (zones st))
    /\ exists new,
         affected = acc ++ new
         /\ Forall2 (fun h3 az => In h3 cells /\ az_h3_index az = h3
                                  /\ reports_previous_controller st st' az) cells new.
Proof.
  induction 1 as [|h3 rest Hnotin Hnd IH]; intros acc st affected st' Huniq Hrun.
  - cbn in Hrun. injection Hrun as <- <-. split; [exact Huniq|].
    split; [reflexivity|]. exists []. rewrite app_nil_r. split; [reflexivity|constructor].
  - set (body := process_zone settings cell_to_lat_lng now activity_id user_id team_id
                   km recorded_at) in *.
    assert (Hstep : for_each_zone body (h3 :: rest) acc st =
                    match body h3 st with
                    | (Ok z, st1) => for_each_zone body rest (acc ++ [z]) st1
                    | (Raise e, st1) => (Raise e, st1)
                    end) by reflexivity.
    rewrite Hstep in Hrun. clear Hstep.
    destruct (body h3 st) as [[az|e] st1] eqn:Hb; [|discriminate].
    destruct (process_zone_effect _ _ _ _ _ _ _ _ _ _ _ _ Huniq Hb)
      as (Huniq1 & Hcell & Hfirst & Hkeep1).
    destruct (IH _ _ _ _ Huniq1 Hrun) as (Huniq' & Hkeep' & new & -> & Hall).
    split; [exact Huniq'|]. split.
    { intros f Hf. rewrite (Hkeep' f), (Hkeep1 f); [reflexivity| |].
      - intros x Hx E. apply (Hf x Hx). left. now symmetry.
      - intros x Hx Hin. apply (Hf x Hx). now right. }
    exists (az :: new). rewrite <- app_assoc. split; [reflexivity|].
    constructor.
    + split; [now left|]. split; [exact Hcell|].
      destruct Hfirst as (Hteam & z1 & Hst1 & Hz1 & Hch).
      split; [exact Hteam|]. exists z1. split; [|split; [exact Hz1|exact Hch]].
      destruct (stored_zone_is_a_row _ _ _ Hst1) as [Hin1 Hid1].
      assert (Hin' : In z1 (zones st')).
      { assert (Hf : In z1 (filter (fun x => String.eqb (h3_index x) h3) (zones st1))).
        { apply filter_In. split; [exact Hin1|]. apply String.eqb_eq.
          rewrite Hz1. exact Hcell. }
        rewrite <- (Hkeep' (fun x => String.eqb (h3_index x) h3)) in Hf.
        - now apply filter_In in Hf.
        - intros x Hx Hin. apply String.eqb_eq in Hx. rewrite Hx in Hin. contradiction. }
      unfold stored_zone, select_zone. rewrite <- Hid1.
      rewrite (select_zone_unique _ _ Huniq' Hin'). reflexivity.
    + eapply Forall2_impl; [|exact Hall]. cbn beta.
      intros h az' (Hin & Hcell' & Hteam & Hstored).
      split; [now right|]. split; [exact Hcell'|]. split; [|exact Hstored].
      rewrite Hteam. unfold controller_before, zone_of_cell.
      rewrite (Hkeep1 (fun x => String.eqb (h3_index x) (az_h3_index az'))); [reflexivity|].
      intros x Hx E. apply String.eqb_eq in Hx. rewrite Hx, Hcell' in E.
      rewrite E in Hin. contradiction.
Qed.

(** X11: over distinct cells and unique zone ids, every entry of the
    list returned by [process_activity_zones] is for its cell, in order,
    and carries the controller that cell's zone had before the activity
    (none for a zone created on the way). The flag of the entry says
    whether the team stored for the zone when the call returns differs
    from it: with [control_changed] the stored team is another one,
    without it the stored team is the reported one. *)
Theorem affected_zone_reports_the_previous_controller (settings : Settings)
    (cell_to_lat_lng : string -> result (Q * Q)) (now : Z) (activity_id user_id : string)
    (team_id : option string) (h3_indexes : list string) (distance_km : Q)
    (recorded_at : Z) (is_gym : bool) (st : db) (affected_zones : list affected_zone) :
  unique_zone_ids st ->
  NoDup h3_indexes ->
  let run := process_activity_zones settings cell_to_lat_lng now activity_id user_id
               team_id h3_indexes distance_km recorded_at is_gym st in
  fst run = Ok affected_zones ->
  Forall2 (fun h3 az => az_h3_index az = h3
                        /\ reports_previous_controller st (snd run) az)
          h3_indexes affected_zones.
Proof.
  intros Huniq Hnd run Hok. subst run. unfold process_activity_zones in *.
  destruct (for_each_zone _ h3_indexes [] st) as [r st'] eqn:Hrun.
  cbn [fst] in Hok. subst r. cbn [snd].
  destruct (for_each_zone_effect _ _ _ _ _ _ _ _ _ Hnd _ _ _ _ Huniq Hrun)
    as (_ & _ & new & Hnew & Hall).
  cbn [app] in Hnew. subst new.
  eapply Forall2_impl; [|exact Hall]. cbn beta. intros h az (_ & H1 & H2). now split.
Qed.

Lemma affected_zone_reports_the_previous_controller_witness :
  let st := tables (zone_one (Some "B") (Some "ub") 100) [] in
  let cells := ["8928308280fffff"; "8928308280bffff"] in
  let run := process_activity_zones settings (fun _ => Ok (0, 0)) 0 "activity" "ua"
               (Some "A") cells 10 0 false st in
  exists affected_zones,
    fst run = Ok affected_zones
    /\ map az_controlled_by_team affected_zones = [Some "B"; None]
    /\ Forall2 (fun h3 az => az_h3_index az = h3
                             /\ reports_previous_controller st (snd run) az)
               cells affected_zones.
Proof.
  intros st cells run.
  assert (Hrun : exists a, fst run = Ok a
                           /\ map az_controlled_by_team a = [Some "B"; None])
    by (vm_compute; eexists; split; reflexivity).
  destruct Hrun as (a & Ha & Hteams). exists a. split; [exact Ha|]. split; [exact Hteams|].
  apply (affected_zone_reports_the_previous_controller settings (fun _ => Ok (0, 0)) 0
           "activity" "ua" (Some "A") cells 10 0 false st a).
  - unfold unique_zone_ids. cbn. repeat constructor. intros [].
  - unfold cells. repeat constructor; cbn; intuition discriminate.
  - exact Ha.
Defined.

End AllocationExtras.

(** ** Creating an activity *)

Module ProcessorExtras.

Import ActivityModel Processor ZoneControl Samples.
Local Open Scope string_scope.
Local Open Scope list_scope.
Local Open Scope Q_scope.

(** X12: [create_activity] tests the start point by truth value, so a
    start on the equator or on the prime meridian counts as missing:
    without a polyline and without assigned gym zones, such an activity
    gets its points but no zone at all, and nothing is written. *)
Theorem start_point_on_a_zero_axis_is_ignored (settings : Settings)
    (latlng_to_cell : Q -> Q -> Z -> string) (cell_to_lat_lng : string -> result (Q * Q))
    (resolution : Z) (now : Z) (activity_id user_id : string) (team_id : option string)
    (distance_km : Q) (recorded_at : Z) (polyline : option string) (lat lng : Q)
    (is_gym_activity : bool) (assigned_zones : option (list string)) (st : db) :
  is_gym_activity && truthy_list assigned_zones = false ->
  truthy_str polyline = false ->
  lat == 0 \/ lng == 0 ->
  create_activity settings latlng_to_cell cell_to_lat_lng resolution now activity_id
    user_id team_id distance_km recorded_at polyline (Some lat) (Some lng)
    is_gym_activity assigned_zones st
  = (Ok (base_points settings distance_km is_gym_activity team_id, []), st).
Proof.
  intros Hgym Hpoly Hzero. unfold create_activity, resolve_h3_indexes.
  rewrite Hgym, Hpoly.
  assert (Hstart : truthy_float (Some lat) && truthy_float (Some lng) = false).
  { unfold truthy_float. destruct Hzero as [H|H]; apply Qeq_bool_iff in H; rewrite H.
    - reflexivity.
    - apply andb_false_r. }
  rewrite Hstart. reflexivity.
Qed.

Lemma start_point_on_a_zero_axis_is_ignored_witness :
  create_activity settings (fun _ _ _ => "8928308280fffff") (fun _ => Ok (0, 0)) 9 0
    "activity" "ua" (Some "A") 10 0 None (Some 0) (Some (-785 # 10)) false None
    empty_tables
  = (Ok (110%Z, []), empty_tables).
Proof.
  apply (start_point_on_a_zero_axis_is_ignored settings (fun _ _ _ => "8928308280fffff")
           (fun _ => Ok (0, 0)) 9 0 "activity" "ua" (Some "A") 10 0 None 0 (-785 # 10)
           false None empty_tables).
  - reflexivity.
  - reflexivity.
  - left. reflexivity.
Defined.

Lemma py_int_monotone (x y : Q) : 0 <= x -> x <= y -> (py_int x <= py_int y)%Z.
Proof.
  intros Hx Hxy.
  assert (Hy : 0 <= y) by (eapply Qle_trans; eassumption).
  assert (Hfloor : forall q, 0 <= q -> py_int q = Qfloor q).
  { intros [n d]. unfold Qle, py_int, Qfloor. simpl. intros H.
    apply Z.quot_div_nonneg; lia. }
  rewrite !Hfloor by assumption. now apply Qfloor_resp_le.
Qed.

Lemma py_int_of_Z (n : Z) : py_int (inject_Z n) = n.
Proof. unfold py_int. simpl. apply Z.quot_1_r. Qed.

Lemma py_int_nonnegative (x : Q) : 0 <= x -> (0 <= py_int x)%Z.
Proof.
  intros H. rewrite <- (py_int_of_Z 0). apply py_int_monotone; [apply Qle_refl|exact H].
Qed.

(** X13: with a gym multiplier between 0 and 1 and nonnegative
    settings, the points of a gym activity are never negative and never
    above the points of the same activity without the gym flag. *)
Theorem gym_flag_never_raises_the_points (settings : Settings) (distance_km : Q)
    (team_id : option string) :
  0 <= distance_km ->
  (0 <= ACTIVITY_POINTS_PER_KM settings)%Z ->
  0 <= GYM_ACTIVITY_MULTIPLIER settings ->
  GYM_ACTIVITY_MULTIPLIER settings <= 1 ->
  0 <= TEAM_ACTIVITY_BONUS settings ->
  (0 <= base_points settings distance_km true team_id
   <= base_points settings distance_km false team_id)%Z.
Proof.
  intros Hd Hppk Hg0 Hg1 Hteam. unfold base_points.
  set (p := py_int (distance_km * inject_Z (ACTIVITY_POINTS_PER_KM settings))).
  assert (Hp : (0 <= p)%Z).
  { apply py_int_nonnegative. apply Qmult_le_0_compat; [exact Hd|].
    change 0 with (inject_Z 0). now rewrite <- Zle_Qle. }
  assert (HpQ : 0 <= inject_Z p) by (change 0 with (inject_Z 0); now rewrite <- Zle_Qle).
  set (g := py_int (inject_Z p * GYM_ACTIVITY_MULTIPLIER settings)).
  assert (Hg : (0 <= g <= p)%Z).
  { split.
    - apply py_int_nonnegative. now apply Qmult_le_0_compat.
    - unfold g. apply Z.le_trans with (py_int (inject_Z p));
        [|rewrite py_int_of_Z; lia].
      apply py_int_monotone; [now apply Qmult_le_0_compat|].
      assert (H1 : inject_Z p * GYM_ACTIVITY_MULTIPLIER settings <= inject_Z p * 1).
      { rewrite !(Qmult_comm (inject_Z p)). now apply Qmult_le_compat_r. }
      now rewrite Qmult_1_r in H1. }
  destruct (truthy_str team_id); [|exact Hg].
  assert (HgQ : 0 <= inject_Z g) by (change 0 with (inject_Z 0); rewrite <- Zle_Qle; lia).
  split.
  - apply py_int_nonnegative. now apply Qmult_le_0_compat.
  - apply py_int_monotone; [now apply Qmult_le_0_compat|].
    apply Qmult_le_compat_r; [|exact Hteam]. rewrite <- Zle_Qle. lia.
Qed.

Lemma gym_flag_never_raises_the_points_witness :
  (0 <= base_points Config.settings 10 true (Some "A"%string)
   <= base_points Config.settings 10 false (Some "A"%string))%Z.
Proof.
  apply (gym_flag_never_raises_the_points Config.settings 10 (Some "A"%string));
    vm_compute; discriminate.
Defined.

End ProcessorExtras.

(** ** Routes and areas *)

Module H3Extras.

Import H3Service PolylineSpec DecodeFacts.
Local Open Scope string_scope.
Local Open Scope list_scope.
Local Open Scope Q_scope.

Lemma cells_of_points (cell_of : Q * Q -> string) (points : list (Q * Q)) :
  forall acc,
    NoDup acc ->
    let cells := fold_left (fun cells p => set_add string_dec (cell_of p) cells) points acc in
    NoDup cells
    /\ (forall c, In c cells <-> In c acc \/ exists p, In p points /\ c = cell_of p)
    /\ (List.length cells <= List.length acc + List.length points)%nat.
Proof.
  induction points as [|p points IH]; intros acc Hnd; cbn [fold_left].
  - split; [exact Hnd|]. split; [|simpl; lia].
    intros c. split; [now left|]. intros [H|(p & [] & _)]. exact H.
  - destruct (IH (set_add string_dec (cell_of p) acc) (set_add_nodup string_dec (cell_of p) Hnd))
      as (Hnd' & Hin & Hlen).
    split; [exact Hnd'|]. split.
    + intros c. rewrite Hin, set_add_iff. split.
      * intros [[->|H]|(q & Hq & ->)].
        -- right. exists p. split; [now left|reflexivity].
        -- now left.
        -- right. exists q. split; [now right|reflexivity].
      * intros [H|(q & [<-|Hq] & ->)].
        -- left. now right.
        -- left. now left.
        -- right. now exists q.
    + cbn [List.length].
      assert (Hadd : (List.length (set_add string_dec (cell_of p) acc)
                      <= S (List.length acc))%nat).
      { clear. induction acc as [|a acc IH]; simpl; [lia|].
        destruct (string_dec (cell_of p) a); simpl; lia. }
      lia.
Qed.

(** X14: when [polyline_to_cells] returns, the polyline decodes, and
    the result lists without repetition exactly the cells of the decoded
    points, so it is never longer than the list of points. *)
Theorem route_cells_are_the_distinct_cells_of_its_points
    (latlng_to_cell : Q -> Q -> Z -> string) (resolution : Z) (polyline : string)
    (cells : list string) :
  polyline_to_cells latlng_to_cell resolution polyline = Ok cells ->
  exists points,
    _decode_polyline polyline = Ok points
    /\ NoDup cells
    /\ (forall c, In c cells <->
                  exists p, In p points
                            /\ c = lat_lng_to_cell latlng_to_cell resolution (fst p) (snd p))
    /\ (List.length cells <= List.length points)%nat.
Proof.
  unfold polyline_to_cells.
  destruct (_decode_polyline polyline) as [points|e]; [|discriminate].
  intros H. injection H as <-. exists points. split; [reflexivity|].
  destruct (cells_of_points
              (fun p => lat_lng_to_cell latlng_to_cell resolution (fst p) (snd p))
              points (empty_set string) (NoDup_nil _)) as (Hnd & Hin & Hlen).
  split; [exact Hnd|]. split; [|exact Hlen].
  intros c. rewrite Hin. split; [intros [[]|H]; exact H|now right].
Qed.

Lemma route_cells_are_the_distinct_cells_of_its_points_witness :
  exists cells points,
    polyline_to_cells (fun _ _ _ => "8928308280fffff") 9 "_p~iF~ps|U_ulLnnqC_mqNvxq`@"
    = Ok cells
    /\ _decode_polyline "_p~iF~ps|U_ulLnnqC_mqNvxq`@" = Ok points
    /\ NoDup cells
    /\ (List.length cells <= List.length points)%nat.
Proof.
  eexists. 
  destruct (route_cells_are_the_distinct_cells_of_its_points
              (fun _ _ _ => "8928308280fffff") 9 "_p~iF~ps|U_ulLnnqC_mqNvxq`@"
              ["8928308280fffff"] eq_refl) as (points & Hdec & Hnd & _ & Hlen).
  exists points. split; [reflexivity|]. now repeat split.
Defined.






(** X16: the number of rings [get_area_cells] asks for is at least 1,
    and it does not decrease when the radius grows or the area of a cell
    shrinks. *)
Theorem ring_count_grows_with_radius_and_resolution (r1 r2 a1 a2 : Q) :
  0 <= r1 -> r1 <= r2 -> 0 < a2 -> a2 <= a1 ->
  exists k1 k2,
    k_rings r1 a1 = Ok k1 /\ k_rings r2 a2 = Ok k2 /\ (1 <= k1 <= k2)%Z.
Proof.
  intros Hr1 Hr Ha2 Ha.
  assert (Ha1 : 0 < a1) by (eapply Qlt_le_trans; eassumption).
  assert (Hnz : forall a, 0 < a -> Qeq_bool a 0 = false).
  { intros a H. destruct (Qeq_bool a 0) eqn:E; [|reflexivity].
    apply Qeq_bool_iff in E. rewrite E in H. discriminate H. }
  unfold k_rings. rewrite (Hnz _ Ha1), (Hnz _ Ha2).
  eexists. eexists. split; [reflexivity|]. split; [reflexivity|].
  assert (Hq1 : 0 <= r1 * r1 / a1).
  { apply Qle_shift_div_l; [exact Ha1|]. rewrite Qmult_0_l.
    now apply Qmult_le_0_compat. }
  assert (Hq : r1 * r1 / a1 <= r2 * r2 / a2).
  { apply Qle_shift_div_l; [exact Ha2|].
    assert (Hsq : r1 * r1 <= r2 * r2) by nra.
    assert (Hback : r1 * r1 / a1 * a1 == r1 * r1).
    { field. intro E. rewrite E in Ha1. discriminate Ha1. }
    set (q := r1 * r1 / a1) in *. clearbody q.
    assert (Hstep : q * a2 <= q * a1) by nra.
    lra. }
  assert (Hq2 : 0 <= r2 * r2 / a2) by (eapply Qle_trans; eassumption).
  rewrite !AreaFacts.py_int_nonneg by assumption.
  pose proof (Qfloor_resp_le _ _ Hq) as Hfl.
  pose proof (Qfloor_resp_le _ _ Hq1) as H0. change (Qfloor 0) with 0%Z in H0.
  lia.
Qed.

Lemma ring_count_grows_with_radius_and_resolution_witness :
  exists k1 k2,
    k_rings 1 (7 # 10) = Ok k1 /\ k_rings 1 (15 # 1000) = Ok k2 /\ (1 <= k1 <= k2)%Z.
Proof.
  apply (ring_count_grows_with_radius_and_resolution 1 1 (7 # 10) (15 # 1000)).
  - discriminate.
  - discriminate.
  - reflexivity.
  - discriminate.
Defined.

End H3Extras.

(** ** Previews, summaries and suggestions *)

Module RiskExtras.

Import Risk RiskService Samples ControlExtras ProcessorExtras.
Local Open Scope string_scope.
Local Open Scope list_scope.
Local Open Scope Q_scope.











Lemma distinct_count_bounded {A : Type} (key : A -> string) (l : list A) :
  forall acc,
    (List.length (fold_left (fun s m => set_add string_dec (key m) s) l acc)
     <= List.length acc + List.length l)%nat
    /\ (List.length acc
        <= List.length (fold_left (fun s m => set_add string_dec (key m) s) l acc))%nat.
Proof.
  assert (Hadd : forall k acc,
            (List.length acc <= List.length (set_add string_dec k acc) <= S (List.length acc))%nat).
  { intros k acc. induction acc as [|a acc IH]; simpl; [lia|].
    destruct (string_dec k a); simpl; lia. }
  induction l as [|m l IH]; intro acc; cbn [fold_left List.length]; [lia|].
  destruct (IH (set_add string_dec (key m) acc)) as [H1 H2].
  pose proof (Hadd (key m) acc). lia.
Qed.

Lemma fold_left_Zadd_from (l : list Z) :
  forall a, fold_left Z.add l a = (a + py_sum_int l)%Z.
Proof.
  unfold py_sum_int. induction l as [|x l IH]; intro a; cbn [fold_left]; [lia|].
  rewrite (IH (a + x)%Z), (IH (0 + x)%Z). lia.
Qed.

(** X19: the figures of [get_user_impact_summary] fit together. The
    critical moves, the conquests and the territories never exceed the
    moves; without moves every figure is 0; with moves at least one
    territory is impacted and the average times the moves gives the
    units. *)
Theorem impact_summary_counts_are_consistent (tactical_moves : list tactical_move)
    (user_id : string) :
  let s := get_user_impact_summary tactical_moves user_id in
  (critical_moves s <= total_moves s)%nat
  /\ (conquests_participated s <= total_moves s)%nat
  /\ (territories_impacted s <= total_moves s)%nat
  /\ (total_moves s = 0%nat ->
      territories_impacted s = 0%nat /\ total_units_deployed s = 0%Z
      /\ total_km_allocated s = 0 /\ average_impact_per_move s = 0)
  /\ (0 < total_moves s ->
      0 < territories_impacted s
      /\ average_impact_per_move s * inject_Z (Z.of_nat (total_moves s))
         == inject_Z (total_units_deployed s))%nat.
Proof.
  cbv zeta. unfold get_user_impact_summary. cbn [total_moves critical_moves
    conquests_participated territories_impacted total_units_deployed
    total_km_allocated average_impact_per_move].
  set (data := filter (fun m => String.eqb (tm_user_id m) user_id) tactical_moves).
  split; [apply filter_length_le|]. split; [apply filter_length_le|].
  destruct (distinct_count_bounded tm_to_territory_id data (empty_set string)) as [Hup Hlow].
  split; [exact Hup|]. split.
  - intros H0. destruct data; [|discriminate]. now repeat split.
  - intros Hpos. split.
    + destruct data as [|m data]; [simpl in Hpos; lia|]. cbn [fold_left].
      destruct (distinct_count_bounded tm_to_territory_id data
                  (set_add string_dec (tm_to_territory_id m) (empty_set string)))
        as [_ H]. simpl in H. exact H.
    + destruct (Nat.ltb_spec 0 (List.length data)) as [_|H]; [|lia].
      field. intro E.
      assert (Hz : (Z.of_nat (List.length data) = 0)%Z).
      { apply inject_Z_injective. exact E. }
      lia.
Qed.

Lemma conditional_appends {A B : Type} (keep : A -> bool) (make : A -> B) (l : list A) :
  forall acc,
    fold_left (fun out x => if keep x then out ++ [make x] else out) l acc
    = acc ++ map make (filter keep l).
Proof.
  induction l as [|x l IH]; intro acc; cbn [fold_left filter].
  - now rewrite app_nil_r.
  - rewrite IH. destruct (keep x); [|reflexivity].
    cbn [map]. now rewrite <- app_assoc.
Qed.

(** X20: [suggest_strategic_targets] returns the border suggestions
    before the battle suggestions, at most 5 and 3 of them; every border
    suggestion is [HIGH] with 10 units for one of the first five hot
    borders that names the user's city, every battle suggestion is
    [CRITICAL] with 15 units for one of the first three battles with a
    progress above 50. *)
Theorem suggestions_are_few_and_ordered (v_hot_borders : list hot_border)
    (v_active_battles_detail : list battle_detail) (user_id user_city : string) :
  exists borders battles,
    suggest_strategic_targets v_hot_borders v_active_battles_detail user_id user_city
    = borders ++ battles
    /\ (List.length borders <= 5)%nat
    /\ (List.length battles <= 3)%nat
    /\ (forall s, In s borders ->
          sg_priority s = "HIGH" /\ sg_recommended_units s = 10%Z
          /\ exists b, In b (firstn 5 v_hot_borders) /\ sg_target s = BorderTarget b
                       /\ (user_city = entity_1_name b \/ user_city = entity_2_name b))
    /\ (forall s, In s battles ->
          sg_priority s = "CRITICAL" /\ sg_recommended_units s = 15%Z
          /\ exists b, In b (firstn 3 v_active_battles_detail)
                       /\ sg_target s = BattleTarget b /\ 50 < conquest_progress b).
Proof.
  unfold suggest_strategic_targets, get_hot_borders, get_active_battles.
  rewrite !conditional_appends. cbn [app].
  eexists. eexists. split; [reflexivity|].
  assert (H3 : firstn 3 (firstn 50 v_active_battles_detail)
               = firstn 3 v_active_battles_detail).
  { rewrite firstn_firstn. reflexivity. }
  rewrite H3.
  split; [|split; [|split]].
  - rewrite length_map. eapply Nat.le_trans; [apply filter_length_le|].
    apply firstn_le_length.
  - rewrite length_map. eapply Nat.le_trans; [apply filter_length_le|].
    apply firstn_le_length.
  - intros s Hs. apply in_map_iff in Hs. destruct Hs as (b & <- & Hb).
    apply filter_In in Hb. destruct Hb as [Hb Hkeep]. cbn.
    split; [reflexivity|]. split; [reflexivity|]. exists b. split; [exact Hb|].
    split; [reflexivity|]. apply orb_true_iff in Hkeep.
    destruct Hkeep as [H|H]; apply String.eqb_eq in H; [now left|now right].
  - intros s Hs. apply in_map_iff in Hs. destruct Hs as (b & <- & Hb).
    apply filter_In in Hb. destruct Hb as [Hb Hkeep]. cbn.
    split; [reflexivity|]. split; [reflexivity|]. exists b. split; [exact Hb|].
    split; [reflexivity|]. now apply Qlt_bool_iff.
Qed.

End RiskExtras.

(** ** Achievements and deletion *)

Module ProcessorMoreFacts.

Import ProcessorMore.
Local Open Scope string_scope.
Local Open Scope list_scope.
Local Open Scope Q_scope.

Lemma requirement_met_same (user user' : user_row) (user_id : string) (a : achievement)
    (st st' : app_tables) :
  same_standing user user' ->
  activities st' = activities st ->
  requirement_met user' user_id a st' = requirement_met user user_id a st.
Proof.
  intros (_ & Hkm & Hz) Hact. unfold requirement_met, count_activities.
  now rewrite Hkm, Hz, Hact.
Qed.

Lemma same_standing_after_points (user_id : string) (reward : Z) (us us0 : list user_row) :
  Forall2 same_standing us0 us ->
  Forall2 same_standing us0 (map (add_points user_id reward) us).
Proof.
  induction 1 as [|u0 u us0 us Hu _ IH]; cbn [map]; constructor; [|exact IH].
  destruct Hu as (Hid & Hkm & Hz). unfold add_points, same_standing.
  destruct (String.eqb (u_id u) user_id); simpl; now repeat split.
Qed.

(** What the loop keeps, whatever it unlocks. *)
Lemma check_loop_invariant (user : user_row) (user_id : string) (unlocked_ids : list string)
    (st0 : app_tables) (l : list achievement) :
  forall st,
    achievements st = achievements st0 ->
    activities st = activities st0 ->
    teams st = teams st0 ->
    Forall2 same_standing (users st0) (users st) ->
    (forall r, In r (user_achievements st0) -> In r (user_achievements st)) ->
    let st' := fold_left (check_one user user_id unlocked_ids) l st in
    achievements st' = achievements st0
    /\ activities st' = activities st0
    /\ teams st' = teams st0
    /\ Forall2 same_standing (users st0) (users st')
    /\ (forall r, In r (user_achievements st) -> In r (user_achievements st'))
    /\ (forall a, In a l ->
          existsb (String.eqb (ach_id a)) unlocked_ids = false ->
          requirement_met user user_id a st0 = true ->
          holds user_id (ach_id a) st').
Proof.
  induction l as [|a l IH]; intros st Hach Hact Hteams Husers Hold; cbn [fold_left].
  - cbv zeta. split; [exact Hach|]. split; [exact Hact|]. split; [exact Hteams|].
    split; [exact Husers|]. split; [now auto|]. intros b [].
  - assert (Hmet : requirement_met user user_id a st = requirement_met user user_id a st0).
    { apply requirement_met_same; [now repeat split|exact Hact]. }
    assert (Hstep : let st1 := check_one user user_id unlocked_ids st a in
              achievements st1 = achievements st0
              /\ activities st1 = activities st0
              /\ teams st1 = teams st0
              /\ Forall2 same_standing (users st0) (users st1)
              /\ (forall r, In r (user_achievements st) -> In r (user_achievements st1))
              /\ (existsb (String.eqb (ach_id a)) unlocked_ids = false ->
                  requirement_met user user_id a st0 = true ->
                  holds user_id (ach_id a) st1)).
    { cbv zeta. unfold check_one. rewrite Hmet.
      destruct (existsb (String.eqb (ach_id a)) unlocked_ids).
      { split; [exact Hach|]. split; [exact Hact|]. split; [exact Hteams|].
        split; [exact Husers|]. split; [now auto|discriminate]. }
      destruct (requirement_met user user_id a st0).
      2:{ split; [exact Hach|]. split; [exact Hact|]. split; [exact Hteams|].
          split; [exact Husers|]. split; [now auto|discriminate]. }
      unfold unlock. cbn [achievements activities teams users user_achievements].
      split; [exact Hach|]. split; [exact Hact|]. split; [exact Hteams|]. split.
      { destruct (0 <? points_reward a)%Z; [|exact Husers].
        now apply same_standing_after_points. }
      split; [intros r Hr; apply in_or_app; now left|].
      intros _ _. eexists. split; [apply in_or_app; right; now left|]. now split. }
    cbv zeta in Hstep. destruct Hstep as (H1 & H2 & H3 & H4 & H5 & H6).
    destruct (IH (check_one user user_id unlocked_ids st a) H1 H2 H3 H4
                 (fun r Hr => H5 r (Hold r Hr)))
      as (I1 & I2 & I3 & I4 & I5 & I6).
    cbv zeta in I5. split; [exact I1|]. split; [exact I2|]. split; [exact I3|].
    split; [exact I4|]. split.
    + intros r Hr. apply I5, H5, Hr.
    + intros b [<-|Hb] Hnew Hm.
      * destruct (H6 Hnew Hm) as (r & Hr & Hu & Hi).
        exists r. split; [now apply I5|now split].
      * now apply I6.
Qed.

Lemma first_user_same_standing (user_id : string) (us0 us : list user_row) :
  Forall2 same_standing us0 us ->
  Forall2 same_standing
    (filter (fun u => String.eqb (u_id u) user_id) us0)
    (filter (fun u => String.eqb (u_id u) user_id) us).
Proof.
  induction 1 as [|u0 u us0 us Hu _ IH]; cbn [filter]; [constructor|].
  destruct Hu as (Hid & Hrest). rewrite Hid.
  destruct (String.eqb (u_id u0) user_id); [|exact IH].
  constructor; [now split|exact IH].
Qed.

Lemma steady_loop {A S : Type} (step : S -> A -> S) (l : list A) (st : S) :
  (forall a, In a l -> step st a = st) -> fold_left step l st = st.
Proof.
  induction l as [|a l IH]; intros H; cbn [fold_left]; [reflexivity|].
  rewrite (H a) by now left. apply IH. intros b Hb. apply H. now right.
Qed.

(** X21: [_check_achievements] can be run again without effect: a
    second run right after the first unlocks nothing and awards no
    points, because a reward changes only the points and no requirement
    looks at them. *)
Theorem checking_achievements_twice_unlocks_nothing_more (user_id : string)
    (st : app_tables) :
  _check_achievements user_id (_check_achievements user_id st)
  = _check_achievements user_id st.
Proof.
  unfold _check_achievements at 2 3.
  destruct (filter (fun u => String.eqb (u_id u) user_id) (users st)) as [|user rest] eqn:Hu.
  { unfold _check_achievements. now rewrite Hu. }
  set (unlocked0 := map ua_achievement_id
                        (filter (fun r => String.eqb (ua_user_id r) user_id)
                                (user_achievements st))).
  destruct (check_loop_invariant user user_id unlocked0 st (achievements st) st
              eq_refl eq_refl eq_refl)
    as (Hach & Hact & _ & Husers & Hold & Hnew).
  { clear. induction (users st); constructor; [now repeat split|assumption]. }
  { now auto. }
  cbv zeta in Hold, Hnew.
  set (st1 := fold_left (check_one user user_id unlocked0) (achievements st) st) in *.
  unfold _check_achievements.
  pose proof (first_user_same_standing user_id _ _ Husers) as Hfirst.
  rewrite Hu in Hfirst.
  destruct (filter (fun u => String.eqb (u_id u) user_id) (users st1)) as [|user1 rest1];
    [reflexivity|].
  inversion Hfirst as [|? ? ? ? Hsame _]; subst.
  rewrite Hach. apply steady_loop. intros a Ha. unfold check_one.
  set (unlocked1 := map ua_achievement_id
                        (filter (fun r => String.eqb (ua_user_id r) user_id)
                                (user_achievements st1))).
  assert (Hheld : forall i, holds user_id i st1 ->
                            existsb (String.eqb (ach_id a)) unlocked1 = true
                            \/ i <> ach_id a).
  { intros i (r & Hr & Hru & Hri).
    destruct (string_dec i (ach_id a)) as [->|Hne]; [left|now right].
    apply existsb_exists. exists (ach_id a). split; [|apply String.eqb_refl].
    subst unlocked1. apply in_map_iff. exists r. split; [exact Hri|].
    apply filter_In. split; [exact Hr|]. rewrite Hru. apply String.eqb_refl. }
  destruct (existsb (String.eqb (ach_id a)) unlocked1) eqn:E1; [reflexivity|].
  rewrite (requirement_met_same user user1 user_id a st st1 Hsame Hact).
  destruct (requirement_met user user_id a st) eqn:Hm; [|reflexivity].
  exfalso.
  assert (E0 : existsb (String.eqb (ach_id a)) unlocked0 = false).
  { destruct (existsb (String.eqb (ach_id a)) unlocked0) eqn:E0; [|reflexivity].
    apply existsb_exists in E0. destruct E0 as (i & Hi & Heq).
    apply String.eqb_eq in Heq. subst i.
    subst unlocked0. apply in_map_iff in Hi. destruct Hi as (r & Hri & Hr).
    apply filter_In in Hr. destruct Hr as [Hr Hru]. apply String.eqb_eq in Hru.
    destruct (Hheld (ach_id a)) as [H|H]; [|discriminate H|now contradiction H].
    exists r. split; [now apply Hold|now split]. }
  destruct (Hheld (ach_id a) (Hnew a Ha E0 Hm)) as [H|H];
    [discriminate H|now contradiction H].
Qed.

(** X22: [delete_activity] is safe to repeat. After a first call a
    second one returns [False] and changes nothing; the first changes
    nothing when it returns [False], and when it returns [True] the
    activities with that id are gone, all others are kept, and the user's
    totals were reduced by an activity of that user with that id. *)
Theorem deleting_twice_deletes_once (activity_id user_id : string) (st : app_tables) :
  let first := delete_activity activity_id user_id st in
  delete_activity activity_id user_id (snd first) = (false, snd first)
  /\ (fst first = false -> snd first = st)
  /\ (fst first = true ->
      (forall a, In a (activities (snd first)) <->
                 In a (activities st) /\ act_id a <> activity_id)
      /\ exists activity,
           In activity (activities st)
           /\ act_id activity = activity_id /\ act_user_id activity = user_id
           /\ users (snd first) = map (subtract_user user_id activity) (users st)).
Proof.
  cbv zeta.
  destruct (delete_activity activity_id user_id st) as [b st1] eqn:Hd. cbn [fst snd].
  unfold delete_activity in Hd.
  destruct (filter (fun a => String.eqb (act_id a) activity_id
                             && String.eqb (act_user_id a) user_id) (activities st))
    as [|activity rest] eqn:Hf; injection Hd as <- <-.
  - split; [|split; [reflexivity|discriminate]].
    unfold delete_activity. now rewrite Hf.
  - split; [|split; [discriminate|]].
    + unfold delete_activity. cbn [activities].
      assert (Hnone : forall l,
                filter (fun a => String.eqb (act_id a) activity_id
                                 && String.eqb (act_user_id a) user_id)
                       (filter (fun a => negb (String.eqb (act_id a) activity_id)) l) = []).
      { induction l as [|a l IH]; [reflexivity|]. cbn [filter].
        destruct (String.eqb (act_id a) activity_id) eqn:E; cbn [negb filter];
          [exact IH|]. rewrite E. exact IH. }
      now rewrite Hnone.
    + intros _. split.
      * intros a. cbn [activities]. rewrite filter_In, negb_true_iff.
        split; intros [Hin Hne]; (split; [exact Hin|]).
        -- intros E. rewrite E, String.eqb_refl in Hne. discriminate.
        -- now apply String.eqb_neq.
      * exists activity.
        assert (Hin : In activity (filter (fun a => String.eqb (act_id a) activity_id
                             && String.eqb (act_user_id a) user_id) (activities st)))
          by (rewrite Hf; now left).
        apply filter_In in Hin. destruct Hin as [Hin Hk].
        apply andb_true_iff in Hk. destruct Hk as [H1 H2].
        apply String.eqb_eq in H1, H2.
        split; [exact Hin|]. split; [exact H1|]. split; [exact H2|reflexivity].
Qed.

End ProcessorMoreFacts.

(** ** Geographic statistics and city battles *)

Module GeoFacts.
Import Py CompetitionService GeoSpec.
Local Open Scope string_scope.
Local Open Scope list_scope.
Local Open Scope Q_scope.

Lemma add_if_set_spec (o : option string) (l : list string) (e : string) :
  In e (add_if_set o l) <-> In e l \/ (o = Some e /\ e <> ""%string).
Proof.
  unfold add_if_set. destruct o as [s|].
  - unfold truthy_str. destruct (String.eqb s "") eqn:E; cbn [negb].
    + apply String.eqb_eq in E. subst s. split; [tauto|].
      intros [H|[H1 H2]]; [exact H|]. injection H1 as <-. congruence.
    + apply String.eqb_neq in E. rewrite set_add_iff. split.
      * intros [->|H]; [right; split; [reflexivity|exact E] | left; exact H].
      * intros [H|[H1 _]]; [right; exact H | left; congruence].
  - split; [tauto|]. intros [H|[H _]]; [exact H|discriminate].
Qed.

Lemma add_if_set_nodup (o : option string) (l : list string) :
  NoDup l -> NoDup (add_if_set o l).
Proof.
  intro H. unfold add_if_set. destruct o as [s|]; [|exact H].
  destruct (truthy_str (Some s)); [|exact H].
  apply set_add_nodup. exact H.
Qed.

Lemma collect_entity_ids_spec (zones : list zone_place) (e : string) :
  In e (collect_entity_ids zones) <->
  exists zone, In zone zones /\ names_entity zone e /\ e <> ""%string.
Proof.
  unfold collect_entity_ids.
  assert (G : forall acc,
             In e (fold_left (fun entity_ids zone =>
                      add_if_set (zp_country_id zone)
                        (add_if_set (zp_region_id zone)
                           (add_if_set (zp_city_id zone) entity_ids))) zones acc) <->
             In e acc \/ exists zone, In zone zones /\ names_entity zone e /\ e <> ""%string).
  { induction zones as [|z zones IH]; intro acc; cbn [fold_left].
    - split; [tauto|]. intros [H|[zone [[] _]]]. exact H.
    - rewrite IH, !add_if_set_spec. unfold names_entity. split.
      + intros [[[[H|[H1 H2]]|[H1 H2]]|[H1 H2]]|[zone [Hin Hz]]].
        * left; exact H.
        * right. exists z. split; [left; reflexivity|]. tauto.
        * right. exists z. split; [left; reflexivity|]. tauto.
        * right. exists z. split; [left; reflexivity|]. tauto.
        * right. exists zone. split; [right; exact Hin|exact Hz].
      + intros [H|[zone [[<-|Hin] [Hn Hne]]]].
        * tauto.
        * left. destruct Hn as [H|[H|H]]; tauto.
        * right. exists zone. tauto. }
  rewrite G. cbn [empty_set In]. tauto.
Qed.

Lemma collect_entity_ids_nodup (zones : list zone_place) :
  NoDup (collect_entity_ids zones).
Proof.
  unfold collect_entity_ids.
  assert (G : forall acc, NoDup acc ->
             NoDup (fold_left (fun entity_ids zone =>
                      add_if_set (zp_country_id zone)
                        (add_if_set (zp_region_id zone)
                           (add_if_set (zp_city_id zone) entity_ids))) zones acc)).
  { induction zones as [|z zones IH]; intros acc H; cbn [fold_left]; [exact H|].
    apply IH. repeat apply add_if_set_nodup. exact H. }
  apply G. constructor.
Qed.

Lemma upsert_keeps_rows (now : Z) (user_id : string) (km : Q) (points : Z)
    (st : geo_tables) (e e' : string) :
  has_row user_id e' st -> has_row user_id e' (upsert_entity now user_id km points st e).
Proof.
  intros [row [Hin [Hu He]]]. unfold has_row, upsert_entity. cbn [user_geographic_stats].
  destruct (filter _ (user_geographic_stats st)) as [|first rest].
  - exists row. split; [apply in_or_app; left; exact Hin|tauto].
  - eexists. split; [apply in_map; exact Hin|].
    destruct (Nat.eqb (gs_id row) (gs_id first)); cbn; tauto.
Qed.

Lemma upsert_makes_row (now : Z) (user_id : string) (km : Q) (points : Z)
    (st : geo_tables) (e : string) :
  has_row user_id e (upsert_entity now user_id km points st e).
Proof.
  destruct (filter (fun r => String.eqb (gs_user_id r) user_id
                             && String.eqb (gs_entity_id r) e)
                   (user_geographic_stats st)) as [|first rest] eqn:Hex.
  - unfold has_row, upsert_entity. rewrite Hex. cbn [user_geographic_stats].
    eexists. split; [apply in_or_app; right; left; reflexivity|]. cbn. tauto.
  - apply upsert_keeps_rows.
    assert (Hin : In first (first :: rest)) by (left; reflexivity).
    rewrite <- Hex in Hin. apply filter_In in Hin. destruct Hin as [Hin Hb].
    apply andb_prop in Hb. destruct Hb as [Hu He].
    apply String.eqb_eq in Hu, He. exists first. tauto.
Qed.

Lemma upsert_loop_rows (now : Z) (user_id : string) (km : Q) (points : Z)
    (ids : list string) :
  forall st e,
    In e ids \/ has_row user_id e st ->
    has_row user_id e (fold_left (upsert_entity now user_id km points) ids st).
Proof.
  induction ids as [|i ids IH]; intros st e H; cbn [fold_left].
  - destruct H as [[]|H]. exact H.
  - apply IH. destruct H as [[->|H]|H].
    + right. apply upsert_makes_row.
    + left. exact H.
    + right. apply upsert_keeps_rows. exact H.
Qed.

(** X23: after [update_geographic_stats], the user has a statistics row for
    every entity (city, region or country, not the empty string) named by
    a zone of the route, in whatever order the set of entities is walked. *)
Theorem every_entity_of_the_route_gets_a_row
    (iteration_order : list string -> list string) (now : Z) (user_id : string)
    (activity_km : Q) (activity_points : Z) (zone_ids : list nat) (st : geo_tables)
    (zone : zone_place) (e : string) :
  walks_the_set iteration_order ->
  In zone (zone_places st) ->
  In (zp_id zone) zone_ids ->
  names_entity zone e ->
  e <> ""%string ->
  exists row,
    In row (user_geographic_stats
              (update_geographic_stats iteration_order now user_id activity_km
                                       activity_points zone_ids st))
    /\ gs_user_id row = user_id /\ gs_entity_id row = e.
Proof.
  intros Hwalk Hzone Hid Hname Hne.
  unfold update_geographic_stats.
  destruct zone_ids as [|z0 zs] eqn:Hz; [destruct Hid|]. rewrite <- Hz in *.
  apply upsert_loop_rows. left.
  apply (Hwalk _ (collect_entity_ids_nodup _)).
  apply collect_entity_ids_spec. exists zone. split; [|tauto].
  apply filter_In. split; [exact Hzone|].
  apply existsb_exists. exists (zp_id zone). split; [exact Hid|apply Nat.eqb_refl].
Qed.

Lemma every_entity_of_the_route_gets_a_row_witness :
  exists row,
    In row (user_geographic_stats
              (update_geographic_stats (fun l => l) 7 "u2" 9 90 [2%nat] sample_geo))
    /\ gs_user_id row = "u2"%string /\ gs_entity_id row = "cam"%string.
Proof.
  apply (every_entity_of_the_route_gets_a_row (fun l => l) 7 "u2" 9 90 [2%nat] sample_geo
           {| zp_id := 2; zp_city_id := Some "madrid"; zp_region_id := Some "cam";
              zp_country_id := Some "es" |} "cam").
  - intros l Hl. split; [exact Hl|]. split; [reflexivity|]. intro e. reflexivity.
  - right. left. reflexivity.
  - left. reflexivity.
  - right. left. reflexivity.
  - discriminate.
Defined.

Lemma km_sum_cons (r : geo_stats) (l : list geo_stats) :
  km_sum (r :: l) == gs_total_km r + km_sum l.
Proof. unfold km_sum. cbn [map]. apply ControlExtras.py_sum_cons. Qed.

Lemma points_sum_cons (r : geo_stats) (l : list geo_stats) :
  points_sum (r :: l) = (gs_total_points r + points_sum l)%Z.
Proof.
  unfold points_sum. cbn [map fold_left].
  assert (G : forall xs a, fold_left Z.add xs a = (a + fold_left Z.add xs 0)%Z).
  { induction xs as [|x xs IH]; intro a; cbn [fold_left]; [lia|].
    rewrite (IH (a + x)%Z), (IH (0 + x)%Z). lia. }
  rewrite G. lia.
Qed.

Lemma km_sum_app (l1 l2 : list geo_stats) :
  km_sum (l1 ++ l2) == km_sum l1 + km_sum l2.
Proof.
  induction l1 as [|r l1 IH]; cbn [app].
  - change (km_sum []) with 0. ring.
  - rewrite !km_sum_cons, IH. ring.
Qed.

Lemma points_sum_app (l1 l2 : list geo_stats) :
  points_sum (l1 ++ l2) = (points_sum l1 + points_sum l2)%Z.
Proof.
  induction l1 as [|r l1 IH]; cbn [app].
  - reflexivity.
  - rewrite !points_sum_cons, IH. lia.
Qed.

Lemma bump_absent (now : Z) (km : Q) (points : Z) (id : nat) (l : list geo_stats) :
  ~ In id (map gs_id l) -> map (bump now km points id) l = l.
Proof.
  induction l as [|r l IH]; intro H; cbn [map]; [reflexivity|].
  cbn [map In] in H. rewrite IH by tauto. f_equal.
  unfold bump. destruct (Nat.eqb (gs_id r) id) eqn:E; [|reflexivity].
  apply Nat.eqb_eq in E. tauto.
Qed.

Lemma bump_keeps_ids (now : Z) (km : Q) (points : Z) (id : nat) (l : list geo_stats) :
  map gs_id (map (bump now km points id) l) = map gs_id l.
Proof.
  rewrite map_map. apply map_ext. intro r. unfold bump.
  destruct (Nat.eqb (gs_id r) id); reflexivity.
Qed.

Lemma bump_keeps_user (now : Z) (km : Q) (points : Z) (id : nat) (r : geo_stats) :
  gs_user_id (bump now km points id r) = gs_user_id r.
Proof. unfold bump. destruct (Nat.eqb (gs_id r) id); reflexivity. Qed.

Lemma bump_one_row (now : Z) (km : Q) (points : Z) (user_id : string)
    (first : geo_stats) (l : list geo_stats) :
  NoDup (map gs_id l) ->
  In first l ->
  gs_user_id first = user_id ->
  let keep other := filter (fun r => String.eqb (gs_user_id r) other) in
  let l' := map (bump now km points (gs_id first)) l in
  km_sum (keep user_id l') == km_sum (keep user_id l) + km
  /\ points_sum (keep user_id l') = (points_sum (keep user_id l) + points)%Z
  /\ forall other, other <> user_id -> keep other l' = keep other l.
Proof.
  intros Hnd Hin Hu keep. cbv zeta.
  induction l as [|r l IH]; [destruct Hin|].
  cbn [map] in Hnd. apply NoDup_cons_iff in Hnd. destruct Hnd as [Hnotin Hnd].
  destruct Hin as [->|Hin].
  - cbn [map]. rewrite bump_absent by exact Hnotin.
    unfold keep. cbn [filter]. rewrite bump_keeps_user, Hu.
    unfold bump at 1 2. rewrite Nat.eqb_refl. cbn [gs_user_id].
    rewrite String.eqb_refl. split; [|split].
    + rewrite !km_sum_cons. cbn [gs_total_km]. ring.
    + rewrite !points_sum_cons. cbn [gs_total_points]. lia.
    + intros other Hother.
      destruct (String.eqb user_id other) eqn:E; [|reflexivity].
      apply String.eqb_eq in E. congruence.
  - assert (Hne : Nat.eqb (gs_id r) (gs_id first) = false).
    { apply Nat.eqb_neq. intro E. apply Hnotin. rewrite E. apply in_map. exact Hin. }
    specialize (IH Hnd Hin). destruct IH as [IH1 [IH2 IH3]].
    cbn [map]. unfold bump at 1 3 5. rewrite Hne.
    unfold keep in *. cbn [filter].
    split; [|split].
    + destruct (String.eqb (gs_user_id r) user_id); [|exact IH1].
      rewrite !km_sum_cons, IH1. ring.
    + destruct (String.eqb (gs_user_id r) user_id); [|exact IH2].
      rewrite !points_sum_cons, IH2. lia.
    + intros other Hother. rewrite (IH3 other Hother). reflexivity.
Qed.

Lemma fresh_stats_id (l : list nat) : ~ In (S (list_max l)) l.
Proof.
  intro H. assert (G : forall x, In x l -> (x <= list_max l)%nat).
  { apply Forall_forall. apply list_max_le. apply Nat.le_refl. }
  apply G in H. lia.
Qed.

Lemma upsert_step (now : Z) (user_id : string) (km : Q) (points : Z)
    (st : geo_tables) (e : string) :
  unique_stats_ids st ->
  let st' := upsert_entity now user_id km points st e in
  unique_stats_ids st'
  /\ user_km user_id st' == user_km user_id st + km
  /\ user_points user_id st' = (user_points user_id st + points)%Z
  /\ forall other, other <> user_id -> rows_of other st' = rows_of other st.
Proof.
  intros Hnd. cbv zeta.
  unfold unique_stats_ids, user_km, user_points, rows_of, upsert_entity in *.
  cbn [user_geographic_stats].
  destruct (filter (fun r => String.eqb (gs_user_id r) user_id
                             && String.eqb (gs_entity_id r) e)
                   (user_geographic_stats st)) as [|first rest] eqn:Hex.
  - split; [|split; [|split]].
    + rewrite map_app. cbn [map gs_id].
      apply NoDup_app; [exact Hnd | repeat constructor; intros [] |].
      intros x Hx [<-|[]]. exact (fresh_stats_id _ Hx).
    + rewrite filter_app. cbn [filter gs_user_id]. rewrite String.eqb_refl.
      rewrite km_sum_app, km_sum_cons. cbn [gs_total_km].
      change (km_sum []) with 0. ring.
    + rewrite filter_app. cbn [filter gs_user_id]. rewrite String.eqb_refl.
      rewrite points_sum_app, points_sum_cons. cbn [gs_total_points].
      change (points_sum []) with 0%Z. lia.
    + intros other Hother. rewrite filter_app. cbn [filter gs_user_id].
      destruct (String.eqb user_id other) eqn:E.
      * apply String.eqb_eq in E. congruence.
      * apply app_nil_r.
  - assert (Hin : In first (first :: rest)) by (left; reflexivity).
    rewrite <- Hex in Hin. apply filter_In in Hin. destruct Hin as [Hin Hb].
    apply andb_prop in Hb. destruct Hb as [Hu _]. apply String.eqb_eq in Hu.
    change (map _ (user_geographic_stats st))
      with (map (bump now km points (gs_id first)) (user_geographic_stats st)).
    split; [rewrite bump_keeps_ids; exact Hnd|].
    exact (bump_one_row now km points user_id first _ Hnd Hin Hu).
Qed.

Lemma upsert_loop_totals (now : Z) (user_id : string) (km : Q) (points : Z)
    (ids : list string) :
  forall st,
    unique_stats_ids st ->
    let st' := fold_left (upsert_entity now user_id km points) ids st in
    user_km user_id st' == user_km user_id st + inject_Z (Z.of_nat (List.length ids)) * km
    /\ user_points user_id st'
       = (user_points user_id st + Z.of_nat (List.length ids) * points)%Z
    /\ forall other, other <> user_id -> rows_of other st' = rows_of other st.
Proof.
  induction ids as [|i ids IH]; intros st Hnd; cbv zeta; cbn [fold_left List.length].
  - split; [|split].
    + change (inject_Z (Z.of_nat 0)) with 0. ring.
    + lia.
    + reflexivity.
  - destruct (upsert_step now user_id km points st i Hnd) as [Hnd' [Hk [Hp Ho]]].
    destruct (IH _ Hnd') as [IHk [IHp IHo]].
    split; [|split].
    + rewrite IHk, Hk. rewrite Nat2Z.inj_succ. unfold Z.succ. rewrite inject_Z_plus.
      change (inject_Z 1) with 1. ring.
    + rewrite IHp, Hp. lia.
    + intros other Hother. rewrite (IHo other Hother). apply Ho. exact Hother.
Qed.

(** X24: [update_geographic_stats] shares an activity out evenly. When the
    route touches [n > 0] entities and the ids of the statistics rows are
    unique, the kilometres the user holds over all entities grow by exactly
    the activity's kilometres, the points grow by the activity's points
    less the remainder of their division by [n], and the rows of every
    other user stay as they were. *)
Theorem geographic_stats_share_out_the_activity
    (iteration_order : list string -> list string) (now : Z) (user_id : string)
    (activity_km : Q) (activity_points : Z) (zone_ids : list nat) (st : geo_tables) :
  walks_the_set iteration_order ->
  unique_stats_ids st ->
  let n := Z.of_nat (List.length (route_entities zone_ids st)) in
  (0 < n)%Z ->
  let st' := update_geographic_stats iteration_order now user_id activity_km
                                     activity_points zone_ids st in
  user_km user_id st' == user_km user_id st + activity_km
  /\ user_points user_id st'
     = (user_points user_id st + activity_points - activity_points mod n)%Z
  /\ forall other, other <> user_id -> rows_of other st' = rows_of other st.
Proof.
  intros Hwalk Hnd n Hn. cbv zeta. subst n.
  unfold update_geographic_stats.
  destruct zone_ids as [|z0 zs].
  { assert (E : route_entities [] st = []).
    { unfold route_entities. cbn [existsb].
      induction (zone_places st) as [|z zs IH]; [reflexivity|exact IH]. }
    rewrite E in Hn. cbn in Hn. lia. }
  cbv beta iota zeta.
  fold (route_entities (z0 :: zs) st).
  set (ids := route_entities (z0 :: zs) st) in *.
  destruct (Hwalk ids (collect_entity_ids_nodup _)) as [_ [Hlen _]].
  destruct (upsert_loop_totals now user_id (km_per_entity activity_km ids)
              (points_per_entity activity_points ids) (iteration_order ids) st Hnd)
    as [Hk [Hp Ho]].
  rewrite Hlen in Hk, Hp. clearbody ids.
  set (n := Z.of_nat (List.length ids)) in *.
  assert (Hshare : km_per_entity activity_km ids = activity_km / inject_Z n
                   /\ points_per_entity activity_points ids = (activity_points / n)%Z).
  { unfold km_per_entity, points_per_entity, n in *.
    destruct ids; [cbn in Hn; lia|split; reflexivity]. }
  destruct Hshare as [Ekm Epts].
  rewrite Ekm, Epts in Hk, Hp, Ho. rewrite Ekm, Epts.
  assert (Hq : ~ inject_Z n == 0).
  { intro E. unfold Qeq in E. cbn in E. lia. }
  clearbody n.
  split; [|split].
  - rewrite Hk. field. exact Hq.
  - rewrite Hp. pose proof (Z.div_mod activity_points n ltac:(lia)). lia.
  - exact Ho.
Qed.

Lemma geographic_stats_share_out_the_activity_witness :
  let st' := update_geographic_stats (fun l => l) 7 "u1" 9 100 [1%nat; 2%nat] sample_geo in
  user_km "u1" st' == user_km "u1" sample_geo + 9
  /\ user_points "u1" st' = (user_points "u1" sample_geo + 100 - 100 mod 3)%Z
  /\ forall other, other <> "u1"%string -> rows_of other st' = rows_of other sample_geo.
Proof.
  apply (geographic_stats_share_out_the_activity (fun l => l) 7 "u1" 9 100
           [1%nat; 2%nat] sample_geo).
  - intros l Hl. split; [exact Hl|]. split; [reflexivity|]. intro e. reflexivity.
  - unfold unique_stats_ids. cbn. repeat constructor. intros [].
  - vm_compute. reflexivity.
Defined.

Lemma first_city_row (st : geo_tables) (name : string) (c : entity_row) (rest : list entity_row) :
  filter (fun e => String.eqb (en_name e) name && String.eqb (en_entity_type e) "city")
         (entities st) = c :: rest ->
  In c (entities st) /\ en_name c = name /\ en_entity_type c = "city"%string.
Proof.
  intro H. assert (Hin : In c (c :: rest)) by (left; reflexivity).
  rewrite <- H in Hin. apply filter_In in Hin. destruct Hin as [Hin Hb].
  apply andb_prop in Hb. destruct Hb as [H1 H2].
  apply String.eqb_eq in H1, H2. tauto.
Qed.

Lemma py_abs_nonneg (x : Q) : 0 <= py_abs x.
Proof.
  unfold py_abs. destruct (Qlt_bool x 0) eqn:E.
  - apply Qlt_bool_iff in E. lra.
  - destruct (Qlt_le_dec x 0) as [H|H]; [|exact H].
    apply Qlt_bool_iff in H. congruence.
Qed.

(** X25: what [get_city_battle] reports when both cities exist. The two
    sides carry the names asked for; with kilometres on the board the two
    percentages add up to 100; the first city wins only with strictly more
    kilometres, so a tie goes to the second; and a battle is close only if
    some kilometres were run. *)
Theorem city_battle_verdict (st : geo_tables) (name1 name2 : string) (b : city_battle) :
  get_city_battle st name1 name2 = Some b ->
  let km1 := cs_total_km (city1 b) in
  let km2 := cs_total_km (city2 b) in
  cs_name (city1 b) = name1 /\ cs_name (city2 b) = name2
  /\ (0 < km1 + km2 -> cs_percentage (city1 b) + cs_percentage (city2 b) == 100)
  /\ (~ 0 < km1 + km2 -> cs_percentage (city1 b) = 0 /\ cs_percentage (city2 b) = 0)
  /\ (km2 < km1 -> winner b = name1)
  /\ (km1 <= km2 -> winner b = name2)
  /\ (is_close b = true -> 0 < km1 + km2).
Proof.
  unfold get_city_battle.
  destruct (filter (fun e => String.eqb (en_name e) name1
                             && String.eqb (en_entity_type e) "city") (entities st))
    as [|c1 r1] eqn:H1; [discriminate|].
  destruct (filter (fun e => String.eqb (en_name e) name2
                             && String.eqb (en_entity_type e) "city") (entities st))
    as [|c2 r2] eqn:H2; [discriminate|].
  apply first_city_row in H1, H2.
  destruct H1 as [_ [N1 _]]. destruct H2 as [_ [N2 _]].
  intro Hb. injection Hb as <-. cbn [city1 city2 winner is_close cs_name cs_total_km
                                      cs_percentage].
  set (k1 := en_total_km c1). set (k2 := en_total_km c2). clearbody k1 k2.
  split; [exact N1|]. split; [exact N2|].
  split; [|split; [|split; [|split]]].
  - intro Hpos. assert (E := Hpos). apply Qlt_bool_iff in E. rewrite E.
    field. lra.
  - intro Hn. destruct (Qlt_bool 0 (k1 + k2)) eqn:E; [|split; reflexivity].
    apply Qlt_bool_iff in E. tauto.
  - intro Hlt. apply Qlt_bool_iff in Hlt. rewrite Hlt. exact N1.
  - intro Hle. destruct (Qlt_bool k2 k1) eqn:E; [|exact N2].
    apply Qlt_bool_iff in E. lra.
  - intro Hc. apply Qlt_bool_iff in Hc.
    pose proof (py_abs_nonneg (k1 - k2)). lra.
Qed.

Lemma city_battle_verdict_witness :
  exists b,
    get_city_battle sample_geo "Madrid" "Barcelona" = Some b
    /\ cs_percentage (city1 b) + cs_percentage (city2 b) == 100
    /\ winner b = "Madrid"%string.
Proof.
  eexists. split; [reflexivity|].
  destruct (city_battle_verdict sample_geo "Madrid" "Barcelona" _ eq_refl)
    as [_ [_ [Hp [_ [Hw _]]]]].
  split; [apply Hp; vm_compute; reflexivity | apply Hw; vm_compute; reflexivity].
Defined.

End GeoFacts.

(** ** Allocation of kilometres to competitions *)

Module CompetitionFacts.
Import Py CompetitionService CompetitionSpec.
Local Open Scope string_scope.
Local Open Scope list_scope.
Local Open Scope Q_scope.

Section Ordering.

Variable order_by_points : list participant -> list participant.

Lemma rank_loop_tables (participants : list participant) :
  forall idx st,
    competitions (rank_loop idx participants st) = competitions st
    /\ activity_allocations (rank_loop idx participants st) = activity_allocations st.
Proof.
  induction participants as [|p rest IH]; intros idx st; cbn [rank_loop].
  - split; reflexivity.
  - destruct (IH (idx + 1)%Z (set_rank idx (p_id p) st)) as [H1 H2].
    rewrite H1, H2. split; reflexivity.
Qed.

Lemma allocate_one_returned (activity_id user_id : string) (total_activity_km : Q)
    (allocation : ActivityAllocation) (st st1 : comp_tables)
    (entry : option allocation_result) :
  allocate_one activity_id user_id total_activity_km allocation st = (Returned entry, st1) ->
  competitions st1 = competitions st
  /\ match entry with
     | None => st1 = st
     | Some r =>
         activity_allocations st1 = activity_allocations st ++ [stored_row activity_id r]
         /\ ar_competition_id r = competition_id allocation
         /\ ar_allocated_km r = allocated_km allocation
         /\ ar_points_earned r = py_int (allocated_km allocation * 10)
         /\ is_active (ar_competition_id r) st
     end.
Proof.
  unfold allocate_one.
  destruct (filter _ (competitions st)) as [|competition rest] eqn:Hc.
  - intro H. injection H as <- <-. split; reflexivity.
  - assert (Hact : is_active (competition_id allocation) st).
    { assert (Hin : In competition (competition :: rest)) by (left; reflexivity).
      rewrite <- Hc in Hin. apply filter_In in Hin. destruct Hin as [Hin Hb].
      apply andb_prop in Hb. destruct Hb as [H1 H2]. apply String.eqb_eq in H1, H2.
      exists competition. tauto. }
    match goal with
    | |- (match ?pct with Returned _ => _ | Raised _ => _ end) = _ -> _ =>
        destruct pct as [percentage|e]
    end; [|discriminate].
    cbn [competition_participants].
    destruct (filter _ (competition_participants st)) as [|p0 ps];
      intro H; injection H as <- <-; cbn; tauto.
Qed.

Lemma allocation_loop_returned (activity_id user_id : string) (total_activity_km : Q)
    (allocs : list ActivityAllocation) :
  forall results st res st1,
    allocation_loop activity_id user_id total_activity_km allocs results st
      = (Returned res, st1) ->
    exists new,
      res = results ++ new
      /\ competitions st1 = competitions st
      /\ activity_allocations st1
         = activity_allocations st ++ map (stored_row activity_id) new
      /\ (List.length new <= List.length allocs)%nat
      /\ Forall (fun r => is_active (ar_competition_id r) st
                          /\ ar_points_earned r = py_int (ar_allocated_km r * 10)
                          /\ exists a, In a allocs
                                       /\ competition_id a = ar_competition_id r
                                       /\ allocated_km a = ar_allocated_km r) new.
Proof.
  induction allocs as [|a rest IH]; intros results st res st1; cbn [allocation_loop].
  - intro H. injection H as <- <-. exists []. rewrite !app_nil_r. cbn.
    repeat split; auto.
  - destruct (allocate_one activity_id user_id total_activity_km a st)
      as [[[r|]|e] st0] eqn:Hone; [| |discriminate].
    + intro H. apply IH in H. destruct H as [new [E1 [E2 [E3 [E4 E5]]]]].
      apply allocate_one_returned in Hone.
      destruct Hone as [C [A [I1 [I2 [I3 I4]]]]].
      exists (r :: new). rewrite E1, <- app_assoc. split; [reflexivity|].
      split; [congruence|]. split.
      { rewrite E3, A, <- app_assoc. reflexivity. }
      split; [cbn; lia|].
      constructor.
      * split; [exact I4|]. split; [rewrite I3, I2; reflexivity|].
        exists a. split; [left; reflexivity|]. split; congruence.
      * eapply Forall_impl; [|exact E5]. cbn beta.
        intros r' [[c [Hc1 Hc2]] [Hp [a' [Ha1 Ha2]]]]. split.
        { exists c. rewrite <- C. tauto. }
        split; [exact Hp|]. exists a'. split; [right; exact Ha1|exact Ha2].
    + intro H. apply IH in H. destruct H as [new [E1 [E2 [E3 [E4 E5]]]]].
      apply allocate_one_returned in Hone. destruct Hone as [C ->].
      exists new. split; [exact E1|]. split; [exact E2|]. split; [exact E3|].
      split; [cbn; lia|].
      eapply Forall_impl; [|exact E5]. cbn beta.
      intros r' [Hact [Hp [a' [Ha1 Ha2]]]]. split; [exact Hact|].
      split; [exact Hp|]. exists a'. split; [right; exact Ha1|exact Ha2].
Qed.

Lemma stored_rows_of_a_successful_call
    (activity_id user_id : string) (allocs : list ActivityAllocation)
    (total_activity_km : Q) (st st' : comp_tables) (response : allocation_response) :
  allocate_activity_km order_by_points activity_id user_id allocs total_activity_km st
    = (Returned response, st') ->
  competitions st' = competitions st
  /\ activity_allocations st'
     = activity_allocations st ++ map (stored_row activity_id) (allocations response).
Proof.
  unfold allocate_activity_km.
  destruct (Qlt_bool total_activity_km (py_sum (map allocated_km allocs)));
    [discriminate|].
  destruct (allocation_loop activity_id user_id total_activity_km allocs [] st)
    as [[results|e] st1] eqn:Hloop; [|discriminate].
  destruct (last (map Some allocs) None) as [allocation|]; [|discriminate].
  intro H. injection H as <- <-. cbn [allocations].
  apply allocation_loop_returned in Hloop.
  destruct Hloop as [new [E1 [E2 [E3 _]]]]. cbn [app] in E1. subst results.
  unfold _recalculate_competition_rankings.
  destruct (rank_loop_tables
              (order_by_points
                 (filter (fun p => String.eqb (p_competition_id p) (competition_id allocation))
                         (competition_participants st1))) 1%Z st1) as [R1 R2].
  rewrite R1, R2. split; [exact E2|exact E3].
Qed.

(** X26: what a successful [allocate_activity_km] has done. The request
    was not empty and did not exceed the activity, so the kilometres left
    are not negative; every entry of the response is for an active
    competition of the request, with [int(km * 10)] points; and the rows
    added to [activity_allocations] are exactly the entries of the
    response, in order. *)
Theorem successful_allocation_is_stored_as_reported
    (activity_id user_id : string) (allocs : list ActivityAllocation)
    (total_activity_km : Q) (st st' : comp_tables) (response : allocation_response) :
  allocate_activity_km order_by_points activity_id user_id allocs total_activity_km st
    = (Returned response, st') ->
  allocs <> []
  /\ total_allocated response = py_sum (map allocated_km allocs)
  /\ 0 <= remaining_km response
  /\ remaining_km response = total_activity_km - total_allocated response
  /\ competitions st' = competitions st
  /\ activity_allocations st'
     = activity_allocations st ++ map (stored_row activity_id) (allocations response)
  /\ (List.length (allocations response) <= List.length allocs)%nat
  /\ Forall (fun r => is_active (ar_competition_id r) st
                      /\ ar_points_earned r = py_int (ar_allocated_km r * 10)
                      /\ exists a, In a allocs
                                   /\ competition_id a = ar_competition_id r
                                   /\ allocated_km a = ar_allocated_km r)
            (allocations response).
Proof.
  unfold allocate_activity_km.
  destruct (Qlt_bool total_activity_km (py_sum (map allocated_km allocs))) eqn:Hover;
    [discriminate|].
  destruct (allocation_loop activity_id user_id total_activity_km allocs [] st)
    as [[results|e] st1] eqn:Hloop; [|discriminate].
  destruct (last (map Some allocs) None) as [allocation|] eqn:Hlast; [|discriminate].
  intro H. injection H as <- <-.
  cbn [total_allocated remaining_km allocations].
  apply allocation_loop_returned in Hloop.
  destruct Hloop as [new [E1 [E2 [E3 [E4 E5]]]]]. cbn [app] in E1. subst results.
  unfold _recalculate_competition_rankings.
  destruct (rank_loop_tables
              (order_by_points
                 (filter (fun p => String.eqb (p_competition_id p) (competition_id allocation))
                         (competition_participants st1))) 1%Z st1) as [R1 R2].
  rewrite R1, R2.
  split; [intro E; subst allocs; discriminate|].
  split; [reflexivity|]. split.
  { destruct (Qlt_le_dec total_activity_km (py_sum (map allocated_km allocs))) as [L|L].
    - apply Qlt_bool_iff in L. congruence.
    - lra. }
  split; [reflexivity|]. split; [exact E2|]. split; [exact E3|].
  split; [exact E4|exact E5].
Qed.

Lemma set_rank_entries (idx : Z) (id : nat) (c u : string) (st : comp_tables) :
  entries c u (set_rank idx id st) = entries c u st.
Proof.
  unfold entries, set_rank. cbn [competition_participants].
  induction (competition_participants st) as [|p l IH]; [reflexivity|].
  cbn [map filter].
  assert (E : joined c u (if Nat.eqb (p_id p) id
                          then {| p_id := p_id p;
                                  p_competition_id := p_competition_id p;
                                  p_participant_type := p_participant_type p;
                                  p_participant_id := p_participant_id p;
                                  p_participant_name := p_participant_name p;
                                  p_total_points := p_total_points p;
                                  p_current_rank := Some idx |}
                          else p) = joined c u p).
  { destruct (Nat.eqb (p_id p) id); reflexivity. }
  rewrite E. destruct (joined c u p); cbn [List.length]; rewrite IH; reflexivity.
Qed.

Lemma rank_loop_entries (c u : string) (participants : list participant) :
  forall idx st, entries c u (rank_loop idx participants st) = entries c u st.
Proof.
  induction participants as [|p rest IH]; intros idx st; cbn [rank_loop]; [reflexivity|].
  rewrite IH. apply set_rank_entries.
Qed.

Lemma add_participant_entries (c c' u : string) (st : comp_tables) :
  u <> ""%string ->
  entries c u (_add_participant c' "user" (Some u) None st)
  = (entries c u st + (if String.eqb c' c then 1 else 0))%nat.
Proof.
  intro Hu. unfold entries, _add_participant. cbn [competition_participants].
  rewrite filter_app, length_app. f_equal.
  cbn [filter]. unfold joined at 1. cbn [p_competition_id p_participant_type p_participant_id].
  unfold truthy_str. apply String.eqb_neq in Hu. rewrite Hu. cbn [negb].
  rewrite !String.eqb_refl, andb_true_r.
  destruct (String.eqb c' c); reflexivity.
Qed.

Lemma allocate_one_entries (activity_id user_id : string) (total_activity_km : Q)
    (allocation : ActivityAllocation) (st st1 : comp_tables)
    (out : outcome (option allocation_result)) (c : string) :
  user_id <> ""%string ->
  allocate_one activity_id user_id total_activity_km allocation st = (out, st1) ->
  (entries c user_id st <= entries c user_id st1)%nat
  /\ (entries c user_id st1 <= Nat.max 1 (entries c user_id st))%nat
  /\ forall r, out = Returned (Some r) ->
               (1 <= entries (ar_competition_id r) user_id st1)%nat.
Proof.
  intro Hu. unfold allocate_one.
  destruct (filter _ (competitions st)) as [|competition rest].
  { intro H. injection H as <- <-. split; [lia|]. split; [lia|]. discriminate. }
  match goal with
  | |- (match ?pct with Returned _ => _ | Raised _ => _ end) = _ -> _ =>
      destruct pct as [percentage|e]
  end.
  2:{ intro H. injection H as <- <-. split; [lia|]. split; [lia|]. discriminate. }
  cbn [competition_participants].
  change (filter _ (competition_participants st))
    with (filter (joined (competition_id allocation) user_id) (competition_participants st)).
  set (st0 := {| competitions := competitions st;
                 activity_allocations := _;
                 competition_participants := competition_participants st |}).
  assert (E0 : forall c', entries c' user_id st0 = entries c' user_id st) by reflexivity.
  destruct (filter (joined (competition_id allocation) user_id)
                   (competition_participants st)) as [|p0 ps] eqn:Hp;
    intro H; injection H as <- <-.
  - assert (Hzero : entries (competition_id allocation) user_id st = 0%nat).
    { unfold entries. rewrite Hp. reflexivity. }
    rewrite !add_participant_entries by exact Hu. rewrite !E0.
    split; [lia|]. split.
    + destruct (String.eqb (competition_id allocation) c) eqn:E; [|lia].
      apply String.eqb_eq in E. subst c. lia.
    + intros r Hr. injection Hr as <-. cbn [ar_competition_id].
      rewrite add_participant_entries by exact Hu. rewrite String.eqb_refl. lia.
  - rewrite !E0. split; [lia|]. split; [lia|].
    intros r Hr. injection Hr as <-. cbn [ar_competition_id].
    rewrite E0. unfold entries. rewrite Hp. cbn [List.length]. lia.
Qed.

Lemma allocation_loop_entries (activity_id user_id : string) (total_activity_km : Q)
    (allocs : list ActivityAllocation) (c : string) :
  user_id <> ""%string ->
  forall results st out st1,
    allocation_loop activity_id user_id total_activity_km allocs results st = (out, st1) ->
    (entries c user_id st <= entries c user_id st1)%nat
    /\ (entries c user_id st1 <= Nat.max 1 (entries c user_id st))%nat.
Proof.
  intro Hu. induction allocs as [|a rest IH]; intros results st out st1;
    cbn [allocation_loop].
  - intro H. injection H as <- <-. lia.
  - destruct (allocate_one activity_id user_id total_activity_km a st)
      as [o st0] eqn:Hone.
    destruct (allocate_one_entries _ _ _ _ _ _ _ c Hu Hone) as [B1 [B2 _]].
    destruct o as [[r|]|e].
    + intro H. apply IH in H. lia.
    + intro H. apply IH in H. lia.
    + intro H. injection H as <- <-. lia.
Qed.

Lemma allocation_loop_joins (activity_id user_id : string) (total_activity_km : Q)
    (allocs : list ActivityAllocation) :
  user_id <> ""%string ->
  forall results st res st1,
    allocation_loop activity_id user_id total_activity_km allocs results st
      = (Returned res, st1) ->
    Forall (fun r => (1 <= entries (ar_competition_id r) user_id st)%nat) results ->
    Forall (fun r => (1 <= entries (ar_competition_id r) user_id st1)%nat) res.
Proof.
  intro Hu. induction allocs as [|a rest IH]; intros results st res st1;
    cbn [allocation_loop].
  - intro H. injection H as <- <-. tauto.
  - destruct (allocate_one activity_id user_id total_activity_km a st)
      as [o st0] eqn:Hone.
    assert (Hmono : forall c, (entries c user_id st <= entries c user_id st0)%nat).
    { intro c. exact (proj1 (allocate_one_entries _ _ _ _ _ _ _ c Hu Hone)). }
    destruct (allocate_one_entries _ _ _ _ _ _ _ ""%string Hu Hone) as [_ [_ Hnew]].
    destruct o as [[r|]|e]; [| |discriminate].
    + intros H Hres. apply (IH _ _ _ _ H). apply Forall_app. split.
      * eapply Forall_impl; [|exact Hres]. cbn beta. intros r' Hr'.
        specialize (Hmono (ar_competition_id r')). lia.
      * constructor; [apply Hnew; reflexivity|constructor].
    + intros H Hres. apply (IH _ _ _ _ H).
      eapply Forall_impl; [|exact Hres]. cbn beta. intros r' Hr'.
      specialize (Hmono (ar_competition_id r')). lia.
Qed.

(** X27: [allocate_activity_km] enters a user into a competition at most
    once. For a user id that is not the empty string and any competition,
    the call never removes an entry and never adds one where the user is
    already entered, whether it returns or raises; and after a successful
    call the user is entered into every competition of the response. *)
Theorem user_enters_a_competition_once
    (activity_id user_id : string) (allocs : list ActivityAllocation)
    (total_activity_km : Q) (st st' : comp_tables) (out : outcome allocation_response) :
  user_id <> ""%string ->
  allocate_activity_km order_by_points activity_id user_id allocs total_activity_km st
    = (out, st') ->
  (forall c, (entries c user_id st <= entries c user_id st')%nat
             /\ (entries c user_id st' <= Nat.max 1 (entries c user_id st))%nat)
  /\ forall response,
       out = Returned response ->
       Forall (fun r => (1 <= entries (ar_competition_id r) user_id st')%nat)
              (allocations response).
Proof.
  intro Hu. unfold allocate_activity_km.
  destruct (Qlt_bool total_activity_km (py_sum (map allocated_km allocs))).
  { intro H. injection H as <- <-. split; [intro c; lia|]. discriminate. }
  destruct (allocation_loop activity_id user_id total_activity_km allocs [] st)
    as [o st1] eqn:Hloop.
  assert (Hb : forall c, (entries c user_id st <= entries c user_id st1)%nat
                         /\ (entries c user_id st1 <= Nat.max 1 (entries c user_id st))%nat).
  { intro c. exact (allocation_loop_entries _ _ _ _ c Hu _ _ _ _ Hloop). }
  destruct o as [results|e].
  2:{ intro H. injection H as <- <-. split; [exact Hb|]. discriminate. }
  destruct (last (map Some allocs) None) as [allocation|].
  2:{ intro H. injection H as <- <-. split; [exact Hb|]. discriminate. }
  intro H. injection H as <- <-.
  unfold _recalculate_competition_rankings.
  split.
  - intro c. rewrite rank_loop_entries. apply Hb.
  - intros response Hr. injection Hr as <-. cbn [allocations].
    pose proof (allocation_loop_joins _ _ _ _ Hu _ _ _ _ Hloop (Forall_nil _)) as Hj.
    eapply Forall_impl; [|exact Hj]. cbn beta. intros r Hr.
    rewrite rank_loop_entries. exact Hr.
Qed.

Lemma allocate_one_reads_competitions (activity_id user_id : string)
    (total_activity_km : Q) (allocation : ActivityAllocation) (st st2 : comp_tables) :
  competitions st2 = competitions st ->
  fst (allocate_one activity_id user_id total_activity_km allocation st2)
  = fst (allocate_one activity_id user_id total_activity_km allocation st)
  /\ competitions (snd (allocate_one activity_id user_id total_activity_km allocation st2))
     = competitions (snd (allocate_one activity_id user_id total_activity_km allocation st)).
Proof.
  intro E. unfold allocate_one. rewrite E.
  destruct (filter _ (competitions st)) as [|competition rest]; [split; [reflexivity|exact E]|].
  match goal with
  | |- fst (match ?pct with Returned _ => _ | Raised _ => _ end) = _ /\ _ =>
      destruct pct as [percentage|e]
  end; [|split; [reflexivity|exact E]].
  cbn [competition_participants fst snd].
  destruct (filter _ (competition_participants st2));
    destruct (filter _ (competition_participants st)); split; cbn; congruence.
Qed.

Lemma allocation_loop_reads_competitions (activity_id user_id : string)
    (total_activity_km : Q) (allocs : list ActivityAllocation) :
  forall results st st2,
    competitions st2 = competitions st ->
    fst (allocation_loop activity_id user_id total_activity_km allocs results st2)
    = fst (allocation_loop activity_id user_id total_activity_km allocs results st).
Proof.
  induction allocs as [|a rest IH]; intros results st st2 E; cbn [allocation_loop];
    [reflexivity|].
  destruct (allocate_one_reads_competitions activity_id user_id total_activity_km a st st2 E)
    as [H1 H2].
  destruct (allocate_one activity_id user_id total_activity_km a st2) as [o2 s2].
  destruct (allocate_one activity_id user_id total_activity_km a st) as [o1 s1].
  cbn [fst snd] in H1, H2. subst o2.
  destruct o1 as [[r|]|e]; [apply IH; exact H2 | apply IH; exact H2 | reflexivity].
Qed.

(** X28: nothing stops an activity from being allocated twice. If
    [allocate_activity_km] succeeds, the same call made again succeeds
    with the same response and stores the same rows a second time, so
    the kilometres stored for the activity can exceed its distance. *)
Theorem allocation_can_be_repeated
    (activity_id user_id : string) (allocs : list ActivityAllocation)
    (total_activity_km : Q) (st st1 : comp_tables) (response : allocation_response) :
  allocate_activity_km order_by_points activity_id user_id allocs total_activity_km st
    = (Returned response, st1) ->
  exists st2,
    allocate_activity_km order_by_points activity_id user_id allocs total_activity_km st1
      = (Returned response, st2)
    /\ activity_allocations st2
       = activity_allocations st
         ++ map (stored_row activity_id) (allocations response)
         ++ map (stored_row activity_id) (allocations response).
Proof.
  intro H1.
  destruct (stored_rows_of_a_successful_call _ _ _ _ _ _ _ H1)
    as [C1 A1].
  destruct (allocate_activity_km order_by_points activity_id user_id allocs
              total_activity_km st1) as [out2 st2] eqn:H2.
  assert (Hout : out2 = Returned response).
  { revert H1 H2. unfold allocate_activity_km.
    destruct (Qlt_bool total_activity_km (py_sum (map allocated_km allocs)));
      [discriminate|].
    pose proof (allocation_loop_reads_competitions activity_id user_id total_activity_km
                  allocs [] st st1 C1) as Hsame.
    destruct (allocation_loop activity_id user_id total_activity_km allocs [] st)
      as [o s] eqn:L1.
    destruct (allocation_loop activity_id user_id total_activity_km allocs [] st1)
      as [o' s'] eqn:L2.
    cbn [fst] in Hsame. subst o'.
    destruct o as [results|e]; [|discriminate].
    destruct (last (map Some allocs) None) as [allocation|]; [|discriminate].
    intros E1 E2. injection E1 as <- _. injection E2 as <- _. reflexivity. }
  subst out2. exists st2. split; [reflexivity|].
  destruct (stored_rows_of_a_successful_call _ _ _ _ _ _ _ H2)
    as [_ A2].
  rewrite A2, A1, <- app_assoc. reflexivity.
Qed.

Lemma position_absent (id : nat) (ids : list nat) :
  ~ In id ids -> position id ids = None.
Proof.
  induction ids as [|x rest IH]; intro H; cbn [position]; [reflexivity|].
  cbn [In] in H. destruct (Nat.eqb x id) eqn:E.
  - apply Nat.eqb_eq in E. tauto.
  - rewrite IH by tauto. reflexivity.
Qed.

Lemma position_present (id : nat) (ids : list nat) :
  In id ids -> exists k, position id ids = Some k /\ (k < List.length ids)%nat.
Proof.
  induction ids as [|x rest IH]; intro H; [destruct H|]. cbn [position List.length].
  destruct (Nat.eqb x id) eqn:E.
  - exists 0%nat. split; [reflexivity|lia].
  - apply Nat.eqb_neq in E. destruct H as [H|H]; [tauto|].
    destruct (IH H) as [k [Hk Hlt]]. exists (S k). rewrite Hk. split; [reflexivity|lia].
Qed.

Lemma position_of_nth (ids : list nat) :
  NoDup ids ->
  forall k id, nth_error ids k = Some id -> position id ids = Some k.
Proof.
  induction 1 as [|x rest Hnotin Hnd IH]; intros k id Hk.
  - destruct k; discriminate.
  - cbn [position]. destruct k as [|k]; cbn [nth_error] in Hk.
    + injection Hk as ->. rewrite Nat.eqb_refl. reflexivity.
    + destruct (Nat.eqb x id) eqn:E.
      * apply Nat.eqb_eq in E. subst x. apply nth_error_In in Hk. tauto.
      * rewrite (IH k id Hk). reflexivity.
Qed.

Lemma rank_loop_participants (listed : list participant) :
  NoDup (map p_id listed) ->
  forall idx st,
    competition_participants (rank_loop idx listed st)
    = map (ranked_from idx listed) (competition_participants st).
Proof.
  induction listed as [|p rest IH]; intros Hnd idx st; cbn [rank_loop].
  - rewrite <- (map_id (competition_participants st)) at 1.
    apply map_ext. intro r. reflexivity.
  - cbn [map] in Hnd. apply NoDup_cons_iff in Hnd. destruct Hnd as [Hnotin Hnd].
    rewrite (IH Hnd). unfold set_rank. cbn [competition_participants].
    rewrite map_map. apply map_ext. intro r.
    change (ranked_from (idx + 1) rest
              (if Nat.eqb (p_id r) (p_id p) then with_rank idx r else r)
            = ranked_from idx (p :: rest) r).
    unfold ranked_from. cbn [map position].
    rewrite (Nat.eqb_sym (p_id p) (p_id r)).
    destruct (Nat.eqb (p_id r) (p_id p)) eqn:E.
    + apply Nat.eqb_eq in E. cbn [with_rank p_id]. rewrite E.
      rewrite (position_absent _ _ Hnotin). cbn [Z.of_nat]. rewrite Z.add_0_r.
      reflexivity.
    + destruct (position (p_id r) (map p_id rest)) as [k|]; cbn [option_map];
        [|reflexivity].
      f_equal. lia.
Qed.

Lemma ranked_from_keeps (idx : Z) (listed : list participant) (p : participant) :
  p_id (ranked_from idx listed p) = p_id p
  /\ p_competition_id (ranked_from idx listed p) = p_competition_id p.
Proof.
  unfold ranked_from. destruct (position _ _); split; reflexivity.
Qed.

Lemma same_id_same_row (l : list participant) :
  NoDup (map p_id l) ->
  forall q r, In q l -> In r l -> p_id q = p_id r -> q = r.
Proof.
  induction l as [|a l IH]; intros Hnd q r Hq Hr E; [destruct Hq|].
  cbn [map] in Hnd. apply NoDup_cons_iff in Hnd. destruct Hnd as [Hnotin Hnd].
  destruct Hq as [->|Hq]; destruct Hr as [->|Hr].
  - reflexivity.
  - exfalso. apply Hnotin. rewrite E. apply in_map. exact Hr.
  - exfalso. apply Hnotin. rewrite <- E. apply in_map. exact Hq.
  - exact (IH Hnd q r Hq Hr E).
Qed.

Lemma nodup_ids_of_selection (f : participant -> bool) (l : list participant) :
  NoDup (map p_id l) -> NoDup (map p_id (filter f l)).
Proof.
  induction l as [|a l IH]; intro Hnd; [constructor|].
  cbn [map] in Hnd. apply NoDup_cons_iff in Hnd. destruct Hnd as [Hnotin Hnd].
  cbn [filter]. destruct (f a); [|exact (IH Hnd)].
  cbn [map]. constructor; [|exact (IH Hnd)].
  intro H. apply Hnotin. apply in_map_iff in H. destruct H as [x [Hx Hin]].
  apply filter_In in Hin. rewrite <- Hx. apply in_map. tauto.
Qed.

Lemma selection_untouched (f : participant -> bool) (g : participant -> participant)
    (l : list participant) :
  (forall r, In r l -> f (g r) = f r /\ (f r = true -> g r = r)) ->
  filter f (map g l) = filter f l.
Proof.
  induction l as [|a l IH]; intro H; [reflexivity|].
  cbn [map filter].
  destruct (H a (or_introl eq_refl)) as [H1 H2]. rewrite H1.
  rewrite IH by (intros r Hr; apply H; right; exact Hr).
  destruct (f a); [rewrite H2 by reflexivity|]; reflexivity.
Qed.

(** X29: [_recalculate_competition_rankings] numbers the participants of
    a competition in the order the database returns them. When the ids
    of the table are unique and the database returns the competition's
    rows, each once, the row returned k-th (from 0) ends with rank k + 1
    and is otherwise unchanged; every participant of the competition
    ends with a rank between 1 and their number; and the participants of
    every other competition stay as they were. *)
Theorem ranks_follow_the_order_of_the_database (competition_id : string) (st : comp_tables) :
  unique_participant_ids st ->
  returns_each_once order_by_points (participants_of competition_id st) ->
  let st' := _recalculate_competition_rankings order_by_points competition_id st in
  (forall k p,
      nth_error (order_by_points (participants_of competition_id st)) k = Some p ->
      In (with_rank (Z.of_nat k + 1) p) (competition_participants st'))
  /\ (forall p,
         In p (participants_of competition_id st') ->
         exists rank,
           p_current_rank p = Some rank
           /\ (1 <= rank <= Z.of_nat (List.length (participants_of competition_id st)))%Z)
  /\ (forall other,
         other <> competition_id ->
         participants_of other st' = participants_of other st)
  /\ map p_id (competition_participants st') = map p_id (competition_participants st).
Proof.
  intros Huniq [Hnd Hlisted]. cbv zeta.
  unfold _recalculate_competition_rankings.
  fold (participants_of competition_id st).
  set (rows := participants_of competition_id st) in *.
  set (listed := order_by_points rows) in *.
  assert (Hrows : forall p, In p rows <->
                            In p (competition_participants st)
                            /\ p_competition_id p = competition_id).
  { intro p. unfold rows, participants_of. rewrite filter_In, String.eqb_eq. tauto. }
  assert (Hlen : (List.length listed <= List.length rows)%nat).
  { rewrite <- (length_map p_id listed), <- (length_map p_id rows).
    apply NoDup_incl_length; [exact Hnd|].
    intros id Hid. apply in_map_iff in Hid. destruct Hid as [q [<- Hq]].
    apply in_map. apply Hlisted. exact Hq. }
  unfold participants_of at 1 2.
  rewrite (rank_loop_participants listed Hnd).
  split; [|split; [|split]].
  - intros k p Hk.
    assert (Hin : In p (competition_participants st)).
    { apply Hrows. apply Hlisted. exact (nth_error_In _ _ Hk). }
    assert (Hpos : position (p_id p) (map p_id listed) = Some k).
    { apply position_of_nth; [exact Hnd|]. apply map_nth_error. exact Hk. }
    apply in_map_iff. exists p. split; [|exact Hin].
    unfold ranked_from. rewrite Hpos. f_equal. lia.
  - intros p Hp. apply filter_In in Hp. destruct Hp as [Hp Hc].
    apply String.eqb_eq in Hc.
    apply in_map_iff in Hp. destruct Hp as [r [Hr Hin]]. subst p.
    destruct (ranked_from_keeps 1 listed r) as [_ Hcomp]. rewrite Hcomp in Hc.
    assert (Hl : In (p_id r) (map p_id listed)).
    { apply in_map. apply Hlisted. apply Hrows. tauto. }
    apply position_present in Hl. destruct Hl as [k [Hk Hlt]].
    rewrite length_map in Hlt.
    unfold ranked_from. rewrite Hk. cbn [with_rank p_current_rank].
    eexists. split; [reflexivity|]. lia.
  - intros other Hother. apply selection_untouched. intros r Hr. split.
    + destruct (ranked_from_keeps 1 listed r) as [_ Hcomp]. rewrite Hcomp. reflexivity.
    + intro Hc. apply String.eqb_eq in Hc.
      unfold ranked_from. rewrite position_absent; [reflexivity|].
      intro Hid. apply in_map_iff in Hid. destruct Hid as [q [Eq Hq]].
      apply Hlisted, Hrows in Hq. destruct Hq as [Hq Hqc].
      assert (q = r) by (apply (same_id_same_row _ Huniq); assumption).
      subst q. congruence.
  - rewrite map_map. apply map_ext. intro r. apply ranked_from_keeps.
Qed.



End Ordering.

Lemma successful_allocation_is_stored_as_reported_witness :
  exists response st',
    allocate_activity_km sort_by_points "a1" "u1" sample_allocations 5 sample_competitions
      = (Returned response, st')
    /\ 0 <= remaining_km response
    /\ activity_allocations st'
       = activity_allocations sample_competitions
         ++ map (stored_row "a1") (allocations response).
Proof.
  destruct (allocate_activity_km sort_by_points "a1" "u1" sample_allocations 5
              sample_competitions) as [[response|e] st'] eqn:H;
    [|vm_compute in H; discriminate].
  exists response, st'. split; [reflexivity|].
  destruct (successful_allocation_is_stored_as_reported sort_by_points "a1" "u1"
              sample_allocations 5 sample_competitions st' response H)
    as [_ [_ [Hr [_ [_ [Hs _]]]]]].
  split; [exact Hr|exact Hs].
Defined.

Lemma ranks_follow_the_order_of_the_database_witness :
  let st' := _recalculate_competition_rankings sort_by_points "c1" sample_competitions in
  (forall k p,
      nth_error (sort_by_points (participants_of "c1" sample_competitions)) k = Some p ->
      In (with_rank (Z.of_nat k + 1) p) (competition_participants st'))
  /\ (forall p,
         In p (participants_of "c1" st') ->
         exists rank,
           p_current_rank p = Some rank
           /\ (1 <= rank
               <= Z.of_nat (List.length (participants_of "c1" sample_competitions)))%Z)
  /\ (forall other,
         other <> "c1"%string ->
         participants_of other st' = participants_of other sample_competitions)
  /\ map p_id (competition_participants st')
     = map p_id (competition_participants sample_competitions).
Proof.
  apply (ranks_follow_the_order_of_the_database sort_by_points "c1" sample_competitions).
  - unfold unique_participant_ids. cbn. repeat constructor; cbn; intuition discriminate.
  - split.
    + cbn. repeat constructor; cbn; intuition discriminate.
    + intro p. cbn. tauto.
Defined.

Lemma user_enters_a_competition_once_witness :
  exists out st',
    allocate_activity_km sort_by_points "a1" "u1" sample_allocations 5 sample_competitions
      = (out, st')
    /\ forall c, (entries c "u1" sample_competitions <= entries c "u1" st')%nat
                 /\ (entries c "u1" st'
                     <= Nat.max 1 (entries c "u1" sample_competitions))%nat.
Proof.
  destruct (allocate_activity_km sort_by_points "a1" "u1" sample_allocations 5
              sample_competitions) as [out st'] eqn:H.
  exists out, st'. split; [reflexivity|].
  apply (user_enters_a_competition_once sort_by_points "a1" "u1" sample_allocations 5
           sample_competitions st' out); [discriminate|exact H].
Defined.

Lemma allocation_can_be_repeated_witness :
  exists response st1 st2,
    allocate_activity_km sort_by_points "a1" "u1" sample_allocations 5 sample_competitions
      = (Returned response, st1)
    /\ allocate_activity_km sort_by_points "a1" "u1" sample_allocations 5 st1
       = (Returned response, st2)
    /\ activity_allocations st2
       = activity_allocations sample_competitions
         ++ map (stored_row "a1") (allocations response)
         ++ map (stored_row "a1") (allocations response).
Proof.
  destruct (allocate_activity_km sort_by_points "a1" "u1" sample_allocations 5
              sample_competitions) as [[response|e] st1] eqn:H;
    [|vm_compute in H; discriminate].
  destruct (allocation_can_be_repeated sort_by_points "a1" "u1" sample_allocations 5
              sample_competitions st1 response H) as [st2 [H2 H3]].
  exists response, st1, st2. split; [reflexivity|]. split; [exact H2|exact H3].
Defined.

End CompetitionFacts.
